(* ===== verification/_CoqProject ===== *)
-Q . S2P
Prelude.v
Json.v
JsonParse.v
JsonRoundtrip.v
Pathlib.v
Runtime.v
Mock.v
Account.v
Provision.v
Args.v
Main.v
Trail.v
ExitStatus.v
Toplevel.v
