(* ===== verification/Prelude.v ===== *)
(** * Verification of [src/helm/aws-iam/createrole.py]

    The program is one Python script.  [main] parses the command line
    ([getargs]: argparse, creation of the working directory, a check that
    no username is a full ARN), stores the namespace in the global [ARGS],
    derives four names from the account name and runs
    [create_identity_mapping], which resolves the account id
    ([get_aws_account_id]: [aws sts get-caller-identity], decoded with
    [json.loads], memoised in the global [AWS_ACCOUNT_ID]) and starts
    [eksctl create iamidentitymapping].  Three more operations are defined
    but their calls are commented out: [create_aws_role] and
    [XXXcreate_aws_policy] mutate the module-level dicts [ROLE_TEMPLATE]
    and [POLICY_TEMPLATE] in place, [json.dump] them into the working
    directory and start [aws iam] commands; [create_aws_group] creates a
    group, attaches the rendered policy and adds every user.  Every
    external command goes through [run_command] ([print] then
    [subprocess.run]).  The module body first runs six imports (lines
    2-7), two of them unused ([sre_parse.State], [yaml]), and ends with
    the [__main__] guard (lines 221-222) that calls [main].

    ** Files, in dependency order

    - [Prelude]: the Python exceptions ([pyexn]), a state-and-exception
      monad [st S E A = S -> outcome E A * S] whose failures keep the
      state (side effects before a [raise] stay), its notation in
      [py_scope], the loop [for_], string helpers ([str_join], [str_in])
      and the rewrite database [pyrun_rw]; two ways to follow a script
      through the monad: [preserves] (an invariant of the state, tactic
      [solve_preserves]) and [raise_ok] (what holds when an exception
      escapes, tactic [solve_raise_ok]).
    - [Json]: Python values of the templates ([json]), subscript read and
      assignment with their [KeyError]/[IndexError]/[TypeError]
      ([getitem], [setitem], [update_at] for the nested assignments of
      lines 66, 84-86, 110-112), [json.dump] with its defaults ([dumps]:
      separators [", "] and [": "], [ensure_ascii] escapes), [str()] and
      [repr()] as f-strings use them, and Python truthiness.
    - [JsonParse]: [json.loads] as CPython's C scanner, positions and
      messages of [JSONDecodeError] included, with fuel.
    - [JsonRoundtrip]: [json.loads] returns what [json.dump] wrote, and
      [ensure_ascii] output is printable ASCII.
    - [Pathlib]: [pathlib.Path] normalisation, [/], [str()], a file system
      ([fs]: a [gset] of directories and a [gmap] of files), [os.mkdir],
      [Path.mkdir(parents=True, exist_ok=True)] with its recursion on the
      parent (fuel), [open("w")]; the invariant [wf_fs] and its
      executable checker [wf_fsb].
    - [Runtime]: the interface [ExternalTools] (a class: how a command
      line acts on the state of the services), the namespace [args], the
      world of a run (file system, output, log of started commands,
      services, the four globals), [subprocess_run] and [run_command].
    - [Mock]: one instance of [ExternalTools] (IAM users, roles, groups,
      clusters, identity mappings; [aws] reads [file://] parameters from
      the file system) and one whose credentials have expired.  The
      concrete runs use them.
    - [Account]: [get_aws_account_id] and [decode_account] (line 56,
      [json.loads(run.stdout)["Account"]]); the class [StableIdentity]
      (the identity check reads the services only).
    - [Provision]: the derived names, the command lines, the two
      template assignments ([set_principals], line 66; [set_resource],
      lines 84-86 and 110-112), [dump_to] ([json.dump(doc, p.open("w"))])
      and the four operations; [role_doc] and [policy_doc] are the
      documents built afresh.
    - [Args]: the argparse parser of lines 162-193 ([option_table]) and a
      model of [parse_args] (CPython 3.11: abbreviations, [--opt=value],
      attached short values, [--] (which an option never takes as its
      value, and which counts as an unrecognised argument once the
      positional is filled unless it directly follows its value),
      negative-number arguments, required and unknown arguments, exit
      status 2 with the usage prefix),
      [make_workdir] (lines 196-197), the username guard [full_arn_like]
      and [check_usernames], then [getargs].
    - [Main]: [main], the [__main__] guard ([exit_status], traceback for
      exceptions other than [SystemExit]) and [run_script].
    - [Trail]: the audit trail: the invariant [echoed] (the echo lines of
      the commands started are a subsequence of what was printed) and its
      preservation by every operation.
    - [ExitStatus]: the exit statuses a run can have, from the
      exceptions [main] can let escape ([exit_report]).
    - [Toplevel]: the module body ([createrole_py]: the imports and the
      guard) over an [interpreter] that says what is installed, as the
      function [exec_module].

    ** What the theorems show

    - The whole run ([Main]): a valid command line creates the working
      directory, starts exactly the identity check and the mapping command
      with [arn:aws:iam::<account>:role/eks-<name>-role] and
      [eks-<name>], and exits 0 whatever [eksctl] returns; a failing
      identity check exits 1 with nothing else started; a username with
      [:] or [/] exits 2 before any command, the directory already
      created; a refused command line exits 2 (0 for [-h]) touching
      nothing; a working directory that is a regular file exits 1 with a
      traceback.  Whatever the inputs, a run starts no command, the
      identity check, or the identity check and one mapping command, and
      never an [aws iam] command.
    - The audit trail ([Trail]): in every run each command started has
      been echoed as [Running: <command>], in order.  The proof composes
      lemmas [preserves echoed op], one per operation, with the tactic
      [solve_preserves] of [Prelude].
    - The account resolver ([Account]): the identity check runs once for
      any number of requests when the id is true, and on every request
      when it is false (the cache test is truthiness).
    - The operations ([Provision]): the in-place mutation of a template
      equals building [role_doc] or [policy_doc] afresh, whatever an
      earlier call left in the template (refinement); the file written and
      the commands started, in order; the group is given every user
      whatever the earlier commands returned.  They are stated for any
      [ExternalTools] instance, or any where [aws] is installed
      ([AwsInstalled]).  The four derived names are pairwise distinct and
      each determines the account name.
    - What the script writes ([Provision]): every file [dump_to] writes
      is printable ASCII that [json.loads] parses back to the document,
      whatever the file held before.  This rests on
      [JsonRoundtrip.loads_dumps] ([loads (dumps j) = Ok j] for documents
      without floats and with distinct keys, the fuel of [loads] being
      enough) and [JsonRoundtrip.dumps_printable].
    - The parser and the working directory ([Args]): every namespace
      with a username and no option value [--] is the parse of a command
      line ([render_argv]); lines 196-197 create exactly the missing
      ancestors of the working directory (from [Pathlib.mkdir_creates])
      and, run again, accept it silently and change nothing; the
      username test of line 200 is equivalent to a scan of the
      characters for [:] or [/].

    - The exit status ([ExitStatus]): every run exits with 0, 1 or 2,
      and a non-zero status always comes with a message on standard
      error, as the spec's error contract asks.
    - The top level ([Toplevel]): without PyYAML the unused
      [import yaml] ends the process with status 1 before [main] runs.

    ** Bounds and fuel

    [path_mkdir] recurses on [parent]; the fuel [length (p_parts p)] is
    enough, and any larger fuel gives the same result
    ([Pathlib.path_mkdir_fuel]).  [loads] gives the scanner the input
    length plus one; a document needs [jsize] fuel, which is at most the
    length of its encoding ([JsonRoundtrip.jsize_le]).
    Exit statuses and return codes are [Z]; the script does no arithmetic
    beyond list indexing, so nothing can overflow.

    ** Not modelled

    The IAM and EKS services themselves (they are the [ExternalTools]
    parameter); the internals of [json], [pathlib] and [subprocess]
    beyond what the script's calls observe (they are library code:
    [Json], [JsonParse] and [Pathlib] model them for the values the
    script passes, and only the call sites correspond to lines of the
    script); floats in JSON documents (the script has none); the help
    text character by character; escapes [\uXXXX] above code point 255
    in [json.loads] (reported as [NotModelled]); an option value
    attached as exactly [--] ([--opt=--], [-c--]: argparse 3.11 stores
    the empty list [[]], which the namespace model of strings cannot
    hold; [parse_argv] reports [PNotModelled] and the run stops with
    [NotModelled]); the [DeprecationWarning] that line 4 writes to
    standard error under 3.11 (an empty standard error in the theorems
    means: apart from that warning); the contents of the imported
    modules (an import succeeds or fails as the [interpreter] says); the
    assignments and [def]s of lines 9-204 as separate steps (they cannot
    fail; [initial_world] is the state they build); and concurrency: the
    script is sequential and each command is waited for. *)

From Stdlib Require Import ZArith String Ascii.
From stdpp Require Import base strings list.

(** ** Python exceptions raised by the modelled code

    The built-in exceptions the script and the library calls it makes can
    raise, with the data the model needs to tell them apart. *)

Inductive pyexn : Type :=
| KeyError (key : string)
| IndexError (msg : string)
| TypeError (msg : string)
| JSONDecodeError (msg : string) (pos : nat)
| CalledProcessError (returncode : Z) (cmd : list string)
| FileNotFoundError (path : string)
| FileExistsError (path : string)
| NotADirectoryError (path : string)
| IsADirectoryError (path : string)
| AttributeError (msg : string)
| ModuleNotFoundError (name : string)
| ImportError (name module : string)
| SystemExit (code : Z)
| NotModelled (what : string).

(** ** A state-and-exception monad

    Python code runs against a mutable world and may raise an exception at
    any point; the side effects performed before the exception stay
    performed.  A computation is therefore a function from the world to an
    outcome (a value or a raised exception) together with the world after
    it, in the style of an [OState] monad whose failure branch keeps the
    state. *)

Inductive outcome (E A : Type) : Type :=
| Ok (a : A)
| Raise (e : E).
Arguments Ok {E A} a.
Arguments Raise {E A} e.

Definition st (S E A : Type) : Type := S -> outcome E A * S.

Section Monad.
Context {S E : Type}.

Definition ret {A} (a : A) : st S E A := fun s => (Ok a, s).

Definition bind {A B} (m : st S E A) (k : A -> st S E B) : st S E B :=
  fun s =>
    match m s with
    | (Ok a, s') => k a s'
    | (Raise e, s') => (Raise e, s')
    end.

Definition raise {A} (e : E) : st S E A := fun s => (Raise e, s).
Definition get : st S E S := fun s => (Ok s, s).
Definition gets {A} (f : S -> A) : st S E A := fun s => (Ok (f s), s).
Definition modify (f : S -> S) : st S E unit := fun s => (Ok tt, f s).

(** [for x in l: body(x)] *)
Fixpoint for_ {A} (l : list A) (body : A -> st S E unit) : st S E unit :=
  match l with
  | [] => ret tt
  | x :: l' => bind (body x) (fun _ => for_ l' body)
  end.

(** [[f(x) for x in l]] *)
Fixpoint map_ {A B} (f : A -> st S E B) (l : list A) : st S E (list B) :=
  match l with
  | [] => ret []
  | x :: l' => bind (f x) (fun y => bind (map_ f l') (fun ys => ret (y :: ys)))
  end.
End Monad.

Declare Scope py_scope.
Delimit Scope py_scope with py.
Notation "x <- m ;; k" := (bind m (fun x => k))
  (at level 100, m at next level, right associativity) : py_scope.
Notation "m ;; k" := (bind m (fun _ => k))
  (at level 100, right associativity) : py_scope.

(** ** Python string helpers *)

Open Scope string_scope.

(** The double-quote character. *)
Definition dquote : ascii := "034"%char.

(** [sep.join(l)] *)
Fixpoint str_join (sep : string) (l : list string) : string :=
  match l with
  | [] => EmptyString
  | [x] => x
  | x :: l' => x ++ sep ++ str_join sep l'
  end.

(** [needle in hay] for strings: substring search. *)
Fixpoint str_in (needle hay : string) : bool :=
  String.prefix needle hay ||
  match hay with
  | EmptyString => false
  | String _ hay' => str_in needle hay'
  end.

(** Membership of one character. *)
Fixpoint char_in (c : ascii) (s : string) : bool :=
  match s with
  | EmptyString => false
  | String c' s' => Ascii.eqb c c' || char_in c s'
  end.

(** ** Generic lemmas *)

Create HintDb pyrun.
Create Rewrite HintDb pyrun_rw.

Section MonadLemmas.
Context {S E : Type}.

Lemma bind_ret_l {A B} (a : A) (k : A -> st S E B) s :
  bind (ret a) k s = k a s.
Proof. reflexivity. Qed.

Lemma bind_raise {A B} (e : E) (k : A -> st S E B) s :
  bind (raise e) k s = (Raise e, s).
Proof. reflexivity. Qed.

Lemma bind_ok {A B} (m : st S E A) (k : A -> st S E B) s a s' :
  m s = (Ok a, s') -> bind m k s = k a s'.
Proof. unfold bind. by intros ->. Qed.

Lemma bind_err {A B} (m : st S E A) (k : A -> st S E B) s e s' :
  m s = (Raise e, s') -> bind m k s = (Raise e, s').
Proof. unfold bind. by intros ->. Qed.

Lemma bind_assoc {A B C} (m : st S E A) (k : A -> st S E B)
      (h : B -> st S E C) s :
  bind (bind m k) h s = bind m (fun a => bind (k a) h) s.
Proof. unfold bind. by destruct (m s) as [[a|e] s']. Qed.

Lemma for_app {A} (l1 l2 : list A) (body : A -> st S E unit) s :
  for_ (l1 ++ l2) body s = bind (for_ l1 body) (fun _ => for_ l2 body) s.
Proof.
  revert s. induction l1 as [|x l1 IH]; intros s; [reflexivity|].
  simpl. rewrite bind_assoc. unfold bind at 1 2.
  destruct (body x s) as [[[]|e] s']; [apply IH|reflexivity].
Qed.

(** A loop whose body never fails and acts on the state by [f] runs to
    completion and acts by the composition of [f] over the list. *)
Lemma for_total {A} (l : list A) (body : A -> st S E unit) (f : A -> S -> S) s :
  (forall x s0, body x s0 = (Ok tt, f x s0)) ->
  for_ l body s = (Ok tt, foldl (fun s0 x => f x s0) s l).
Proof.
  intros Hb. revert s. induction l as [|x l IH]; intros s; [done|].
  simpl. unfold bind. rewrite Hb. apply IH.
Qed.
End MonadLemmas.

#[export] Hint Rewrite @bind_ret_l @bind_raise @bind_assoc : pyrun_rw.

(** ** Invariants of computations

    [preserves I m]: whatever [m] returns or raises, it leaves a state
    satisfying [I] when started in one.  The property is closed under the
    monad's operations, so that an invariant of a whole script follows
    from its primitives ([solve_preserves]). *)

Section Preserves.
Context {S E : Type} (I : S -> Prop).

Definition preserves {A} (m : st S E A) : Prop := forall s, I s -> I (snd (m s)).

Lemma preserves_ret {A} (a : A) : preserves (ret a).
Proof. by intros s Hs. Qed.

Lemma preserves_raise {A} (e : E) : preserves (A:=A) (raise e).
Proof. by intros s Hs. Qed.

Lemma preserves_get : preserves get.
Proof. by intros s Hs. Qed.

Lemma preserves_gets {A} (f : S -> A) : preserves (gets f).
Proof. by intros s Hs. Qed.

Lemma preserves_modify (f : S -> S) : (forall s, I s -> I (f s)) -> preserves (modify f).
Proof. intros Hf s Hs. by apply Hf. Qed.

Lemma preserves_bind {A B} (m : st S E A) (k : A -> st S E B) :
  preserves m -> (forall a, preserves (k a)) -> preserves (bind m k).
Proof.
  intros Hm Hk s Hs. unfold bind. specialize (Hm s Hs).
  destruct (m s) as [[a|e] s']; [by apply Hk | done].
Qed.

Lemma preserves_for {A} (l : list A) (body : A -> st S E unit) :
  (forall x, preserves (body x)) -> preserves (for_ l body).
Proof.
  intros Hb. induction l as [|x l IH]; [apply preserves_ret|].
  by apply preserves_bind.
Qed.

Lemma preserves_map {A B} (f : A -> st S E B) (l : list A) :
  (forall x, preserves (f x)) -> preserves (map_ f l).
Proof.
  intros Hf. induction l as [|x l IH]; [apply preserves_ret|].
  apply preserves_bind; [done|]. intros y. apply preserves_bind; [done|].
  intros ys. apply preserves_ret.
Qed.
End Preserves.

Create HintDb preserve.
#[export] Hint Resolve preserves_ret preserves_raise preserves_get preserves_gets : preserve.

(** Split a computation into binds, loops and the branches of a
    [match] until every piece is solved by the hint database: an
    operation with a lemma in [preserve] is not unfolded further. *)
Ltac solve_preserves :=
  repeat first
    [ solve [eauto with preserve]
    | apply preserves_bind; [|intros ?]
    | apply preserves_for; intros ?
    | apply preserves_map; intros ?
    | progress case_match ].

(** ** What a computation can raise

    [raise_ok Q m]: whenever [m] raises [e], the state it leaves
    satisfies [Q e].  Where [preserves] follows the state through a
    script, this follows its exceptions: a [raise] ends the computation,
    so the rule for [bind] needs no invariant in between. *)

Section RaiseOk.
Context {S E : Type} (Q : E -> S -> Prop).

Definition raise_ok {A} (m : st S E A) : Prop :=
  forall s, match m s with (Raise e, s') => Q e s' | (Ok _, _) => True end.

Lemma raise_ok_ret {A} (a : A) : raise_ok (ret a).
Proof. by intros s. Qed.

Lemma raise_ok_raise {A} (e : E) : (forall s, Q e s) -> raise_ok (A:=A) (raise e).
Proof. intros He s. apply He. Qed.

Lemma raise_ok_get : raise_ok get.
Proof. by intros s. Qed.

Lemma raise_ok_gets {A} (f : S -> A) : raise_ok (gets f).
Proof. by intros s. Qed.

Lemma raise_ok_modify (f : S -> S) : raise_ok (modify f).
Proof. by intros s. Qed.

Lemma raise_ok_bind {A B} (m : st S E A) (k : A -> st S E B) :
  raise_ok m -> (forall a, raise_ok (k a)) -> raise_ok (bind m k).
Proof.
  intros Hm Hk s. unfold bind. specialize (Hm s).
  destruct (m s) as [[a|e] s']; [apply Hk | done].
Qed.

Lemma raise_ok_for {A} (l : list A) (body : A -> st S E unit) :
  (forall x, raise_ok (body x)) -> raise_ok (for_ l body).
Proof.
  intros Hb. induction l as [|x l IH]; [apply raise_ok_ret|]. by apply raise_ok_bind.
Qed.

Lemma raise_ok_map {A B} (f : A -> st S E B) (l : list A) :
  (forall x, raise_ok (f x)) -> raise_ok (map_ f l).
Proof.
  intros Hf. induction l as [|x l IH]; [apply raise_ok_ret|].
  apply raise_ok_bind; [done|]. intros y. apply raise_ok_bind; [done|].
  intros ys. apply raise_ok_ret.
Qed.
End RaiseOk.

Create HintDb raises.
#[export] Hint Resolve raise_ok_ret raise_ok_get raise_ok_gets raise_ok_modify : raises.

(** The counterpart of [solve_preserves] for [raise_ok]. *)
Ltac solve_raise_ok :=
  repeat first
    [ solve [eauto with raises]
    | apply raise_ok_bind; [|intros ?]
    | apply raise_ok_for; intros ?
    | apply raise_ok_map; intros ?
    | progress case_match ].

(** The exceptions that end the interpreter without a traceback. *)
Definition is_exit (e : pyexn) : bool := match e with SystemExit _ => true | _ => false end.

(** Strings *)

Lemma char_in_app c s1 s2 : char_in c (s1 ++ s2) = char_in c s1 || char_in c s2.
Proof. induction s1 as [|c' s1 IH]; simpl; [done|]. rewrite IH. apply orb_assoc. Qed.

(** For a one-character needle, Python's substring test is character
    membership. *)
Lemma str_in_char c h : str_in (String c EmptyString) h = char_in c h.
Proof.
  induction h as [|c' h IH]; [done|]. simpl. rewrite IH.
  destruct (ascii_dec c c') as [->|Hne].
  - rewrite Ascii.eqb_refl. by destruct h.
  - apply Ascii.eqb_neq in Hne as ->. reflexivity.
Qed.

Lemma char_in_true c s :
  char_in c s = true <-> exists s1 s2, s = s1 ++ String c s2.
Proof.
  split.
  - induction s as [|c' s IH]; simpl; [done|].
    intros [Hc|Hs]%orb_true_iff.
    + apply Ascii.eqb_eq in Hc as ->. by exists EmptyString, s.
    + destruct (IH Hs) as (s1 & s2 & ->). by exists (String c' s1), s2.
  - intros (s1 & s2 & ->). rewrite char_in_app. simpl.
    rewrite Ascii.eqb_refl. by destruct (char_in c s1).
Qed.

#[export] Hint Rewrite str_in_char char_in_app : pyrun_rw.

(** Lists *)

Lemma forallb_Forall {A} (f : A -> bool) l : forallb f l = true <-> Forall (fun x => f x = true) l.
Proof.
  rewrite forallb_forall, Forall_forall. setoid_rewrite list_elem_of_In. done.
Qed.

(** Concatenation, as [simpl] does not unfold it once stdpp is loaded. *)

Lemma str_app_cons c s t : (String c s ++ t) = String c (s ++ t).
Proof. reflexivity. Qed.

Lemma str_app_nil t : (EmptyString ++ t) = t.
Proof. reflexivity. Qed.

Lemma str_app_nil_r s : s ++ EmptyString = s.
Proof. induction s as [|c s IH]; [done|]. by rewrite str_app_cons, IH. Qed.

Lemma str_app_assoc s t u : (s ++ t) ++ u = s ++ (t ++ u).
Proof. induction s as [|c s IH]; [reflexivity|]. by rewrite !str_app_cons, IH. Qed.

Lemma str_app_nonempty s c t : exists d u, s ++ String c t = String d u.
Proof. destruct s as [|d u]; eauto. Qed.

Lemma str_length_app s t : String.length (s ++ t) = String.length s + String.length t.
Proof. induction s as [|c s IH]; [done|]. rewrite str_app_cons. simpl. by rewrite IH. Qed.

Lemma prefix_nil s : String.prefix EmptyString s = true.
Proof. by destruct s. Qed.

Lemma substring_all m s : String.length s <= m -> substring 0 m s = s.
Proof.
  revert m. induction s as [|c s IH]; intros [|m] Hl; simpl in *; try done; [lia|].
  rewrite IH; [done|lia].
Qed.

(** Concatenation cancels on the right. *)
Lemma str_app_inj_r a b s : a ++ s = b ++ s -> a = b.
Proof.
  revert b. induction a as [|c a IH]; intros [|d b] H; try done.
  - apply (f_equal String.length) in H. rewrite str_app_cons, str_app_nil in H.
    simpl in H. rewrite str_length_app in H. lia.
  - apply (f_equal String.length) in H. rewrite str_app_cons, str_app_nil in H.
    simpl in H. rewrite str_length_app in H. lia.
  - rewrite !str_app_cons in H. injection H as -> H. by rewrite (IH b H).
Qed.

#[export] Hint Rewrite str_app_nil str_app_nil_r str_app_assoc str_length_app : pyrun_rw.
