(* ===== verification/Json.v ===== *)
(** * JSON documents as the script builds them

    The two policy templates of [createrole.py] ([ROLE_TEMPLATE],
    [POLICY_TEMPLATE]) are Python dicts of lists of dicts.  This file holds
    the value type they inhabit, Python's subscript read and subscript
    assignment on it (with the exceptions Python raises), the nested
    assignment [T["Statement"][0]["Principal"]["AWS"] = v] the script
    performs, and the serialiser [json.dump] writes with. *)

From Stdlib Require Import ZArith String Ascii DecimalString.
From stdpp Require Import base strings list.
From S2P Require Import Prelude.

Open Scope string_scope.

(** ** Values

    A Python value of the kinds [json.dump] accepts and [json.loads]
    returns: [None], [bool], [int], [float], [str], [list], and [dict] with
    string keys.  A dict is its list of items in insertion order (the order
    [json.dump] prints them in); a float is kept as the text it was read
    from, since the script never computes with one. *)

#[warnings="-register-all"]
Inductive json : Type :=
| JNull
| JBool (b : bool)
| JInt (z : Z)
| JFloat (lexeme : string)
| JStr (s : string)
| JList (l : list json)
| JDict (kvs : list (string * json)).

(** The induction principle Rocq derives for [json] has no hypothesis for
    the values inside a list or a dict; this one does. *)
Section JsonInd.
Variable P : json -> Prop.
Hypothesis HNull : P JNull.
Hypothesis HBool : forall b, P (JBool b).
Hypothesis HInt : forall z, P (JInt z).
Hypothesis HFloat : forall x, P (JFloat x).
Hypothesis HStr : forall s, P (JStr s).
Hypothesis HList : forall l, Forall P l -> P (JList l).
Hypothesis HDict : forall kvs, Forall (fun kv => P kv.2) kvs -> P (JDict kvs).

Fixpoint json_ind' (j : json) : P j :=
  match j with
  | JNull => HNull
  | JBool b => HBool b
  | JInt z => HInt z
  | JFloat x => HFloat x
  | JStr s => HStr s
  | JList l =>
      HList l ((fix go (l : list json) : Forall P l :=
                  match l with
                  | [] => List.Forall_nil _
                  | x :: l' => List.Forall_cons _ x l' (json_ind' x) (go l')
                  end) l)
  | JDict kvs =>
      HDict kvs ((fix go (kvs : list (string * json)) :
                    Forall (fun kv => P kv.2) kvs :=
                    match kvs with
                    | [] => List.Forall_nil _
                    | kv :: kvs' => List.Forall_cons _ kv kvs' (json_ind' kv.2) (go kvs')
                    end) kvs)
  end.
End JsonInd.

(** ** The templates (createrole.py, lines 11-34) *)

Definition ROLE_TEMPLATE : json :=
  JDict [("Version", JStr "2012-10-17");
         ("Statement",
          JList [JDict [("Effect", JStr "Allow");
                        ("Action", JStr "sts:AssumeRole");
                        ("Principal", JDict [("AWS", JList [])]);
                        ("Condition", JDict [])]])].

Definition POLICY_TEMPLATE : json :=
  JDict [("Version", JStr "2012-10-17");
         ("Statement",
          JList [JDict [("Sid", JStr "AllowAssumeOrganizationAccountRole");
                        ("Effect", JStr "Allow");
                        ("Action", JStr "sts:AssumeRole");
                        ("Resource", JNull)]])].

(** ** Subscripts

    A subscript is a string (dict key) or an integer (list or str index).
    Python accepts negative indices, counted from the end. *)

Inductive key : Type :=
| KStr (s : string)
| KInt (i : Z).

Definition result (A : Type) : Type := outcome pyexn A.

(** The position a Python index designates in a sequence of length [n],
    if it is in range. *)
Definition norm_index (n : nat) (i : Z) : option nat :=
  let j := if (i <? 0)%Z then (i + Z.of_nat n)%Z else i in
  if ((0 <=? j) && (j <? Z.of_nat n))%Z then Some (Z.to_nat j) else None.

Fixpoint dict_lookup (k : string) (kvs : list (string * json)) : option json :=
  match kvs with
  | [] => None
  | (k', v) :: kvs' => if String.eqb k k' then Some v else dict_lookup k kvs'
  end.

(** [d[k] = v] on a dict: an existing key keeps its position and takes the
    new value; a new key goes to the end. *)
Fixpoint dict_set (k : string) (v : json) (kvs : list (string * json))
  : list (string * json) :=
  match kvs with
  | [] => [(k, v)]
  | (k', v') :: kvs' =>
      if String.eqb k k' then (k', v) :: kvs' else (k', v') :: dict_set k v kvs'
  end.

Definition type_name (j : json) : string :=
  match j with
  | JNull => "NoneType" | JBool _ => "bool" | JInt _ => "int"
  | JFloat _ => "float" | JStr _ => "str" | JList _ => "list" | JDict _ => "dict"
  end.

(** [c[k]] *)
Definition getitem (c : json) (k : key) : result json :=
  match c, k with
  | JDict kvs, KStr s =>
      match dict_lookup s kvs with Some v => Ok v | None => Raise (KeyError s) end
  | JDict _, KInt i => Raise (KeyError (NilEmpty.string_of_int (Z.to_int i)))
  | JList l, KInt i =>
      match norm_index (length l) i with
      | Some n => match l !! n with Some v => Ok v | None => Raise (IndexError "list index out of range") end
      | None => Raise (IndexError "list index out of range")
      end
  | JStr s, KInt i =>
      match norm_index (String.length s) i with
      | Some n => match String.get n s with
                  | Some c => Ok (JStr (String c EmptyString))
                  | None => Raise (IndexError "string index out of range")
                  end
      | None => Raise (IndexError "string index out of range")
      end
  | JList _, KStr _ => Raise (TypeError "list indices must be integers or slices, not str")
  | JStr _, KStr _ => Raise (TypeError "string indices must be integers, not 'str'")
  | _, _ => Raise (TypeError ("'" ++ type_name c ++ "' object is not subscriptable"))
  end.

(** [c[k] = v], returning the updated container.  Integer keys in a dict
    are outside the model (the dicts here are keyed by strings only). *)
Definition setitem (c : json) (k : key) (v : json) : result json :=
  match c, k with
  | JDict kvs, KStr s => Ok (JDict (dict_set s v kvs))
  | JDict _, KInt _ => Raise (NotModelled "int key in a dict")
  | JList l, KInt i =>
      match norm_index (length l) i with
      | Some n => Ok (JList (<[n := v]> l))
      | None => Raise (IndexError "list assignment index out of range")
      end
  | JList _, KStr _ => Raise (TypeError "list indices must be integers or slices, not str")
  | _, _ => Raise (TypeError ("'" ++ type_name c ++ "' object does not support item assignment"))
  end.

(** [root[p1]...[pn][last] = v]: Python evaluates the subscripts left to
    right, then assigns into the innermost container; since the containers
    are shared objects the change is seen through [root].  The value model
    rebuilds the path with the updated child. *)
Fixpoint update_at (path : list key) (last : key) (v : json) (root : json)
  : result json :=
  match path with
  | [] => setitem root last v
  | k :: path' =>
      match getitem root k with
      | Raise e => Raise e
      | Ok child =>
          match update_at path' last v child with
          | Raise e => Raise e
          | Ok child' => setitem root k child'
          end
      end
  end.

(** ** Serialisation: [json.dump(obj, f)] with the default arguments
    ([ensure_ascii=True], separators [", "] and [": "], no sorting).  The
    characters of a [str] are code points 0..255. *)

Definition hex_digit (n : N) : ascii :=
  ascii_of_N (if (n <? 10)%N then 48 + n else 87 + n)%N.

(** Four lowercase hex digits, as in ['\\u{0:04x}'.format(n)]. *)
Definition hex4 (n : N) : string :=
  String (hex_digit (N.shiftr n 12 mod 16))
    (String (hex_digit (N.shiftr n 8 mod 16))
      (String (hex_digit (N.shiftr n 4 mod 16))
        (String (hex_digit (n mod 16)) EmptyString))).

(** [ESCAPE_ASCII] and [ESCAPE_DCT] of Python's [json.encoder]: quote,
    backslash and the five short escapes, printable ASCII (space to tilde)
    as itself, every other code point as [\uXXXX]. *)
Definition escape_char (c : ascii) : string :=
  let n := N_of_ascii c in
  if (n =? 34)%N then String "\" (String dquote EmptyString)
  else if (n =? 92)%N then String "\" (String "\" EmptyString)
  else if (n =? 8)%N then String "\" "b"
  else if (n =? 12)%N then String "\" "f"
  else if (n =? 10)%N then String "\" "n"
  else if (n =? 13)%N then String "\" "r"
  else if (n =? 9)%N then String "\" "t"
  else if ((32 <=? n) && (n <=? 126))%N then String c EmptyString
  else String "\" (String "u" (hex4 n)).

Fixpoint escape_str (s : string) : string :=
  match s with
  | EmptyString => EmptyString
  | String c s' => escape_char c ++ escape_str s'
  end.

Definition encode_str (s : string) : string :=
  String dquote (escape_str s ++ String dquote EmptyString).

Definition int_repr (z : Z) : string := NilEmpty.string_of_int (Z.to_int z).

Fixpoint dumps (j : json) : string :=
  match j with
  | JNull => "null"
  | JBool true => "true"
  | JBool false => "false"
  | JInt z => int_repr z
  | JFloat x => x
  | JStr s => encode_str s
  | JList l => "[" ++ str_join ", " (map dumps l) ++ "]"
  | JDict kvs =>
      "{" ++ str_join ", " (map (fun kv => encode_str kv.1 ++ ": " ++ dumps kv.2) kvs) ++ "}"
  end.

(** ** Truth value and [str()] of a value

    [if not AWS_ACCOUNT_ID] tests the truth value of whatever
    [json.loads(...)["Account"]] returned, and the f-strings of the script
    format it with [str()]. *)

Definition ascii_digit (c : ascii) : bool :=
  let n := N_of_ascii c in ((48 <=? n) && (n <=? 57))%N.

(** A float is false exactly when it is zero: when the digits of its
    lexeme before the exponent are all [0] ([NaN] and the infinities are
    true). *)
Fixpoint float_lexeme_zero (x : string) : bool :=
  match x with
  | EmptyString => true
  | String c x' =>
      if (Ascii.eqb c "e" || Ascii.eqb c "E")%char then true
      else if (Ascii.eqb c "N" || Ascii.eqb c "I")%char then false
      else (negb (ascii_digit c) || Ascii.eqb c "0") && float_lexeme_zero x'
  end.

Definition py_truthy (j : json) : bool :=
  match j with
  | JNull => false
  | JBool b => b
  | JInt z => negb (z =? 0)%Z
  | JFloat x => negb (float_lexeme_zero x)
  | JStr s => negb (String.eqb s EmptyString)
  | JList l => negb (bool_decide (l = []))
  | JDict kvs => negb (bool_decide (kvs = []))
  end.

Definition squote : ascii := "039"%char.

(** Two lowercase hex digits, as in ['\\x%02x']. *)
Definition hex2 (n : N) : string :=
  String (hex_digit (N.shiftr n 4 mod 16)) (String (hex_digit (n mod 16)) EmptyString).

(** [repr()] of one character of a string quoted with [q]: the quote and
    the backslash escaped, tab, newline and carriage return as short
    escapes, the other non-printable code points (controls, DEL, 0x80 to
    0xA0, the soft hyphen 0xAD) as [\xNN]. *)
Definition repr_char (q c : ascii) : string :=
  let n := N_of_ascii c in
  if Ascii.eqb c q || Ascii.eqb c "\"%char then String "\" (String c EmptyString)
  else if (n =? 9)%N then String "\" "t"
  else if (n =? 10)%N then String "\" "n"
  else if (n =? 13)%N then String "\" "r"
  else if ((n <? 32) || (n =? 127) || ((128 <=? n) && (n <=? 160)) || (n =? 173))%N
  then String "\" (String "x" (hex2 n))
  else String c EmptyString.

Fixpoint repr_body (q : ascii) (s : string) : string :=
  match s with
  | EmptyString => EmptyString
  | String c s' => repr_char q c ++ repr_body q s'
  end.

(** [repr(s)]: single quotes, unless the string holds a single quote and
    no double quote. *)
Definition repr_str (s : string) : string :=
  let q := if char_in squote s && negb (char_in dquote s) then dquote else squote in
  String q (repr_body q s ++ String q EmptyString).

Definition bool_str (b : bool) : string := if b then "True" else "False".

(** [repr(v)]; the [repr] of a float is outside the model. *)
Fixpoint py_repr (j : json) : result string :=
  let fix items (l : list json) : result (list string) :=
    match l with
    | [] => Ok []
    | x :: l' =>
        match py_repr x, items l' with
        | Ok a, Ok r => Ok (a :: r)
        | Raise e, _ | _, Raise e => Raise e
        end
    end in
  let fix members (kvs : list (string * json)) : result (list string) :=
    match kvs with
    | [] => Ok []
    | (k, v) :: kvs' =>
        match py_repr v, members kvs' with
        | Ok a, Ok r => Ok ((repr_str k ++ ": " ++ a) :: r)
        | Raise e, _ | _, Raise e => Raise e
        end
    end in
  match j with
  | JNull => Ok "None"
  | JBool b => Ok (bool_str b)
  | JInt z => Ok (int_repr z)
  | JFloat _ => Raise (NotModelled "repr of a float")
  | JStr s => Ok (repr_str s)
  | JList l =>
      match items l with
      | Ok r => Ok ("[" ++ str_join ", " r ++ "]")
      | Raise e => Raise e
      end
  | JDict kvs =>
      match members kvs with
      | Ok r => Ok ("{" ++ str_join ", " r ++ "}")
      | Raise e => Raise e
      end
  end.

(** [str(v)], which is what [f"{v}"] inserts: a string is itself. *)
Definition py_str (j : json) : result string :=
  match j with
  | JStr s => Ok s
  | _ => py_repr j
  end.

(** ** Reading back an assignment

    [get_path root [k1; ...; kn]] is the expression [root[k1]...[kn]].
    An assignment [root[p1]...[pn][last] = v] that succeeds is read back
    by the same subscripts: the insert/lookup law of the nested
    assignments of lines 66, 84-86 and 110-112. *)

Fixpoint get_path (root : json) (path : list key) : result json :=
  match path with
  | [] => Ok root
  | k :: path' => match getitem root k with Ok c => get_path c path' | Raise e => Raise e end
  end.

Lemma dict_lookup_set k v kvs : dict_lookup k (dict_set k v kvs) = Some v.
Proof.
  induction kvs as [|[k' v'] kvs IH]; simpl; [by rewrite String.eqb_refl|].
  destruct (String.eqb_spec k k') as [->|Hne]; simpl.
  - by rewrite String.eqb_refl.
  - apply String.eqb_neq in Hne. by rewrite Hne.
Qed.

Lemma norm_index_lt n i m : norm_index n i = Some m -> m < n.
Proof.
  unfold norm_index. case_match eqn:Hb; [|done]. intros [= <-].
  apply andb_true_iff in Hb as [Hle Hlt]. apply Z.leb_le in Hle. apply Z.ltb_lt in Hlt.
  destruct (i <? 0)%Z; lia.
Qed.

Lemma setitem_getitem c k v c' : setitem c k v = Ok c' -> getitem c' k = Ok v.
Proof.
  destruct c, k; simpl; try discriminate.
  - destruct (norm_index (length l) i) as [n|] eqn:Hn; [|discriminate]. intros [= <-]. simpl.
    rewrite length_insert, Hn, list_lookup_insert_eq; [done|]. by eapply norm_index_lt.
  - intros [= <-]. simpl. by rewrite dict_lookup_set.
Qed.

(** After [root[p1]...[pn][last] = v] succeeds, reading
    [root[p1]...[pn][last]] gives [v]: the assignment lands where the
    subscripts designate, through dicts (an existing key keeps its
    position, a new one is appended) and lists (negative indices count
    from the end). *)
Theorem update_at_get_path path last v root root' :
  update_at path last v root = Ok root' -> get_path root' (path ++ [last]) = Ok v.
Proof.
  revert root root'. induction path as [|k path IH]; intros root root' Hu; simpl in *.
  - by rewrite (setitem_getitem _ _ _ _ Hu).
  - destruct (getitem root k) as [c|e]; [|discriminate].
    destruct (update_at path last v c) as [c'|e] eqn:Hc; [|discriminate].
    rewrite (setitem_getitem _ _ _ _ Hu). exact (IH _ _ Hc).
Qed.

Lemma update_at_get_path_witness :
  exists r, update_at [KStr "Statement"; KInt 0; KStr "Principal"] (KStr "AWS")
              (JList [JStr "arn:aws:iam::1:user/a"]) ROLE_TEMPLATE = Ok r /\
    get_path r [KStr "Statement"; KInt 0; KStr "Principal"; KStr "AWS"] =
      Ok (JList [JStr "arn:aws:iam::1:user/a"]).
Proof.
  eexists. split; [vm_compute; reflexivity|].
  apply (update_at_get_path [KStr "Statement"; KInt 0; KStr "Principal"] (KStr "AWS")
           (JList [JStr "arn:aws:iam::1:user/a"]) ROLE_TEMPLATE).
  vm_compute. reflexivity.
Defined.

(** Subscripts and [str()] raise ordinary exceptions only. *)
Lemma getitem_no_exit c k e : getitem c k = Raise e -> is_exit e = false.
Proof. unfold getitem. repeat case_match; by intros [= <-]. Qed.

Lemma py_repr_no_exit j e : py_repr j = Raise e -> is_exit e = false.
Proof.
  revert e. induction j as [| | | | |l Hl|kvs Hkvs] using json_ind'; intros e; simpl; try done.
  - by intros [= <-].
  - destruct (_ l) as [r|e'] eqn:E; [done|]. intros [= <-]. revert e' E.
    induction Hl as [|x l Hx Hl IH]; simpl; [done|]. intros e'.
    destruct (py_repr x) eqn:Ex; [|intros [= <-]; by apply Hx].
    destruct (_ l) eqn:El; [done|]. intros [= <-]. by apply (IH _ eq_refl).
  - destruct (_ kvs) as [r|e'] eqn:E; [done|]. intros [= <-]. revert e' E.
    induction Hkvs as [|[k v] kvs Hx Hl IH]; simpl; [done|]. intros e'.
    destruct (py_repr v) eqn:Ex; [|intros [= <-]; by apply Hx].
    destruct (_ kvs) eqn:El; [done|]. intros [= <-]. by apply (IH _ eq_refl).
Qed.

Lemma py_str_no_exit j e : py_str j = Raise e -> is_exit e = false.
Proof. unfold py_str. destruct j; try done; apply py_repr_no_exit. Qed.
