(* ===== verification/JsonParse.v ===== *)
(** * Reading JSON: [json.loads]

    [get_aws_account_id] decodes the output of [aws sts get-caller-identity]
    with [json.loads(run.stdout)].  This file models CPython's decoder
    (the C scanner [scan_once_unicode] and [JSONDecoder.decode]) on strings
    of code points 0..255: whitespace, the literals, numbers, strings with
    their escapes (strict mode: raw control characters are refused),
    arrays, and objects built with [dict] insertion (a repeated key keeps
    its first position and takes the last value).  A [\uXXXX] escape that
    denotes a code point above 255 is outside the model and reported as
    such.  The recursion is bounded by fuel; [loads] gives the input length
    plus one: each level of nesting consumes at least one character. *)

From Stdlib Require Import ZArith String Ascii.
From stdpp Require Import base strings list.
From S2P Require Import Prelude Json.

Open Scope string_scope.

(** A decoding failure, with the number of characters left unread where
    it happened. *)
Inductive perr : Type :=
| PErr (msg : string) (remaining : nat)
| PStop (remaining : nat)
| PUnrep (remaining : nat)
| PFuel.

Definition presult (A : Type) : Type := (perr + A * string)%type.

Definition is_ws (c : ascii) : bool :=
  let n := N_of_ascii c in ((n =? 32) || (n =? 9) || (n =? 10) || (n =? 13))%N.

Fixpoint skip_ws (s : string) : string :=
  match s with
  | String c s' => if is_ws c then skip_ws s' else s
  | EmptyString => s
  end.

Definition is_digit (c : ascii) : bool :=
  let n := N_of_ascii c in ((48 <=? n) && (n <=? 57))%N.

(** The longest run of ASCII digits at the front of [s], and the rest. *)
Fixpoint take_digits (s : string) : string * string :=
  match s with
  | String c s' =>
      if is_digit c then let '(d, r) := take_digits s' in (String c d, r)
      else (EmptyString, s)
  | EmptyString => (EmptyString, EmptyString)
  end.

Fixpoint digits_value (acc : Z) (d : string) : Z :=
  match d with
  | String c d' => digits_value (10 * acc + (Z.of_N (N_of_ascii c) - 48))%Z d'
  | EmptyString => acc
  end.

(** The number syntax of the scanner: an optional minus, then [0] or a
    nonzero digit followed by digits; an optional fraction (a dot and at
    least one digit); an optional exponent ([e] or [E], an optional sign,
    at least one digit).  [lex_int], [lex_frac] and [lex_exp] return each
    piece (the last two possibly empty) and the rest of the input. *)
Definition lex_int (s : string) : option (string * string) :=
  let '(sign, s1) := match s with
                     | String "-" s' => ("-", s')
                     | _ => (EmptyString, s)
                     end in
  match s1 with
  | String "0" s2 => Some (sign ++ "0", s2)
  | String c _ =>
      if is_digit c then let '(d, r) := take_digits s1 in Some (sign ++ d, r)
      else None
  | EmptyString => None
  end.

Definition lex_frac (s : string) : string * string :=
  match s with
  | String "." s' =>
      match take_digits s' with
      | (EmptyString, _) => (EmptyString, s)
      | (d, r) => ("." ++ d, r)
      end
  | _ => (EmptyString, s)
  end.

Definition lex_exp (s : string) : string * string :=
  match s with
  | String e s' =>
      if (Ascii.eqb e "e" || Ascii.eqb e "E")%char then
        let '(sg, s'') := match s' with
                          | String "+" r => ("+", r)
                          | String "-" r => ("-", r)
                          | _ => (EmptyString, s')
                          end in
        match take_digits s'' with
        | (EmptyString, _) => (EmptyString, s)
        | (d, r) => (String e (sg ++ d), r)
        end
      else (EmptyString, s)
  | EmptyString => (EmptyString, s)
  end.

Definition int_of_lexeme (i : string) : Z :=
  match i with
  | String "-" d => (- digits_value 0 d)%Z
  | _ => digits_value 0 i
  end.

Definition scan_number (s : string) : option (json * string) :=
  match lex_int s with
  | None => None
  | Some (i, r1) =>
      let '(fr, r2) := lex_frac r1 in
      let '(ex, r3) := lex_exp r2 in
      if String.eqb fr EmptyString && String.eqb ex EmptyString
      then Some (JInt (int_of_lexeme i), r3)
      else Some (JFloat (i ++ fr ++ ex), r3)
  end.

Definition hex_value (c : ascii) : option N :=
  let n := N_of_ascii c in
  if ((48 <=? n) && (n <=? 57))%N then Some (n - 48)%N
  else if ((97 <=? n) && (n <=? 102))%N then Some (n - 87)%N
  else if ((65 <=? n) && (n <=? 70))%N then Some (n - 55)%N
  else None.

Definition hex4_value (a b c d : ascii) : option N :=
  match hex_value a, hex_value b, hex_value c, hex_value d with
  | Some x1, Some x2, Some x3, Some x4 => Some (x1 * 4096 + x2 * 256 + x3 * 16 + x4)%N
  | _, _, _, _ => None
  end.

(** The character a one-letter escape [\c] denotes. *)
Definition simple_escape (c : ascii) : option ascii :=
  match c with
  | "034"%char => Some dquote
  | "\"%char => Some "\"%char
  | "/"%char => Some "/"%char
  | "b"%char => Some "008"%char
  | "f"%char => Some "012"%char
  | "n"%char => Some "010"%char
  | "r"%char => Some "013"%char
  | "t"%char => Some "009"%char
  | _ => None
  end.

(** [scanstring]: the body of a string after its opening quote, up to and
    including the closing quote; [start] is the remaining length at the
    opening quote, for the error message.  As in the C scanner, a [\u]
    escape whose four digits end the input is an invalid escape. *)
Fixpoint scan_string (start : nat) (s : string) : presult string :=
  match s with
  | EmptyString => inl (PErr "Unterminated string starting at" start)
  | String c s' =>
      if Ascii.eqb c dquote then inr (EmptyString, s')
      else if Ascii.eqb c "\"%char then
        match s' with
        | EmptyString => inl (PErr "Unterminated string starting at" start)
        | String "u" (String a (String b (String c2 (String d (String _ _ as r))))) =>
            match hex4_value a b c2 d with
            | None => inl (PErr "Invalid \uXXXX escape" (String.length s'))
            | Some n =>
                if (n <? 256)%N then
                  match scan_string start r with
                  | inl e => inl e
                  | inr (body, r') => inr (String (ascii_of_N n) body, r')
                  end
                else inl (PUnrep (String.length s))
            end
        | String "u" _ => inl (PErr "Invalid \uXXXX escape" (String.length s'))
        | String e r =>
            match simple_escape e with
            | None => inl (PErr "Invalid \escape" (String.length s))
            | Some ch =>
                match scan_string start r with
                | inl err => inl err
                | inr (body, r') => inr (String ch body, r')
                end
            end
        end
      else if (N_of_ascii c <? 32)%N then
        inl (PErr "Invalid control character at" (String.length s))
      else
        match scan_string start s' with
        | inl e => inl e
        | inr (body, r') => inr (String c body, r')
        end
  end.

Definition lit (word s : string) : option string :=
  if String.prefix word s then Some (substring (String.length word) (String.length s) s)
  else None.

(** [scan_once]: one value at the front of [s].  [PStop] is the
    scanner's [StopIteration]: no value starts here. *)
Fixpoint scan_value (fuel : nat) (s : string) : presult json :=
  match fuel with
  | 0 => inl PFuel
  | S n =>
      match s with
      | EmptyString => inl (PStop 0)
      | String c s' =>
          if Ascii.eqb c dquote then
            match scan_string (String.length s) s' with
            | inl e => inl e
            | inr (str, r) => inr (JStr str, r)
            end
          else if Ascii.eqb c "{"%char then
            match skip_ws s' with
            | String "}" r => inr (JDict [], r)
            | r => scan_members n [] r
            end
          else if Ascii.eqb c "["%char then
            match skip_ws s' with
            | String "]" r => inr (JList [], r)
            | r => scan_items n [] r
            end
          else match lit "null" s with Some r => inr (JNull, r) | None =>
               match lit "true" s with Some r => inr (JBool true, r) | None =>
               match lit "false" s with Some r => inr (JBool false, r) | None =>
               match scan_number s with Some (v, r) => inr (v, r) | None =>
               match lit "NaN" s with Some r => inr (JFloat "NaN", r) | None =>
               match lit "Infinity" s with Some r => inr (JFloat "Infinity", r) | None =>
               match lit "-Infinity" s with Some r => inr (JFloat "-Infinity", r) | None =>
               inl (PStop (String.length s))
               end end end end end end end
      end
  end

(** The items of an array after [\[] and whitespace, [acc] holding the
    items read so far in reverse. *)
with scan_items (fuel : nat) (acc : list json) (s : string) : presult json :=
  match fuel with
  | 0 => inl PFuel
  | S n =>
      match scan_value n s with
      | inl e => inl e
      | inr (v, r) =>
          match skip_ws r with
          | String "]" r' => inr (JList (rev (v :: acc)), r')
          | String "," r' => scan_items n (v :: acc) (skip_ws r')
          | r' => inl (PErr "Expecting ',' delimiter" (String.length r'))
          end
      end
  end

(** The members of an object after its brace and whitespace, [acc]
    holding the dict built so far. *)
with scan_members (fuel : nat) (acc : list (string * json)) (s : string)
  : presult json :=
  match fuel with
  | 0 => inl PFuel
  | S n =>
      match s with
      | String c s' =>
          if Ascii.eqb c dquote then
            match scan_string (String.length s) s' with
            | inl e => inl e
            | inr (k, r) =>
                match skip_ws r with
                | String ":" r1 =>
                    match scan_value n (skip_ws r1) with
                    | inl e => inl e
                    | inr (v, r2) =>
                        match skip_ws r2 with
                        | String "}" r3 => inr (JDict (dict_set k v acc), r3)
                        | String "," r3 => scan_members n (dict_set k v acc) (skip_ws r3)
                        | r3 => inl (PErr "Expecting ',' delimiter" (String.length r3))
                        end
                    end
                | r1 => inl (PErr "Expecting ':' delimiter" (String.length r1))
                end
            end
          else inl (PErr "Expecting property name enclosed in double quotes" (String.length s))
      | EmptyString =>
          inl (PErr "Expecting property name enclosed in double quotes" 0)
      end
  end.

(** [json.loads(s)]: skip whitespace, scan one value, skip whitespace,
    and require the end of the input.  Errors are reported at their
    index in [s]. *)
Definition loads (s : string) : result json :=
  let len := String.length s in
  let err msg rem := Raise (JSONDecodeError msg (len - rem)) in
  match scan_value (S len) (skip_ws s) with
  | inl (PErr msg rem) => err msg rem
  | inl (PStop rem) => err "Expecting value" rem
  | inl (PUnrep _) => Raise (NotModelled "code point above 255")
  | inl PFuel => Raise (NotModelled "nesting beyond the fuel")
  | inr (v, r) =>
      match skip_ws r with
      | EmptyString => Ok v
      | r' => err "Extra data" (String.length r')
      end
  end.

(** [json.loads] raises [JSONDecodeError] (or an error outside the
    model), never an exception that ends the interpreter quietly. *)
Lemma loads_no_exit s e : loads s = Raise e -> is_exit e = false.
Proof. unfold loads. repeat case_match; by intros [= <-]. Qed.

