(* ===== verification/JsonRoundtrip.v ===== *)
(** * [json.loads] reads back what [json.dump] writes

    The policy documents the script writes with [json.dump] are read by
    the [aws] CLI, and the identity document [get_aws_account_id] decodes
    is produced the same way by the service.  This file proves that the
    decoder of [JsonParse] returns, on the output of the encoder of
    [Json], the document that was encoded ([loads_dumps]), for every
    document without floats (their lexemes are kept verbatim by the
    model, not re-rendered) whose objects have distinct keys (a repeated
    key is merged by [dict] insertion).  It also proves that with
    [ensure_ascii] every character written is printable ASCII
    ([dumps_printable]).

    The fuel [loads] gives the scanner, the input length plus one, is
    enough: [jsize] bounds the fuel a document needs and is at most the
    length of its encoding ([jsize_le]).  Most character-level lemmas are
    proved by case analysis on the eight bits of a character. *)

From Stdlib Require Import ZArith String Ascii DecimalString DecimalPos.
From stdpp Require Import base strings list.
From S2P Require Import Prelude Json JsonParse.

Open Scope string_scope.

(** ** Definitions *)

(** What may follow a value inside an encoding: the end, a separator or
    a closing bracket. *)
Definition value_end (r : string) : bool :=
  match r with
  | EmptyString => true
  | String c _ => Ascii.eqb c "," || Ascii.eqb c "]" || Ascii.eqb c "}"
  end.

(** A decimal numeral without leading zero, as [Pos.to_uint] builds. *)
Definition uint_lead (d : Decimal.uint) : Prop :=
  match d with
  | Decimal.Nil | Decimal.D0 _ => False
  | _ => True
  end.

(** The documents the round trip holds for: no float, and distinct keys
    in every object. *)
Fixpoint json_wfb (j : json) : bool :=
  match j with
  | JFloat _ => false
  | JList l => forallb json_wfb l
  | JDict kvs => bool_decide (NoDup kvs.*1) && forallb (fun kv => json_wfb kv.2) kvs
  | _ => true
  end.

(** The fuel the scanner needs for a document. *)
Fixpoint jsize (j : json) : nat :=
  match j with
  | JList l => sum_list (map (fun x => S (S (jsize x))) l)
  | JDict kvs => sum_list (map (fun kv => S (S (jsize kv.2))) kvs)
  | _ => 0
  end.

(** One [key: value] member of an object, as [dumps] writes it. *)
Definition member_str (kv : string * json) : string :=
  encode_str kv.1 ++ ": " ++ dumps kv.2.

(** The first characters of an encoded value. *)
Definition value_start (c : ascii) : bool :=
  char_in c "ntf-0123456789[{" || Ascii.eqb c dquote.

Definition scans_back (j : json) : Prop :=
  forall fuel r, jsize j < fuel -> value_end r = true -> scan_value fuel (dumps j ++ r) = inr (j, r).

(** Every character is printable ASCII (space to tilde). *)
Fixpoint all_printable (s : string) : bool :=
  match s with
  | EmptyString => true
  | String c s' => ((32 <=? N_of_ascii c) && (N_of_ascii c <=? 126))%N && all_printable s'
  end.

(** ** Integers: [str(int)] read back by the number scanner *)

Lemma digits_value_uint_acc d acc :
  digits_value (Zpos acc) (NilEmpty.string_of_uint d) = Zpos (Pos.of_uint_acc d acc).
Proof.
  revert acc. induction d as [|d IH|d IH|d IH|d IH|d IH|d IH|d IH|d IH|d IH|d IH];
    intros acc; [reflexivity|..]; simpl; rewrite <- IH; f_equal; simpl; lia.
Qed.

Lemma digits_value_uint d :
  digits_value 0 (NilEmpty.string_of_uint d) = Z.of_N (Pos.of_uint d).
Proof.
  induction d; simpl; try apply digits_value_uint_acc; [reflexivity | exact IHd].
Qed.

Lemma take_digits_uint d r :
  value_end r = true -> take_digits (NilEmpty.string_of_uint d ++ r) = (NilEmpty.string_of_uint d, r).
Proof.
  intros Hr. induction d; simpl; try (rewrite IHd; reflexivity).
  destruct r as [|c r]; [reflexivity|]. simpl in Hr.
  destruct c as [[] [] [] [] [] [] [] []]; try discriminate Hr; reflexivity.
Qed.

Lemma nb_digits_nzhead d : Decimal.nb_digits (Decimal.nzhead d) <= Decimal.nb_digits d.
Proof. induction d; simpl; lia. Qed.

(** [Pos.to_uint] has no leading zero: it is its own normal form. *)
Lemma to_uint_lead p : uint_lead (Pos.to_uint p).
Proof.
  pose proof (Unsigned.to_of (Pos.to_uint p)) as Hn. rewrite Unsigned.of_to in Hn.
  change (N.to_uint (Npos p)) with (Pos.to_uint p) in Hn.
  pose proof (Unsigned.to_uint_nonzero p) as Hz.
  destruct (Pos.to_uint p) as [|d|d|d|d|d|d|d|d|d|d]; try exact I.
  - unfold Decimal.unorm in Hn. simpl in Hn. discriminate.
  - unfold Decimal.unorm in Hn. simpl in Hn. pose proof (nb_digits_nzhead d) as Hl.
    destruct (Decimal.nzhead d) eqn:E; [injection Hn as Hd; subst; by apply Hz|..];
      try discriminate Hn; injection Hn as Hd; subst; simpl in Hl; lia.
Qed.

Lemma lex_frac_end r : value_end r = true -> lex_frac r = (EmptyString, r).
Proof.
  destruct r as [|c r]; [done|]. intros Hr. simpl in Hr.
  destruct c as [[] [] [] [] [] [] [] []]; try discriminate Hr; reflexivity.
Qed.

Lemma lex_exp_end r : value_end r = true -> lex_exp r = (EmptyString, r).
Proof.
  destruct r as [|c r]; [done|]. intros Hr. simpl in Hr.
  destruct c as [[] [] [] [] [] [] [] []]; try discriminate Hr; reflexivity.
Qed.

Lemma lex_int_uint sign d r :
  sign = EmptyString \/ sign = "-" -> uint_lead d -> value_end r = true ->
  lex_int (sign ++ NilEmpty.string_of_uint d ++ r) = Some (sign ++ NilEmpty.string_of_uint d, r).
Proof.
  intros Hs Hd Hr.
  destruct Hs as [-> | ->]; destruct d; try contradiction; simpl NilEmpty.string_of_uint;
    rewrite ?str_app_cons, ?str_app_nil; unfold lex_int; simpl; by rewrite (take_digits_uint d r Hr).
Qed.

Lemma int_of_lexeme_uint d :
  uint_lead d -> int_of_lexeme (NilEmpty.string_of_uint d) = digits_value 0 (NilEmpty.string_of_uint d).
Proof. destruct d; by try contradiction. Qed.

Lemma scan_number_int z r :
  value_end r = true -> scan_number (int_repr z ++ r) = Some (JInt z, r).
Proof.
  intros Hr. unfold scan_number, int_repr.
  destruct z as [|p|p]; simpl Z.to_int; simpl NilEmpty.string_of_int.
  - rewrite str_app_cons, str_app_nil. unfold lex_int. simpl.
    by rewrite lex_frac_end, lex_exp_end.
  - pose proof (lex_int_uint EmptyString (Pos.to_uint p) r) as Hl.
    rewrite str_app_nil in Hl. rewrite Hl by auto using to_uint_lead.
    rewrite lex_frac_end, lex_exp_end by done. simpl.
    rewrite str_app_nil, int_of_lexeme_uint by apply to_uint_lead.
    rewrite digits_value_uint, Unsigned.of_to. reflexivity.
  - pose proof (lex_int_uint "-" (Pos.to_uint p) r) as Hl.
    rewrite str_app_cons, str_app_nil in Hl. rewrite str_app_cons, Hl by auto using to_uint_lead.
    rewrite lex_frac_end, lex_exp_end by done. simpl.
    rewrite str_app_nil, digits_value_uint, Unsigned.of_to. reflexivity.
Qed.

(** ** Strings: every escape decodes to its character *)

Lemma scan_escape_char start c d r :
  scan_string start (escape_char c ++ String d r) =
  match scan_string start (String d r) with
  | inl e => inl e | inr (b, r') => inr (String c b, r') end.
Proof. destruct c as [[] [] [] [] [] [] [] []]; reflexivity. Qed.

Lemma scan_escape_str start s r :
  scan_string start (escape_str s ++ String dquote r) = inr (s, r).
Proof.
  induction s as [|c s IH]; [reflexivity|]. simpl. rewrite str_app_assoc.
  destruct (str_app_nonempty (escape_str s) dquote r) as (d & u & Hdu).
  rewrite Hdu, scan_escape_char, <- Hdu, IH. reflexivity.
Qed.

(** ** Scalars *)

Lemma lit_app w r : lit w (w ++ r) = Some r.
Proof.
  unfold lit. assert (Hp : String.prefix w (w ++ r) = true).
  { induction w as [|c w IH]; [by destruct r|]. rewrite str_app_cons. simpl. by destruct (ascii_dec c c). }
  rewrite Hp. f_equal. remember (String.length (w ++ r)) as m eqn:Hm.
  assert (Hl : String.length r <= m).
  { subst m. clear. induction w as [|c w IH]; [done|]. rewrite str_app_cons. simpl; lia. }
  clear Hp Hm. induction w as [|c w IH]; [by apply substring_all|]. rewrite str_app_cons. exact IH.
Qed.

Lemma scan_null n r : scan_value (S n) ("null" ++ r) = inr (JNull, r).
Proof. simpl. by rewrite lit_app. Qed.

Lemma scan_true n r : scan_value (S n) ("true" ++ r) = inr (JBool true, r).
Proof. rewrite !str_app_cons, str_app_nil. simpl. unfold lit. simpl. rewrite substring_all, prefix_nil; [done|lia]. Qed.

Lemma scan_false n r : scan_value (S n) ("false" ++ r) = inr (JBool false, r).
Proof. rewrite !str_app_cons, str_app_nil. simpl. unfold lit. simpl. rewrite substring_all, prefix_nil; [done|lia]. Qed.

Lemma scan_value_number n c t v r :
  (Ascii.eqb c "-" || is_digit c) = true -> scan_number (String c t) = Some (v, r) ->
  scan_value (S n) (String c t) = inr (v, r).
Proof.
  intros Hc Hn. destruct c as [[] [] [] [] [] [] [] []]; try discriminate Hc;
    cbn -[scan_number]; by rewrite Hn.
Qed.

Lemma int_repr_cons z :
  exists c t, int_repr z = String c t /\ (Ascii.eqb c "-" || is_digit c) = true.
Proof.
  unfold int_repr. destruct z as [|p|p]; simpl Z.to_int; simpl NilEmpty.string_of_int.
  - by do 2 eexists.
  - pose proof (to_uint_lead p) as Hl.
    destruct (Pos.to_uint p); try contradiction; simpl; by do 2 eexists.
  - by do 2 eexists.
Qed.

Lemma scan_int n z r :
  value_end r = true -> scan_value (S n) (int_repr z ++ r) = inr (JInt z, r).
Proof.
  intros Hr. destruct (int_repr_cons z) as (c & t & Ht & Hc).
  pose proof (scan_number_int z r Hr) as Hn. rewrite Ht, str_app_cons in *.
  by apply scan_value_number.
Qed.

(** ** Documents [loads] reads back *)

(** ** Arrays and objects *)

Lemma dumps_start j :
  json_wfb j = true -> exists c t, dumps j = String c t /\ value_start c = true.
Proof.
  destruct j as [| [] | z | x | s | l | kvs]; simpl; try discriminate; try by do 2 eexists.
  destruct (int_repr_cons z) as (c & t & -> & Hc). intros _. exists c, t. split; [done|].
  destruct c as [[] [] [] [] [] [] [] []]; try discriminate Hc; reflexivity.
Qed.

Lemma skip_ws_start c t : value_start c = true -> skip_ws (String c t) = String c t.
Proof. intros Hc. destruct c as [[] [] [] [] [] [] [] []]; try discriminate Hc; reflexivity. Qed.

Lemma skip_ws_dumps j t : json_wfb j = true -> skip_ws (dumps j ++ t) = dumps j ++ t.
Proof.
  intros Hw. destruct (dumps_start j Hw) as (c & u & -> & Hc).
  rewrite str_app_cons. by apply skip_ws_start.
Qed.

Lemma list_open n c t :
  value_start c = true -> scan_value (S n) (String "[" (String c t)) = scan_items n [] (String c t).
Proof.
  intros Hc. destruct c as [[] [] [] [] [] [] [] []]; try discriminate Hc; reflexivity.
Qed.

Lemma scan_items_S n acc s :
  scan_items (S n) acc s =
    match scan_value n s with
    | inl e => inl e
    | inr (v, r) =>
        match skip_ws r with
        | String "]" r' => inr (JList (rev (v :: acc)), r')
        | String "," r' => scan_items n (v :: acc) (skip_ws r')
        | r' => inl (PErr "Expecting ',' delimiter" (String.length r'))
        end
    end.
Proof. reflexivity. Qed.

Lemma str_join_head sep a l u : exists w, str_join sep (a :: l) ++ u = a ++ w.
Proof.
  destruct l as [|b l]; [by exists u|]. exists (sep ++ str_join sep (b :: l) ++ u).
  simpl. by rewrite !str_app_assoc.
Qed.

Lemma sep_app u : (", " ++ u) = String "," (String " " u).
Proof. reflexivity. Qed.

Lemma scan_items_dumps l : forall acc fuel r,
  l <> [] -> Forall (fun j => json_wfb j = true /\ scans_back j) l ->
  sum_list (map (fun x => S (S (jsize x))) l) <= fuel -> value_end r = true ->
  scan_items fuel acc (str_join ", " (map dumps l) ++ String "]" r) = inr (JList (rev acc ++ l), r).
Proof.
  induction l as [|x l IH]; intros acc fuel r Hne Hf Hs Hr; [done|].
  apply Forall_cons in Hf as [[Hw Hx] Hf]. simpl in Hs.
  destruct fuel as [|fuel]; [lia|]. rewrite scan_items_S.
  destruct l as [|y l].
  - simpl str_join. rewrite Hx by (done || lia). reflexivity.
  - change (str_join ", " (map dumps (x :: y :: l)))
      with (dumps x ++ ", " ++ str_join ", " (map dumps (y :: l))).
    rewrite !str_app_assoc, Hx by (done || lia). rewrite sep_app.
    change (skip_ws (String "," ?u)) with (String "," u). cbv beta iota.
    apply Forall_cons in Hf as Hy. destruct Hy as [[Hwy _] _].
    destruct (str_join_head ", " (dumps y) (map dumps l) (String "]" r)) as [w Hj].
    change (map dumps (y :: l)) with (dumps y :: map dumps l). rewrite Hj.
    change (skip_ws (String " " (dumps y ++ w))) with (skip_ws (dumps y ++ w)).
    rewrite skip_ws_dumps, <- Hj by done. rewrite IH by (done || lia).
    simpl. by rewrite <- app_assoc.
Qed.

Lemma dict_set_fresh k v acc : k ∉ acc.*1 -> dict_set k v acc = (acc ++ [(k, v)])%list.
Proof.
  induction acc as [|[k' v'] acc IH]; intros Hk; [done|]. simpl in *.
  apply not_elem_of_cons in Hk as [Hk Hk'].
  destruct (String.eqb_spec k k'); [done|]. by rewrite IH.
Qed.

Lemma member_app kv u :
  member_str kv ++ u =
    String dquote (escape_str kv.1 ++ String dquote (String ":" (String " " (dumps kv.2 ++ u)))).
Proof. unfold member_str, encode_str. by rewrite !str_app_cons, !str_app_assoc. Qed.

Lemma scan_members_dumps kvs : forall acc fuel r,
  kvs <> [] -> Forall (fun kv => json_wfb kv.2 = true /\ scans_back kv.2) kvs ->
  NoDup (acc.*1 ++ kvs.*1)%list ->
  sum_list (map (fun kv => S (S (jsize kv.2))) kvs) <= fuel -> value_end r = true ->
  scan_members fuel acc (str_join ", " (map member_str kvs) ++ String "}" r) =
    inr (JDict (acc ++ kvs)%list, r).
Proof.
  induction kvs as [|[k v] kvs IH]; intros acc fuel r Hne Hf Hnd Hs Hr; [done|].
  apply Forall_cons in Hf as [[Hw Hv] Hf]. simpl in Hs, Hw, Hv.
  destruct fuel as [|fuel]; [lia|].
  destruct kvs as [|kv2 kvs].
  - simpl str_join. rewrite member_app. simpl. rewrite scan_escape_str. simpl.
    rewrite skip_ws_dumps, Hv by (done || lia). simpl.
    rewrite dict_set_fresh; [done|]. simpl in Hnd.
    apply NoDup_app in Hnd as (_ & Hd & _). intros Hk. apply (Hd k Hk). constructor.
  - destruct (str_join_head ", " (member_str kv2) (map member_str kvs) (String "}" r)) as [w Hj].
    change (str_join ", " (map member_str ((k, v) :: kv2 :: kvs)))
      with (member_str (k, v) ++ ", " ++ str_join ", " (member_str kv2 :: map member_str kvs)).
    rewrite !str_app_assoc, Hj, sep_app, member_app.
    assert (Hm : skip_ws (member_str kv2 ++ w) = member_str kv2 ++ w)
      by (rewrite member_app; reflexivity).
    remember (member_str kv2 ++ w) as M eqn:HM.
    simpl. rewrite scan_escape_str. simpl.
    rewrite skip_ws_dumps, Hv by (done || lia). simpl. rewrite Hm, <- Hj.
    assert (Hk : k ∉ acc.*1).
    { simpl in Hnd. apply NoDup_app in Hnd as (_ & Hd & _). intros Hk. apply (Hd k Hk). constructor. }
    rewrite dict_set_fresh by done.
    rewrite IH by (done || simpl in *; rewrite ?fmap_app, <- ?app_assoc; simpl; done || lia).
    by rewrite <- app_assoc.
Qed.

Lemma Forall_wf_scans {A} (f : A -> json) l :
  Forall (fun x => json_wfb (f x) = true -> scans_back (f x)) l ->
  forallb (fun x => json_wfb (f x)) l = true ->
  Forall (fun x => json_wfb (f x) = true /\ scans_back (f x)) l.
Proof.
  intros Hi Hb. rewrite forallb_forall in Hb. apply Forall_forall. intros x Hx.
  rewrite Forall_forall in Hi. pose proof (Hb x (proj1 (list_elem_of_In _ _) Hx)). auto.
Qed.

(** ** The round trip *)

Lemma dumps_scans_back j : json_wfb j = true -> scans_back j.
Proof.
  induction j as [| b | z | x | s | l IH | kvs IH] using json_ind';
    intros Hw fuel r Hs Hr; simpl in Hw; try discriminate Hw;
    (destruct fuel as [|n]; [simpl in Hs; lia|]).
  - apply scan_null.
  - destruct b; [apply scan_true | apply scan_false].
  - by apply scan_int.
  - simpl. by rewrite str_app_assoc, str_app_cons, str_app_nil, scan_escape_str.
  - destruct l as [|x l]; [reflexivity|].
    pose proof (Forall_wf_scans id _ IH Hw) as Hf.
    assert (Hd : dumps (JList (x :: l)) ++ r = String "[" (str_join ", " (map dumps (x :: l)) ++ String "]" r))
      by (change (dumps (JList (x :: l))) with ("[" ++ str_join ", " (map dumps (x :: l)) ++ "]");
          by rewrite !str_app_assoc).
    destruct (str_join_head ", " (dumps x) (map dumps l) (String "]" r)) as [w Hj].
    apply Forall_cons in Hf as Hx. destruct Hx as [[Hwx _] _].
    destruct (dumps_start x Hwx) as (c & t & Hxt & Hc).
    rewrite Hd. change (map dumps (x :: l)) with (dumps x :: map dumps l).
    rewrite Hj, Hxt, str_app_cons, list_open, <- str_app_cons, <- Hxt, <- Hj by done.
    apply (scan_items_dumps (x :: l) [] n r); [done | exact Hf | simpl in Hs |- *; lia | done].
  - destruct kvs as [|kv kvs]; [reflexivity|].
    apply andb_true_iff in Hw as [Hnd Hw]. apply bool_decide_eq_true in Hnd.
    pose proof (Forall_wf_scans snd _ IH Hw) as Hf.
    assert (Hd : dumps (JDict (kv :: kvs)) ++ r =
                 String "{" (str_join ", " (map member_str (kv :: kvs)) ++ String "}" r))
      by (change (dumps (JDict (kv :: kvs))) with ("{" ++ str_join ", " (map member_str (kv :: kvs)) ++ "}");
          by rewrite !str_app_assoc).
    destruct (str_join_head ", " (member_str kv) (map member_str kvs) (String "}" r)) as [w Hj].
    rewrite Hd. change (map member_str (kv :: kvs)) with (member_str kv :: map member_str kvs).
    rewrite Hj, member_app. simpl. rewrite <- member_app, <- Hj.
    apply (scan_members_dumps (kv :: kvs) [] n r); [done | exact Hf | done | simpl in Hs |- *; lia | done].
Qed.

Lemma sum_le_join {A} (f : A -> nat) (g : A -> string) l :
  Forall (fun x => f x <= String.length (g x)) l ->
  sum_list (map (fun x => S (S (f x))) l) <= String.length (str_join ", " (map g l)) + 2.
Proof.
  induction 1 as [|x l Hx _ IH]; simpl; [lia|].
  destruct l as [|y l]; simpl in *; [lia|].
  rewrite !str_length_app. simpl. lia.
Qed.

Lemma jsize_le j : jsize j <= String.length (dumps j).
Proof.
  induction j as [| b | z | x | s | l IH | kvs IH] using json_ind'; simpl; try lia.
  - rewrite str_length_app. simpl. rewrite str_length_app. simpl. pose proof (sum_le_join jsize dumps l IH). lia.
  - rewrite str_length_app. simpl. rewrite str_length_app. simpl.
    assert (Hm : Forall (fun kv => jsize kv.2 <= String.length (member_str kv)) kvs).
    { eapply Forall_impl; [exact IH|]. intros [k v] H. unfold member_str, encode_str.
      simpl in H |- *. rewrite !str_length_app. simpl. lia. }
    pose proof (sum_le_join (fun kv => jsize kv.2) member_str kvs Hm) as Hsum. cbv beta in Hsum. unfold member_str in Hsum. lia.
Qed.

(** For every document without floats whose objects have distinct
    keys, [json.loads(json.dumps(j))] returns [j]: the encoder and the
    decoder agree, and the decoder's fuel (the input length plus one) is
    enough. *)
Theorem loads_dumps j : json_wfb j = true -> loads (dumps j) = Ok j.
Proof.
  intros Hw. unfold loads.
  pose proof (dumps_scans_back j Hw (S (String.length (dumps j))) EmptyString) as Hs.
  rewrite str_app_nil_r in Hs. pose proof (skip_ws_dumps j EmptyString Hw) as Hk.
  rewrite str_app_nil_r in Hk. rewrite Hk, Hs; [done| |done]. pose proof (jsize_le j). lia.
Qed.

(** ** [ensure_ascii] *)

Lemma all_printable_app s t : all_printable (s ++ t) = all_printable s && all_printable t.
Proof.
  induction s as [|c s IH]; [done|]. rewrite str_app_cons. simpl. rewrite IH.
  by rewrite andb_assoc.
Qed.

Lemma escape_char_printable c : all_printable (escape_char c) = true.
Proof. destruct c as [[] [] [] [] [] [] [] []]; reflexivity. Qed.

Lemma escape_str_printable s : all_printable (escape_str s) = true.
Proof.
  induction s as [|c s IH]; [done|]. simpl.
  by rewrite all_printable_app, escape_char_printable, IH.
Qed.

Lemma uint_printable d : all_printable (NilEmpty.string_of_uint d) = true.
Proof. induction d; simpl; rewrite ?IHd; reflexivity. Qed.

Lemma int_repr_printable z : all_printable (int_repr z) = true.
Proof.
  unfold int_repr. destruct z; simpl; [done| apply uint_printable |].
  by rewrite uint_printable.
Qed.

Lemma str_join_printable l :
  Forall (fun s => all_printable s = true) l -> all_printable (str_join ", " l) = true.
Proof.
  induction 1 as [|x l Hx _ IH]; [done|]. destruct l as [|y l]; [done|].
  change (all_printable (x ++ ", " ++ str_join ", " (y :: l)) = true).
  by rewrite !all_printable_app, Hx, IH.
Qed.

(** With [ensure_ascii=True], every character [json.dump] writes for
    such a document is printable ASCII, whatever code points its strings
    hold. *)
Theorem dumps_printable j :
  json_wfb j = true -> all_printable (dumps j) = true.
Proof.
  induction j as [| [] | z | x | s | l IH | kvs IH] using json_ind'; simpl; intros Hw;
    try done.
  - apply int_repr_printable.
  - unfold encode_str. simpl. by rewrite all_printable_app, escape_str_printable.
  - rewrite !all_printable_app, str_join_printable; [done|].
    apply Forall_fmap. apply Forall_forall. intros x Hx. rewrite Forall_forall in IH.
    apply IH; [done|]. rewrite forallb_forall in Hw. apply Hw. by apply list_elem_of_In.
  - apply andb_true_iff in Hw as [_ Hw].
    rewrite !all_printable_app, str_join_printable; [done|].
    apply Forall_fmap. apply Forall_forall. intros [k v] Hx. rewrite Forall_forall in IH.
    unfold compose. simpl. rewrite !all_printable_app, escape_str_printable.
    rewrite forallb_forall in Hw. pose proof (IH (k, v) Hx) as Hkv. simpl in Hkv.
    rewrite Hkv; [done|]. apply (Hw (k, v)). by apply list_elem_of_In.
Qed.

(** ** Assignments keep documents in the round trip *)

Lemma dict_set_keys_sub x k v kvs : x ∈ (dict_set k v kvs).*1 -> x = k \/ x ∈ kvs.*1.
Proof.
  induction kvs as [|[k' v'] kvs IH]; simpl; [rewrite list_elem_of_singleton; by left|].
  case_match; simpl; rewrite !elem_of_cons; [tauto|]. intros [-> | Hx]; [tauto|].
  destruct (IH Hx); tauto.
Qed.

Lemma dict_set_nodup k v kvs : NoDup kvs.*1 -> NoDup (dict_set k v kvs).*1.
Proof.
  induction kvs as [|[k' v'] kvs IH]; simpl; intros Hnd; [apply NoDup_singleton|].
  apply NoDup_cons in Hnd as [Hk' Hnd]. case_match eqn:E; simpl; constructor; auto.
  apply String.eqb_neq in E. intros [->|?]%dict_set_keys_sub; [done|contradiction].
Qed.

Lemma dict_set_values P k v kvs :
  P v -> Forall (fun kv => P kv.2) kvs -> Forall (fun kv => P kv.2) (dict_set k v kvs).
Proof.
  intros Hv. induction 1 as [|[k' v'] kvs Hkv Hf IH]; simpl; [by repeat constructor|].
  case_match; constructor; auto.
Qed.

Lemma dict_lookup_elem k v kvs : dict_lookup k kvs = Some v -> (k, v) ∈ kvs.
Proof.
  induction kvs as [|[k' v'] kvs IH]; simpl; [done|].
  case_match eqn:E; [apply String.eqb_eq in E as ->; intros [= ->]; by left|].
  intros H. right. by apply IH.
Qed.

Lemma getitem_wf c k v : json_wfb c = true -> getitem c k = Ok v -> json_wfb v = true.
Proof.
  destruct c, k; simpl; intros Hw; try discriminate; repeat case_match; intros; simplify_eq; try done.
  - apply forallb_Forall in Hw. rewrite Forall_forall in Hw. apply Hw. by eapply list_elem_of_lookup_2.
  - apply andb_true_iff in Hw as [_ Hw]. apply forallb_Forall in Hw. rewrite Forall_forall in Hw.
    by apply (Hw (s, v)), dict_lookup_elem.
Qed.

Lemma setitem_wf c k v c' :
  json_wfb c = true -> json_wfb v = true -> setitem c k v = Ok c' -> json_wfb c' = true.
Proof.
  destruct c, k; simpl; intros Hw Hv; try discriminate.
  - case_match; intros; simplify_eq. simpl. apply forallb_Forall in Hw. apply forallb_Forall.
    by apply Forall_insert.
  - intros [= <-]. simpl. apply andb_true_iff in Hw as [Hnd Hw].
    apply bool_decide_eq_true in Hnd. apply andb_true_iff. split.
    + apply bool_decide_eq_true. by apply dict_set_nodup.
    + apply forallb_Forall in Hw. apply forallb_Forall. by apply (dict_set_values (fun j => json_wfb j = true)).
Qed.

(** The nested assignment [root[p1]...[pn][last] = v] keeps a
    document without floats and with distinct keys in every object such
    a document when [v] is one: so the templates the script mutates stay
    in the class [json.loads] reads back. *)
Theorem update_at_wf path last v root root' :
  json_wfb root = true -> json_wfb v = true ->
  update_at path last v root = Ok root' -> json_wfb root' = true.
Proof.
  revert root root'. induction path as [|k path IH]; intros root root' Hr Hv Hu; simpl in Hu.
  - exact (setitem_wf _ _ _ _ Hr Hv Hu).
  - destruct (getitem root k) as [c|e] eqn:Hg; [|discriminate].
    destruct (update_at path last v c) as [c'|e] eqn:Hc; [|discriminate].
    exact (setitem_wf _ _ _ _ Hr (IH _ _ (getitem_wf _ _ _ Hr Hg) Hv Hc) Hu).
Qed.

(** ** Concrete documents *)

(** A document of the shape of the trust policy [create_aws_role]
    renders for two users, whose condition holds a quote, a newline, a
    code point above 127 and a negative integer. *)
Definition sample_doc : json :=
  JDict [("Version", JStr "2012-10-17");
         ("Statement",
          JList [JDict [("Effect", JStr "Allow");
                        ("Principal", JDict [("AWS", JList [JStr "arn:aws:iam::1:user/a";
                                                            JStr "arn:aws:iam::1:user/b"])]);
                        ("Condition", JDict [("Note", JStr (String dquote (String "010" (String "233" "x"))));
                                             ("Max", JInt (-42)); ("On", JBool true);
                                             ("Off", JNull)])]])].

Lemma loads_dumps_witness : json_wfb sample_doc = true /\ loads (dumps sample_doc) = Ok sample_doc.
Proof. split; [vm_compute; reflexivity | apply loads_dumps; vm_compute; reflexivity]. Defined.

Lemma dumps_printable_witness :
  json_wfb sample_doc = true /\ all_printable (dumps sample_doc) = true.
Proof. split; [vm_compute; reflexivity | apply dumps_printable; vm_compute; reflexivity]. Defined.

Lemma update_at_wf_witness :
  json_wfb ROLE_TEMPLATE = true /\ json_wfb (JList [JStr "arn:aws:iam::1:user/a"]) = true /\
  json_wfb (JDict [("Version", JStr "2012-10-17");
                   ("Statement", JList [JDict [("Effect", JStr "Allow"); ("Action", JStr "sts:AssumeRole");
                      ("Principal", JDict [("AWS", JList [JStr "arn:aws:iam::1:user/a"])]);
                      ("Condition", JDict [])]])]) = true.
Proof.
  split; [vm_compute; reflexivity|]. split; [vm_compute; reflexivity|].
  apply (update_at_wf [KStr "Statement"; KInt 0; KStr "Principal"] (KStr "AWS")
           (JList [JStr "arn:aws:iam::1:user/a"]) ROLE_TEMPLATE); vm_compute; reflexivity.
Defined.
