(* ===== verification/Pathlib.v ===== *)
(** * Paths and the file system

    [getargs] turns the [--workingdir] string into a [pathlib.Path] and
    creates it with [mkdir(exist_ok=True, parents=True)]; the role and
    group operations write their policy documents to [workingdir / name].
    This file models the part of [pathlib] and of the file system those
    lines use: path normalisation, the [/] operator, [str(path)],
    [os.mkdir], [Path.mkdir] with its recursion on the parent, and opening
    a file for writing. *)

From Stdlib Require Import ZArith String Ascii.
From stdpp Require Import base strings list gmap.
From S2P Require Import Prelude.

Open Scope string_scope.

(** ** Paths

    A [PurePosixPath] is its root ([EmptyString] for a relative path, ["/"]
    or ["//"]) and its parts: the components of the string split on ["/"],
    with empty components and ["."] dropped. *)

Record path := mkPath { p_root : string; p_parts : list string }.

#[export] Instance path_eq_dec : EqDecision path.
Proof. solve_decision. Defined.

#[export] Program Instance path_countable : Countable path :=
  inj_countable' (fun p => (p_root p, p_parts p)) (fun rp => mkPath rp.1 rp.2) _.
Next Obligation. by intros []. Qed.

Definition slash : ascii := "/"%char.

(** [s.split("/")] *)
Fixpoint split_slash (s : string) : list string :=
  match s with
  | EmptyString => [EmptyString]
  | String c s' =>
      match split_slash s' with
      | [] => []
      | cur :: rest =>
          if Ascii.eqb c slash then EmptyString :: cur :: rest
          else String c cur :: rest
      end
  end.

Definition keep_part (x : string) : bool :=
  negb (String.eqb x EmptyString) && negb (String.eqb x ".").

(** [PurePosixPath(s)]: two leading slashes are kept as the root, one or
    three or more collapse to one. *)
Definition parse_path (s : string) : path :=
  let root :=
    match s with
    | String "/" (String "/" (String "/" _)) => "/"
    | String "/" (String "/" _) => "//"
    | String "/" _ => "/"
    | _ => EmptyString
    end in
  mkPath root (filter keep_part (split_slash s)).

(** [str(p)] *)
Definition path_str (p : path) : string :=
  match p_parts p with
  | [] => if String.eqb (p_root p) EmptyString then "." else p_root p
  | ps => p_root p ++ str_join "/" ps
  end.

(** [p / name]: an absolute [name] replaces [p]. *)
Definition path_div (p : path) (name : string) : path :=
  let q := parse_path name in
  if String.eqb (p_root q) EmptyString then mkPath (p_root p) (p_parts p ++ p_parts q)
  else q.

(** [p.parent]: the root is its own parent. *)
Definition parent (p : path) : path := mkPath (p_root p) (removelast (p_parts p)).

(** ** The file system

    Directories and regular files with their contents, each named by its
    normalised path.  The root of a path ([.] for the working directory
    of the process) always exists as a directory. *)

Record fs := mkFs { fs_dirs : gset path; fs_files : gmap path string }.

Definition is_dir (f : fs) (p : path) : bool :=
  bool_decide (p_parts p = []) || bool_decide (p ∈ fs_dirs f).

Definition is_file (f : fs) (p : path) : bool :=
  bool_decide (is_Some (fs_files f !! p)).

Definition path_exists (f : fs) (p : path) : bool := is_dir f p || is_file f p.

(** The proper ancestors of [p], outermost first, without its root. *)
Definition ancestors (p : path) : list path :=
  (fun i => mkPath (p_root p) (take i (p_parts p))) <$> seq 1 (length (p_parts p) - 1).

(** Resolving the directory that holds [target]: the first ancestor
    that is not a directory stops the lookup, and the error names the
    path the system call was given. *)
Fixpoint resolve_dirs (f : fs) (target : string) (ps : list path) : option pyexn :=
  match ps with
  | [] => None
  | q :: ps' =>
      if is_dir f q then resolve_dirs f target ps'
      else if is_file f q then Some (NotADirectoryError target)
      else Some (FileNotFoundError target)
  end.

(** [os.mkdir(p)] *)
Definition os_mkdir (p : path) (f : fs) : outcome pyexn fs :=
  match resolve_dirs f (path_str p) (ancestors p) with
  | Some e => Raise e
  | None =>
      if path_exists f p then Raise (FileExistsError (path_str p))
      else Ok (mkFs ({[p]} ∪ fs_dirs f) (fs_files f))
  end.

Definition is_file_not_found (e : pyexn) : bool :=
  match e with FileNotFoundError _ => true | _ => false end.

(** The [OSError] subclasses [os.mkdir] raises. *)
Definition is_oserror (e : pyexn) : bool :=
  match e with
  | FileNotFoundError _ | FileExistsError _ | NotADirectoryError _
  | IsADirectoryError _ => true
  | _ => false
  end.

(** [p.mkdir(parents=False, exist_ok=True)] once the parent is in place. *)
Definition mkdir_exist_ok (p : path) (f : fs) : outcome pyexn unit * fs :=
  match os_mkdir p f with
  | Ok f' => (Ok tt, f')
  | Raise e =>
      if negb (is_file_not_found e) && is_oserror e && is_dir f p
      then (Ok tt, f) else (Raise e, f)
  end.

(** [p.mkdir(parents=True, exist_ok=True)], recursing on [p.parent] when
    [os.mkdir] reports a missing directory.  The recursion follows the
    parts of [p], so [length (p_parts p)] is enough fuel
    ([path_mkdir_fuel] below). *)
Fixpoint path_mkdir (fuel : nat) (p : path) (f : fs) : outcome pyexn unit * fs :=
  match os_mkdir p f with
  | Ok f' => (Ok tt, f')
  | Raise e =>
      if is_file_not_found e then
        if bool_decide (parent p = p) then (Raise e, f)
        else match fuel with
             | 0 => (Raise e, f)
             | S fuel' =>
                 match path_mkdir fuel' (parent p) f with
                 | (Raise e', f1) => (Raise e', f1)
                 | (Ok _, f1) => mkdir_exist_ok p f1
                 end
             end
      else if is_oserror e && is_dir f p then (Ok tt, f) else (Raise e, f)
  end.

Definition mkdir_parents_exist_ok (p : path) : st fs pyexn unit :=
  path_mkdir (length (p_parts p)) p.

(** [p.open("w")]: create or truncate a regular file in an existing
    directory. *)
Definition open_w (p : path) (f : fs) : outcome pyexn fs :=
  match resolve_dirs f (path_str p) (ancestors p) with
  | Some e => Raise e
  | None =>
      if is_dir f p then Raise (IsADirectoryError (path_str p))
      else Ok (mkFs (fs_dirs f) (<[p := EmptyString]> (fs_files f)))
  end.

(** Writing [text] to a file opened for writing appends to it. *)
Definition write_text (p : path) (text : string) (f : fs) : fs :=
  mkFs (fs_dirs f)
    (<[p := default EmptyString (fs_files f !! p) ++ text]> (fs_files f)).

(** The two file operations as computations on the file system. *)
Definition fs_open_w (p : path) : st fs pyexn unit :=
  fun f => match open_w p f with Ok f' => (Ok tt, f') | Raise e => (Raise e, f) end.

Definition fs_write (p : path) (text : string) : st fs pyexn unit :=
  fun f => (Ok tt, write_text p text f).

(** ** Lemmas *)

Lemma is_dir_add (f : fs) p q :
  is_dir (mkFs ({[q]} ∪ fs_dirs f) (fs_files f)) p = is_dir f p || bool_decide (p = q).
Proof.
  unfold is_dir. simpl. repeat case_bool_decide; set_solver.
Qed.

Lemma os_mkdir_ok_dir p (f f' : fs) : os_mkdir p f = Ok f' -> is_dir f' p = true.
Proof.
  unfold os_mkdir. destruct (resolve_dirs _ _ _); [done|].
  destruct (path_exists f p); [done|]. intros [= <-].
  rewrite is_dir_add. rewrite bool_decide_eq_true_2 by done. apply orb_true_r.
Qed.

Lemma mkdir_exist_ok_dir p (f f' : fs) u : mkdir_exist_ok p f = (Ok u, f') -> is_dir f' p = true.
Proof.
  unfold mkdir_exist_ok. destruct (os_mkdir p f) as [f1|e] eqn:E.
  - intros [= _ <-]. by eapply os_mkdir_ok_dir.
  - destruct (negb _ && _ && is_dir f p) eqn:Hd; [|done].
    intros [= _ <-]. by apply andb_true_iff in Hd as [_ ->].
Qed.

(** When [Path.mkdir(parents=True, exist_ok=True)] returns, the path is a
    directory. *)
Lemma path_mkdir_ok_dir fuel p (f f' : fs) u :
  path_mkdir fuel p f = (Ok u, f') -> is_dir f' p = true.
Proof.
  revert p f. induction fuel as [|fuel IH]; intros p f; simpl;
    destruct (os_mkdir p f) as [f1|e] eqn:E.
  - intros [= _ <-]. by eapply os_mkdir_ok_dir.
  - destruct (is_file_not_found e); [by case_bool_decide|].
    destruct (is_oserror e && is_dir f p) eqn:Hd; [|done].
    intros [= _ <-]. by apply andb_true_iff in Hd as [_ ->].
  - intros [= _ <-]. by eapply os_mkdir_ok_dir.
  - destruct (is_file_not_found e).
    + case_bool_decide; [done|].
      destruct (path_mkdir fuel (parent p) f) as [[u1|e1] f1] eqn:Ep; [|done].
      apply mkdir_exist_ok_dir.
    + destruct (is_oserror e && is_dir f p) eqn:Hd; [|done].
      intros [= _ <-]. by apply andb_true_iff in Hd as [_ ->].
Qed.

(** ** Well-formed file systems

    Every proper prefix of a directory or a file is a directory, no entry
    is a root, and no path is both a file and a directory.  [mkdir] and
    [open("w")] keep this invariant. *)

Definition prefix_dirs (f : fs) (p : path) : Prop :=
  forall i, 0 < i < length (p_parts p) -> mkPath (p_root p) (take i (p_parts p)) ∈ fs_dirs f.

Definition wf_fs (f : fs) : Prop :=
  (forall p, p ∈ fs_dirs f -> p_parts p <> [] /\ prefix_dirs f p) /\
  (forall p v, fs_files f !! p = Some v -> p_parts p <> [] /\ prefix_dirs f p /\ p ∉ fs_dirs f).

Lemma elem_of_ancestors p q :
  q ∈ ancestors p <->
  exists i, 0 < i < length (p_parts p) /\ q = mkPath (p_root p) (take i (p_parts p)).
Proof.
  unfold ancestors. rewrite list_elem_of_fmap. setoid_rewrite elem_of_seq.
  split; intros (i & ? & ?); exists i; split; (lia || done).
Qed.

Lemma is_dir_ancestor (f : fs) p q :
  q ∈ ancestors p -> is_dir f q = bool_decide (q ∈ fs_dirs f).
Proof.
  intros (i & Hi & ->)%elem_of_ancestors. unfold is_dir. simpl.
  rewrite bool_decide_eq_false_2; [done|].
  intros Ht. apply (f_equal length) in Ht. rewrite length_take in Ht. simpl in Ht. lia.
Qed.

Lemma resolve_dirs_none (f : fs) t ps :
  resolve_dirs f t ps = None <-> Forall (fun q => is_dir f q = true) ps.
Proof.
  induction ps as [|q ps IH]; simpl; [split; constructor|].
  rewrite Forall_cons. destruct (is_dir f q); [rewrite IH; naive_solver|].
  destruct (is_file f q); split; intros H; try discriminate; by destruct H.
Qed.

Lemma resolve_prefix_dirs (f : fs) t p :
  resolve_dirs f t (ancestors p) = None <-> prefix_dirs f p.
Proof.
  rewrite resolve_dirs_none, Forall_forall. split.
  - intros H i Hi.
    assert (Hq : mkPath (p_root p) (take i (p_parts p)) ∈ ancestors p)
      by (apply elem_of_ancestors; eauto).
    specialize (H _ Hq). rewrite (is_dir_ancestor f p _ Hq) in H.
    by apply bool_decide_eq_true in H.
  - intros H q Hq. rewrite (is_dir_ancestor _ _ _ Hq). apply bool_decide_eq_true_2.
    apply elem_of_ancestors in Hq as (i & Hi & ->). by apply H.
Qed.

Lemma prefix_dirs_mono (f f' : fs) p :
  fs_dirs f ⊆ fs_dirs f' -> prefix_dirs f p -> prefix_dirs f' p.
Proof. intros Hs H i Hi. apply Hs, H, Hi. Qed.

Lemma os_mkdir_wf p (f f' : fs) : wf_fs f -> os_mkdir p f = Ok f' -> wf_fs f'.
Proof.
  intros [Hd Hf]. unfold os_mkdir.
  destruct (resolve_dirs f _ (ancestors p)) eqn:Hr; [done|].
  apply resolve_prefix_dirs in Hr.
  destruct (path_exists f p) eqn:He; [done|]. intros [= <-].
  unfold path_exists, is_dir, is_file in He. apply orb_false_iff in He as [He1 He2].
  apply orb_false_iff in He1 as [Hroot Hnd].
  apply bool_decide_eq_false_1 in Hroot, Hnd, He2.
  assert (Hsub : fs_dirs f ⊆ {[p]} ∪ fs_dirs f) by set_solver.
  split; simpl.
  - intros q [->%elem_of_singleton | Hq]%elem_of_union.
    + split; [done|]. by eapply prefix_dirs_mono.
    + destruct (Hd q Hq). split; [done|]. by eapply prefix_dirs_mono.
  - intros q v Hq. destruct (Hf q v Hq) as (? & ? & ?). split_and!; [done| by eapply prefix_dirs_mono|].
    intros [->%elem_of_singleton | ?]%elem_of_union; [|done]. apply He2. by eexists.
Qed.

Lemma length_removelast {A} (l : list A) : length (removelast l) = length l - 1.
Proof. rewrite removelast_firstn_len, length_take. lia. Qed.

Lemma parent_eq_iff p : parent p = p <-> p_parts p = [].
Proof.
  destruct p as [r ps]. unfold parent. simpl. split; [|by intros ->].
  intros [= H]. apply (f_equal length) in H. rewrite length_removelast in H.
  destruct ps; simpl in *; [done|lia].
Qed.

Lemma parent_parts_length p : length (p_parts (parent p)) = length (p_parts p) - 1.
Proof. apply length_removelast. Qed.

(** The ancestors of [p] are those of its parent and the parent itself
    when it is not the root. *)
Lemma elem_of_ancestors_parent p q :
  q ∈ ancestors p <->
  q ∈ ancestors (parent p) \/ (q = parent p /\ p_parts (parent p) <> []).
Proof.
  rewrite !elem_of_ancestors. destruct p as [r ps]. unfold parent. simpl.
  rewrite length_removelast. split.
  - intros (i & Hi & ->). destruct (decide (i < length ps - 1)).
    + left. exists i. rewrite firstn_removelast by lia. split; [lia|done].
    + right. rewrite removelast_firstn_len. replace (pred (length ps)) with i by lia.
      split; [done|]. intros Ht. apply (f_equal length) in Ht. rewrite length_take in Ht.
      simpl in Ht. lia.
  - intros [(i & Hi & ->) | (-> & Hne)].
    + exists i. rewrite firstn_removelast by lia. split; [lia|done].
    + exists (length ps - 1). rewrite removelast_firstn_len.
      replace (pred (length ps)) with (length ps - 1) by lia. split; [|done].
      destruct ps as [|x ps]; [done|]. destruct ps; [done|]. simpl. lia.
Qed.

Lemma wf_dir_prefix (f : fs) p : wf_fs f -> is_dir f p = true -> prefix_dirs f p.
Proof.
  intros [Hd _] H. unfold is_dir in H. apply orb_true_iff in H as [H|H];
    apply bool_decide_eq_true in H.
  - intros i Hi. rewrite H in Hi. simpl in Hi. lia.
  - by apply Hd.
Qed.

Lemma os_mkdir_exists (f : fs) p :
  wf_fs f -> is_dir f p = true -> os_mkdir p f = Raise (FileExistsError (path_str p)).
Proof.
  intros Hwf Hd. unfold os_mkdir.
  rewrite (proj2 (resolve_prefix_dirs f _ p) (wf_dir_prefix f p Hwf Hd)).
  unfold path_exists. by rewrite Hd.
Qed.

Lemma os_mkdir_new (f : fs) p :
  prefix_dirs f p -> path_exists f p = false ->
  os_mkdir p f = Ok (mkFs ({[p]} ∪ fs_dirs f) (fs_files f)).
Proof.
  intros Hp He. unfold os_mkdir.
  by rewrite (proj2 (resolve_prefix_dirs f _ p) Hp), He.
Qed.

(** When an ancestor is missing and none is a file, [os.mkdir] reports a
    missing directory. *)
Lemma resolve_missing (f : fs) t ps :
  Forall (fun q => is_file f q = false) ps ->
  resolve_dirs f t ps = None \/ resolve_dirs f t ps = Some (FileNotFoundError t).
Proof.
  induction 1 as [|q ps Hq _ IH]; simpl; [by left|].
  destruct (is_dir f q); [done|]. rewrite Hq. by right.
Qed.

(** [Path.mkdir(parents=True, exist_ok=True)] on a directory that
    already exists changes nothing: the directory is reused. *)
Theorem mkdir_reuse fuel p (f : fs) :
  wf_fs f -> is_dir f p = true -> path_mkdir fuel p f = (Ok tt, f).
Proof.
  intros Hwf Hd. destruct fuel; simpl; rewrite (os_mkdir_exists f p Hwf Hd); simpl; by rewrite Hd.
Qed.

(** The recursion of [Path.mkdir] on the parent terminates within the
    number of parts of the path: any fuel at least that gives the same
    result. *)
Theorem path_mkdir_fuel n p (f : fs) :
  length (p_parts p) <= n -> path_mkdir n p f = path_mkdir (length (p_parts p)) p f.
Proof.
  remember (length (p_parts p)) as k eqn:Hk. revert p f n Hk.
  induction k as [|k IH]; intros p f n Hk Hn.
  - assert (Hpp : parent p = p) by (apply parent_eq_iff; by destruct (p_parts p)).
    destruct n; [done|]. simpl. destruct (os_mkdir p f); [done|].
    destruct (is_file_not_found e); [|done]. by case_bool_decide.
  - destruct n as [|n]; [lia|]. simpl. destruct (os_mkdir p f); [done|].
    rewrite (IH (parent p) f n); [done|rewrite parent_parts_length; lia|lia].
Qed.

Lemma mkdir_exist_ok_wf p (f f' : fs) r : wf_fs f -> mkdir_exist_ok p f = (r, f') -> wf_fs f'.
Proof.
  intros Hwf. unfold mkdir_exist_ok. destruct (os_mkdir p f) eqn:E.
  - intros [= _ <-]. by eapply os_mkdir_wf.
  - destruct (_ && _ && _); by intros [= _ <-].
Qed.

(** [Path.mkdir] keeps the file system well formed, whether it succeeds
    or raises. *)
Lemma path_mkdir_keeps_wf fuel p (f f' : fs) r :
  wf_fs f -> path_mkdir fuel p f = (r, f') -> wf_fs f'.
Proof.
  revert p f f' r. induction fuel as [|fuel IH]; intros p f f' r Hwf; simpl;
    destruct (os_mkdir p f) eqn:E;
    try (intros [= _ <-]; by eapply os_mkdir_wf).
  - destruct (is_file_not_found e); [case_bool_decide|destruct (_ && _)];
      by intros [= _ <-].
  - destruct (is_file_not_found e); [case_bool_decide|destruct (_ && _)];
      try by intros [= _ <-].
    destruct (path_mkdir fuel (parent p) f) as [[]  f1] eqn:Ep.
    + apply mkdir_exist_ok_wf. by eapply IH.
    + intros [= _ <-]. by eapply IH.
Qed.

(** [Path.mkdir(parents=True, exist_ok=True)] keeps the file
    system well formed whether it succeeds or raises, and when it returns
    the path is a directory. *)
Theorem path_mkdir_wf fuel p (f f' : fs) r :
  wf_fs f -> path_mkdir fuel p f = (r, f') -> wf_fs f' /\ (r = Ok tt -> is_dir f' p = true).
Proof.
  intros Hwf Hr. split; [by eapply path_mkdir_keeps_wf|].
  intros ->. by eapply path_mkdir_ok_dir.
Qed.

Lemma ancestors_shorter p q : q ∈ ancestors p -> length (p_parts q) < length (p_parts p).
Proof.
  intros (i & Hi & ->)%elem_of_ancestors. simpl. rewrite length_take. lia.
Qed.

Lemma ancestors_nonroot p q : q ∈ ancestors p -> p_parts p <> [].
Proof. intros Hq%ancestors_shorter Hp. rewrite Hp in Hq. simpl in Hq. lia. Qed.

Lemma wf_root_not_file (f : fs) q : wf_fs f -> p_parts q = [] -> is_file f q = false.
Proof.
  intros [_ Hf] Hq. unfold is_file. apply bool_decide_eq_false_2.
  intros [v Hv]. by destruct (Hf q v Hv) as [? _].
Qed.

Lemma is_dir_nonroot (f : fs) p : p_parts p <> [] -> is_dir f p = bool_decide (p ∈ fs_dirs f).
Proof. intros Hp. unfold is_dir. by rewrite bool_decide_eq_false_2. Qed.

(** [Path.mkdir(parents=True, exist_ok=True)] on an existing regular
    file raises [FileExistsError]: [exist_ok] only excuses a directory. *)
Lemma mkdir_on_file fuel p (f : fs) :
  wf_fs f -> is_file f p = true -> path_mkdir fuel p f = (Raise (FileExistsError (path_str p)), f).
Proof.
  intros [_ Hwf] Hp. apply bool_decide_eq_true in Hp as [v Hv].
  destruct (Hwf p v Hv) as (Hne & Hpre & Hnd).
  assert (Ho : os_mkdir p f = Raise (FileExistsError (path_str p))).
  { unfold os_mkdir. rewrite (proj2 (resolve_prefix_dirs f _ p) Hpre).
    unfold path_exists, is_file. rewrite orb_comm, bool_decide_eq_true_2 by (by eexists). done. }
  assert (Hd : is_dir f p = false) by (rewrite is_dir_nonroot by done; by apply bool_decide_eq_false_2).
  destruct fuel; simpl; rewrite Ho; simpl; by rewrite Hd.
Qed.

(** The directories [mkdir -p] leaves: the ones there before, the path
    and its ancestors. *)
Definition mkdir_result (f : fs) (p : path) (f' : fs) : Prop :=
  fs_files f' = fs_files f /\
  forall q, q ∈ fs_dirs f' <-> q ∈ fs_dirs f \/ (p_parts p <> [] /\ (q = p \/ q ∈ ancestors p)).

Lemma path_mkdir_creates k p (f : fs) :
  length (p_parts p) = k -> wf_fs f -> is_file f p = false ->
  (forall q, q ∈ ancestors p -> is_file f q = false) ->
  exists f', path_mkdir k p f = (Ok tt, f') /\ mkdir_result f p f'.
Proof.
  revert p f. induction k as [|k IH]; intros p f Hk Hwf Hpf Hanc.
  - assert (Hp : p_parts p = []) by (by destruct (p_parts p)).
    exists f. rewrite mkdir_reuse by (done || by unfold is_dir; rewrite Hp).
    split; [done|]. split; [done|]. naive_solver.
  - assert (Hne : p_parts p <> []) by (intros Hp; rewrite Hp in Hk; done).
    destruct (is_dir f p) eqn:Hd.
    + exists f. rewrite mkdir_reuse by done. split; [done|]. split; [done|].
      pose proof (wf_dir_prefix f p Hwf Hd) as Hpre.
      rewrite is_dir_nonroot in Hd by done. apply bool_decide_eq_true in Hd.
      intros q. split; [by left|]. intros [Hq | (_ & [-> | Hq])]; [done..|].
      apply elem_of_ancestors in Hq as (i & Hi & ->). by apply Hpre.
    + assert (He : path_exists f p = false) by (unfold path_exists; by rewrite Hd, Hpf).
      destruct (resolve_dirs f (path_str p) (ancestors p)) as [e|] eqn:Hr.
      2:{ apply resolve_prefix_dirs in Hr as Hpre.
        exists (mkFs ({[p]} ∪ fs_dirs f) (fs_files f)). simpl.
        rewrite (os_mkdir_new f p Hpre He). split; [done|]. split; [done|]. intros q.
        simpl. rewrite elem_of_union, elem_of_singleton. split; [naive_solver|].
        intros [? | (_ & [-> | Hq])]; [by right | by left|right].
        apply elem_of_ancestors in Hq as (i & Hi & ->). by apply Hpre. }
      destruct (resolve_missing f (path_str p) (ancestors p)) as [Hn|Hs];
        [by apply Forall_forall | congruence |].
      assert (Hos : os_mkdir p f = Raise (FileNotFoundError (path_str p)))
        by (unfold os_mkdir; by rewrite Hs).
      assert (Hpar : parent p <> p) by (by rewrite parent_eq_iff).
      destruct (IH (parent p) f) as (f1 & Hrec & Hfiles1 & Hdirs1).
      { rewrite parent_parts_length, Hk. lia. }
      { done. }
      { destruct (decide (p_parts (parent p) = [])); [by apply wf_root_not_file|].
        apply Hanc, elem_of_ancestors_parent. by right. }
      { intros q Hq. apply Hanc, elem_of_ancestors_parent. by left. }
      simpl. rewrite Hos. simpl. rewrite bool_decide_eq_false_2 by done. rewrite Hrec.
      pose proof (ancestors_nonroot (parent p)) as Hnr.
      assert (Hpre1 : prefix_dirs f1 p).
      { intros i Hi. apply Hdirs1. right.
        assert (Hq : mkPath (p_root p) (take i (p_parts p)) ∈ ancestors p)
          by (apply elem_of_ancestors; eauto).
        apply elem_of_ancestors_parent in Hq as [Hq | [Hq Hn0]].
        - split; [by eapply Hnr|by right].
        - split; [done|by left]. }
      assert (He1 : path_exists f1 p = false).
      { unfold path_exists. rewrite is_dir_nonroot by done. unfold is_file. rewrite Hfiles1.
        apply orb_false_iff. split; [|exact Hpf]. apply bool_decide_eq_false_2.
        rewrite Hdirs1. rewrite is_dir_nonroot in Hd by done. apply bool_decide_eq_false_1 in Hd.
        intros [H|(_ & [H|H])]; [done|congruence|].
        apply ancestors_shorter in H. rewrite parent_parts_length in H. lia. }
      unfold mkdir_exist_ok. rewrite (os_mkdir_new f1 p Hpre1 He1).
      eexists. split; [reflexivity|]. split; [done|]. simpl. intros q.
      rewrite elem_of_union, elem_of_singleton, Hdirs1, (elem_of_ancestors_parent p q).
      split.
      * intros [-> | [Hq | (Hn0 & [-> | Hq])]].
        { right. split; [done|]. by left. }
        { by left. }
        { right. split; [done|]. right. right. by split. }
        { right. split; [done|]. right. by left. }
      * intros [Hq | (_ & [-> | [Hq | [-> Hn0]]])].
        { right. by left. }
        { by left. }
        { right. right. split; [by eapply Hnr|]. by right. }
        { right. right. split; [done|]. by left. }
Qed.

(** On a well-formed file system where no prefix of the path is a
    regular file, [Path.mkdir(parents=True, exist_ok=True)] succeeds and
    adds exactly the path and its missing ancestors as directories. *)
Theorem mkdir_creates p (f : fs) :
  wf_fs f -> is_file f p = false ->
  (forall q, q ∈ ancestors p -> is_file f q = false) ->
  exists f', mkdir_parents_exist_ok p f = (Ok tt, f') /\ mkdir_result f p f' /\
    is_dir f' p = true /\ wf_fs f'.
Proof.
  intros Hwf Hp Hanc.
  destruct (path_mkdir_creates _ p f eq_refl Hwf Hp Hanc) as (f' & Hrun & Hres).
  exists f'. split; [done|]. split; [done|].
  split; [by eapply path_mkdir_ok_dir | by eapply path_mkdir_keeps_wf].
Qed.

(** An executable check of [wf_fs]. *)
Definition prefixes_in (f : fs) (p : path) : bool :=
  forallb (fun i => bool_decide (mkPath (p_root p) (take i (p_parts p)) ∈ fs_dirs f))
    (seq 1 (length (p_parts p) - 1)).

Definition wf_fsb (f : fs) : bool :=
  forallb (fun p => negb (bool_decide (p_parts p = [])) && prefixes_in f p)
    (elements (fs_dirs f)) &&
  forallb (fun pv => negb (bool_decide (p_parts pv.1 = [])) && prefixes_in f pv.1 &&
                     negb (bool_decide (pv.1 ∈ fs_dirs f)))
    (map_to_list (fs_files f)).

Lemma prefixes_in_sound (f : fs) p : prefixes_in f p = true -> prefix_dirs f p.
Proof.
  unfold prefixes_in. rewrite forallb_forall. intros H i Hi.
  assert (Hin : In i (seq 1 (length (p_parts p) - 1))) by (apply in_seq; lia).
  specialize (H i Hin). by apply bool_decide_eq_true in H.
Qed.

Lemma wf_fsb_sound (f : fs) : wf_fsb f = true -> wf_fs f.
Proof.
  unfold wf_fsb. rewrite andb_true_iff, !forallb_forall. intros [Hd Hf]. split.
  - intros p Hp. specialize (Hd p (proj1 (list_elem_of_In _ _) (proj2 (elem_of_elements _ _) Hp))).
    apply andb_true_iff in Hd as [Hr Hpre]. apply negb_true_iff, bool_decide_eq_false in Hr.
    split; [done|]. by apply prefixes_in_sound.
  - intros p v Hp. specialize (Hf (p, v) (proj1 (list_elem_of_In _ _)
                                        (proj2 (elem_of_map_to_list _ _ _) Hp))).
    simpl in Hf. apply andb_true_iff in Hf as [Hf Hn]. apply andb_true_iff in Hf as [Hr Hpre].
    apply negb_true_iff, bool_decide_eq_false in Hr, Hn.
    split_and!; [done| by apply prefixes_in_sound | done].
Qed.

(** ** Concrete runs *)

Definition tmp_dir : path := mkPath EmptyString ["tmp"].

(** Only [tmp/], as [getargs] leaves a fresh working directory. *)
Definition tmp_fs : fs := mkFs {[ tmp_dir ]} ∅.

(** [tmp/] already holds [tmp/a] and a file [tmp/a/f]. *)
Definition sample_fs : fs :=
  mkFs {[ tmp_dir; mkPath EmptyString ["tmp"; "a"] ]}
       {[ mkPath EmptyString ["tmp"; "a"; "f"] := "x" ]}.

Lemma mkdir_reuse_example : path_mkdir 5 (parse_path "./tmp/a/") sample_fs = (Ok tt, sample_fs).
Proof. apply mkdir_reuse; [apply wf_fsb_sound|]; vm_compute; reflexivity. Defined.

Lemma path_mkdir_fuel_witness :
  path_mkdir 7 (parse_path "tmp/b/c") sample_fs = path_mkdir 3 (parse_path "tmp/b/c") sample_fs.
Proof. apply (path_mkdir_fuel 7 (parse_path "tmp/b/c")). vm_compute. lia. Defined.

Lemma path_mkdir_wf_witness :
  wf_fs (snd (path_mkdir 1 (parse_path "tmp/a/f/g") sample_fs)) /\
  (fst (path_mkdir 1 (parse_path "tmp/a/f/g") sample_fs) = Ok tt ->
   is_dir (snd (path_mkdir 1 (parse_path "tmp/a/f/g") sample_fs)) (parse_path "tmp/a/f/g") = true).
Proof.
  apply (path_mkdir_wf 1 (parse_path "tmp/a/f/g") sample_fs _ (fst (path_mkdir 1 (parse_path "tmp/a/f/g") sample_fs)));
    [apply wf_fsb_sound; vm_compute; reflexivity | apply surjective_pairing].
Defined.

Lemma mkdir_creates_witness :
  exists f', mkdir_parents_exist_ok (parse_path "tmp/b/c") sample_fs = (Ok tt, f') /\
    mkdir_result sample_fs (parse_path "tmp/b/c") f' /\
    is_dir f' (parse_path "tmp/b/c") = true /\ wf_fs f'.
Proof.
  apply mkdir_creates; [apply wf_fsb_sound; vm_compute; reflexivity | vm_compute; reflexivity |].
  intros q (i & Hi & ->)%elem_of_ancestors. simpl in Hi.
  destruct i as [|[|[|i]]]; try lia; vm_compute; reflexivity.
Defined.

(** ** Opening a file in a directory *)

Definition child (d : path) (x : string) : path := mkPath (p_root d) (p_parts d ++ [x]).

Lemma path_div_child d x :
  parse_path x = mkPath EmptyString [x] -> path_div d x = child d x.
Proof. intros Hx. unfold path_div. by rewrite Hx. Qed.

Lemma prefix_dirs_child (f : fs) d x :
  wf_fs f -> is_dir f d = true -> prefix_dirs f (child d x).
Proof.
  intros Hwf Hd i Hi. unfold child in *. simpl in *. rewrite length_app in Hi. simpl in Hi.
  rewrite take_app_le by lia. destruct (decide (i = length (p_parts d))) as [->|Hne].
  - rewrite take_ge by lia.
    assert (Hne : p_parts d <> []) by (intros Hn; rewrite Hn in Hi; simpl in Hi; lia).
    rewrite is_dir_nonroot in Hd by done. apply bool_decide_eq_true in Hd. by destruct d.
  - apply (wf_dir_prefix f d Hwf Hd). lia.
Qed.

Lemma open_w_child (f : fs) d x :
  wf_fs f -> is_dir f d = true -> is_dir f (child d x) = false ->
  open_w (child d x) f = Ok (mkFs (fs_dirs f) (<[child d x := EmptyString]> (fs_files f))).
Proof.
  intros Hwf Hd Hc. unfold open_w.
  rewrite (proj2 (resolve_prefix_dirs _ _ _) (prefix_dirs_child f d x Hwf Hd)). by rewrite Hc.
Qed.

(** Creating or truncating a file keeps the file system well formed. *)
(** After [open("w")] the file exists and is empty. *)
Lemma open_w_lookup p (f f' : fs) : open_w p f = Ok f' -> fs_files f' !! p = Some EmptyString.
Proof.
  unfold open_w. destruct (resolve_dirs _ _ _); [done|]. destruct (is_dir f p); [done|].
  intros [= <-]. simpl. by rewrite lookup_insert_eq.
Qed.

Lemma open_w_wf p (f f' : fs) : wf_fs f -> open_w p f = Ok f' -> wf_fs f'.
Proof.
  intros [Hd Hf]. unfold open_w. destruct (resolve_dirs f _ _) eqn:Hr; [done|].
  apply resolve_prefix_dirs in Hr. destruct (is_dir f p) eqn:Hp; [done|]. intros [= <-].
  split; [done|]. simpl. intros q v. rewrite lookup_insert.
  case_decide as Hq; [intros [= <-]; subst q | apply Hf].
  assert (Hne : p_parts p <> []) by (intros Hr0; unfold is_dir in Hp; by rewrite Hr0 in Hp).
  rewrite is_dir_nonroot in Hp by done. apply bool_decide_eq_false in Hp.
  split_and!; [done | exact Hr | done].
Qed.

Lemma write_text_wf p text (f : fs) : wf_fs f -> is_file f p = true -> wf_fs (write_text p text f).
Proof.
  intros [Hd Hf] Hp. unfold is_file in Hp. apply bool_decide_eq_true in Hp as [v0 Hv0].
  split; [done|]. simpl. intros q v. rewrite lookup_insert.
  case_decide; [subst q; intros _; by eapply Hf | apply Hf].
Qed.

(** [Path.mkdir] raises [OSError] subclasses only. *)
Lemma resolve_dirs_oserror f t ps e : resolve_dirs f t ps = Some e -> is_oserror e = true.
Proof. induction ps as [|q ps IH]; simpl; [done|]. repeat case_match; by intros [= <-] || auto. Qed.

Lemma os_mkdir_oserror p f e : os_mkdir p f = Raise e -> is_oserror e = true.
Proof.
  unfold os_mkdir. destruct (resolve_dirs _ _ _) eqn:Hr; [intros [= <-]; by eapply resolve_dirs_oserror|].
  case_match; by intros [= <-].
Qed.

Lemma path_mkdir_oserror fuel p f f' e : path_mkdir fuel p f = (Raise e, f') -> is_oserror e = true.
Proof.
  revert p f f'. induction fuel as [|fuel IH]; intros p f f' Hm; simpl in Hm;
    destruct (os_mkdir p f) as [f1|e1] eqn:Ho; [done| |done|];
    assert (He1 := os_mkdir_oserror _ _ _ Ho); unfold mkdir_exist_ok in Hm;
    repeat case_match; simplify_eq; eauto using os_mkdir_oserror.
Qed.
