(* ===== verification/Runtime.v ===== *)
(** * The process the script runs in

    The state a run of [createrole.py] reads and changes: the module
    globals [AWS_ACCOUNT_ID], [ARGS], [ROLE_TEMPLATE] and [POLICY_TEMPLATE]
    (the templates are dicts the functions mutate in place, so they are
    part of the state, not constants), the file system, what the process
    prints, and the external services reached through the [aws] and
    [eksctl] programs.  [run_command] (lines 40-43) and
    [subprocess.run] are modelled here.

    The external programs are an interface: a class [ExternalTools] that
    says how a command line acts on the state of the services and what it
    returns.  Every theorem about the script is proved for any instance;
    [Main.v] gives a concrete one for the end-to-end scenario. *)

From Stdlib Require Import ZArith String Ascii.
From stdpp Require Import base strings list gmap.
From S2P Require Import Prelude Json Pathlib.

Open Scope string_scope.

(** ** External programs *)

(** What a child process did: its exit status and what it wrote to its
    standard output. *)
Record proc := mkProc { p_returncode : Z; p_stdout : string }.

(** [exec cmd f x] is the run of the command line [cmd] against the state
    [x] of the services, the program reading the local files [f] (the
    [aws] CLI loads [file://] parameters): [None] when the program is not
    installed. *)
Class ExternalTools (X : Type) := exec : list string -> fs -> X -> option proc * X.

(** ** The namespace [getargs] returns *)

Record args := mkArgs {
  accountname : string;
  clustername : string;
  region : option string;
  usernames : list string;
  workingdir : path
}.

(** ** The world *)

Record world (X : Type) := mkWorld {
  w_fs : fs;
  w_stdout : list string;             (** lines printed, children's output *)
  w_stderr : list string;
  w_log : list (list string);         (** command lines started, in order *)
  w_ext : X;                          (** the state of the services *)
  AWS_ACCOUNT_ID : option json;       (** [None] is Python's [None] *)
  ARGS : option args;
  w_role_template : json;             (** the object [ROLE_TEMPLATE] names *)
  w_policy_template : json            (** the object [POLICY_TEMPLATE] names *)
}.
Arguments mkWorld {X}.
Arguments w_fs {X}. Arguments w_stdout {X}. Arguments w_stderr {X}.
Arguments w_log {X}. Arguments w_ext {X}. Arguments AWS_ACCOUNT_ID {X}.
Arguments ARGS {X}. Arguments w_role_template {X}. Arguments w_policy_template {X}.

(** The state at import time: the globals of lines 9-37. *)
Definition initial_world {X} (f : fs) (x : X) : world X :=
  mkWorld f [] [] [] x None None ROLE_TEMPLATE POLICY_TEMPLATE.

Section Setters.
Context {X : Type}.
Implicit Types w : world X.

Definition set_fs w (f : fs) := mkWorld f (w_stdout w) (w_stderr w) (w_log w) (w_ext w)
  (AWS_ACCOUNT_ID w) (ARGS w) (w_role_template w) (w_policy_template w).
Definition add_stdout w (l : string) := mkWorld (w_fs w) (w_stdout w ++ [l]) (w_stderr w) (w_log w)
  (w_ext w) (AWS_ACCOUNT_ID w) (ARGS w) (w_role_template w) (w_policy_template w).
Definition add_stderr w (l : string) := mkWorld (w_fs w) (w_stdout w) (w_stderr w ++ [l]) (w_log w)
  (w_ext w) (AWS_ACCOUNT_ID w) (ARGS w) (w_role_template w) (w_policy_template w).
Definition add_log w (cmd : list string) (x : X) := mkWorld (w_fs w) (w_stdout w) (w_stderr w) (w_log w ++ [cmd])
  x (AWS_ACCOUNT_ID w) (ARGS w) (w_role_template w) (w_policy_template w).
Definition set_account w (a : option json) := mkWorld (w_fs w) (w_stdout w) (w_stderr w) (w_log w)
  (w_ext w) a (ARGS w) (w_role_template w) (w_policy_template w).
Definition set_args w (a : option args) := mkWorld (w_fs w) (w_stdout w) (w_stderr w) (w_log w)
  (w_ext w) (AWS_ACCOUNT_ID w) a (w_role_template w) (w_policy_template w).
Definition set_role_template w (t : json) := mkWorld (w_fs w) (w_stdout w) (w_stderr w) (w_log w)
  (w_ext w) (AWS_ACCOUNT_ID w) (ARGS w) t (w_policy_template w).
Definition set_policy_template w (t : json) := mkWorld (w_fs w) (w_stdout w) (w_stderr w) (w_log w)
  (w_ext w) (AWS_ACCOUNT_ID w) (ARGS w) (w_role_template w) t.
End Setters.

(** A computation of the script. *)
Definition PyM (X A : Type) : Type := st (world X) pyexn A.

Section Ops.
Context {X : Type} `{ExternalTools X}.

(** [print(line)] *)
Definition print (line : string) : PyM X unit := modify (fun w => add_stdout w line).

(** Lift an operation on the file system. *)
Definition on_fs {A} (m : st fs pyexn A) : PyM X A :=
  fun w => let '(r, f) := m (w_fs w) in (r, set_fs w f).

(** Lift a computation that can raise but changes nothing. *)
Definition lift {A} (r : result A) : PyM X A :=
  fun w => (r, w).

(** The object [subprocess.run] returns: the exit status, and the
    output when it was captured. *)
Record completed := mkCompleted { returncode : Z; stdout : option string }.

(** [subprocess.run(cmd, check=check, capture_output=capture, text=True)].
    An output that is not captured goes to the terminal, after what the
    script printed before.  A program that is not installed raises
    [FileNotFoundError] naming it. *)
Definition subprocess_run (cmd : list string) (check capture : bool)
  : PyM X completed :=
  fun w =>
    let '(r, x') := exec cmd (w_fs w) (w_ext w) in
    let w1 := add_log w cmd x' in
    match r with
    | None => (Raise (FileNotFoundError (default EmptyString (head cmd))), w1)
    | Some p =>
        let w2 := if capture then w1 else add_stdout w1 (p_stdout p) in
        if check && negb (p_returncode p =? 0)%Z
        then (Raise (CalledProcessError (p_returncode p) cmd), w2)
        else (Ok (mkCompleted (p_returncode p)
                    (if capture then Some (p_stdout p) else None)), w2)
    end.

(** [run_command(cmd, **kwargs)] (lines 40-43). *)
Definition run_command (cmd : list string) (check capture : bool)
  : PyM X completed :=
  bind (print ("Running: " ++ str_join " " cmd)) (fun _ =>
  subprocess_run cmd check capture).
End Ops.

(** ** How [run_command] acts *)

(** The world after [run_command cmd] printed its line and started the
    child, which left the services in [x']. *)
Definition after_start {X} (w : world X) (cmd : list string) (x' : X) : world X :=
  add_log (add_stdout w ("Running: " ++ str_join " " cmd)) cmd x'.

(** The number of times [cmd] was started. *)
Definition runs_of {X} (cmd : list string) (w : world X) : nat :=
  length (List.filter (fun c => bool_decide (c = cmd)) (w_log w)).

Section RunLemmas.
Context {X : Type} `{ExternalTools X}.

Lemma run_command_exec cmd check capture (w : world X) p x' :
  exec cmd (w_fs w) (w_ext w) = (Some p, x') ->
  run_command cmd check capture w =
    (if check && negb (p_returncode p =? 0)%Z
     then Raise (CalledProcessError (p_returncode p) cmd)
     else Ok (mkCompleted (p_returncode p) (if capture then Some (p_stdout p) else None)),
     if capture then after_start w cmd x'
     else add_stdout (after_start w cmd x') (p_stdout p)).
Proof.
  intros Hx. unfold run_command, subprocess_run, bind, print, modify. simpl.
  rewrite Hx. by destruct check, capture, (p_returncode p =? 0)%Z.
Qed.

(** A command that the caller does not check, or that succeeds. *)
Lemma run_command_ok cmd check capture (w : world X) p x' :
  exec cmd (w_fs w) (w_ext w) = (Some p, x') ->
  (check = true -> p_returncode p = 0%Z) ->
  run_command cmd check capture w =
    (Ok (mkCompleted (p_returncode p) (if capture then Some (p_stdout p) else None)),
     if capture then after_start w cmd x'
     else add_stdout (after_start w cmd x') (p_stdout p)).
Proof.
  intros Hx Hc. rewrite (run_command_exec _ _ _ _ _ _ Hx).
  destruct check; [by rewrite Hc|done].
Qed.

Lemma run_command_missing cmd check capture (w : world X) x' :
  exec cmd (w_fs w) (w_ext w) = (None, x') ->
  run_command cmd check capture w =
    (Raise (FileNotFoundError (default EmptyString (head cmd))), after_start w cmd x').
Proof.
  intros Hx. unfold run_command, subprocess_run, bind, print, modify. simpl.
  by rewrite Hx.
Qed.

(** Starting a command adds exactly that command to the log. *)
Lemma runs_of_after_start c cmd (w : world X) x' :
  runs_of c (after_start w cmd x') =
    runs_of c w + (if bool_decide (cmd = c) then 1 else 0).
Proof.
  unfold runs_of, after_start. simpl. rewrite List.filter_app, length_app.
  simpl. by case_bool_decide.
Qed.

Lemma runs_of_add_stdout c (w : world X) l : runs_of c (add_stdout w l) = runs_of c w.
Proof. reflexivity. Qed.
(** Every run appends its command to the log, whatever happens. *)
Lemma run_command_log cmd check capture (w : world X) :
  w_log (snd (run_command cmd check capture w)) = (w_log w ++ [cmd])%list.
Proof.
  destruct (exec cmd (w_fs w) (w_ext w)) as [[p|] x'] eqn:Ex.
  - rewrite (run_command_exec _ _ _ _ _ _ Ex). by destruct capture.
  - by rewrite (run_command_missing _ _ _ _ _ Ex).
Qed.
End RunLemmas.

#[export] Hint Rewrite @runs_of_after_start @runs_of_add_stdout : pyrun_rw.
