(* ===== verification/Mock.v ===== *)
(** * A model of the services the script drives

    An instance of [ExternalTools] with a small state for the IAM service
    and the EKS clusters: the caller's account, the users, the roles with
    their trust policy, the groups with their inline policies and members,
    and the identity mappings of each cluster.  A command reads its
    [file://] parameter from the local file system, as the [aws] CLI does,
    and fails with the exit status the CLI uses when an entity already
    exists or is missing (254), a parameter file cannot be read (255), or
    the command is not one it knows (2).  It is not part of the script;
    the concrete runs of the development use it. *)

From Stdlib Require Import ZArith String Ascii.
From stdpp Require Import base strings list gmap.
From S2P Require Import Prelude Json Pathlib Runtime.

Open Scope string_scope.

Record aws := mkAws {
  aws_account : string;
  aws_users : gset string;
  aws_roles : gmap string string;                 (** role -> trust policy *)
  aws_groups : gmap string (gmap string string);  (** group -> inline policies *)
  aws_members : gset (string * string);           (** (group, user) *)
  aws_clusters : gset string;
  aws_mappings : list (string * string * string)  (** (cluster, arn, username) *)
}.

(** What [aws sts get-caller-identity] prints. *)
Definition identity_doc (account : string) : string :=
  dumps (JDict [("UserId", JStr "AIDAEXAMPLE");
                ("Account", JStr account);
                ("Arn", JStr ("arn:aws:iam::" ++ account ++ ":user/admin"))]).

(** The contents of the local file a [file://] parameter names. *)
Definition read_param (f : fs) (url : string) : option string :=
  if String.prefix "file://" url
  then fs_files f !! parse_path (substring 7 (String.length url - 7) url)
  else Some url.

Definition done_ (x : aws) : proc * aws := (mkProc 0 EmptyString, x).
Definition fail_ (code : Z) (x : aws) : proc * aws := (mkProc code EmptyString, x).

(** The [aws] program on its arguments. *)
Definition aws_cli (args : list string) (f : fs) (x : aws) : proc * aws :=
  match args with
  | ["sts"; "get-caller-identity"] => (mkProc 0 (identity_doc (aws_account x)), x)
  | ["iam"; "create-role"; "--role-name"; r; "--assume-role-policy-document"; url] =>
      if bool_decide (is_Some (aws_roles x !! r)) then fail_ 254 x else
      match read_param f url with
      | None => fail_ 255 x
      | Some doc =>
          done_ (mkAws (aws_account x) (aws_users x) (<[r := doc]> (aws_roles x))
                   (aws_groups x) (aws_members x) (aws_clusters x) (aws_mappings x))
      end
  | ["iam"; "create-group"; "--group-name"; g] =>
      if bool_decide (is_Some (aws_groups x !! g)) then fail_ 254 x else
      done_ (mkAws (aws_account x) (aws_users x) (aws_roles x) (<[g := ∅]> (aws_groups x))
               (aws_members x) (aws_clusters x) (aws_mappings x))
  | ["iam"; "put-group-policy"; "--group-name"; g; "--policy-name"; pn;
     "--policy-document"; url] =>
      match aws_groups x !! g, read_param f url with
      | None, _ => fail_ 254 x
      | _, None => fail_ 255 x
      | Some ps, Some doc =>
          done_ (mkAws (aws_account x) (aws_users x) (aws_roles x)
                   (<[g := <[pn := doc]> ps]> (aws_groups x))
                   (aws_members x) (aws_clusters x) (aws_mappings x))
      end
  | ["iam"; "add-user-to-group"; "--group-name"; g; "--user-name"; u] =>
      if bool_decide (is_Some (aws_groups x !! g)) && bool_decide (u ∈ aws_users x)
      then done_ (mkAws (aws_account x) (aws_users x) (aws_roles x) (aws_groups x)
                    ({[(g, u)]} ∪ aws_members x) (aws_clusters x) (aws_mappings x))
      else fail_ 254 x
  | _ => fail_ 2 x
  end.

(** The [eksctl] program on its arguments. *)
Definition eksctl_cli (args : list string) (x : aws) : proc * aws :=
  match args with
  | ["create"; "iamidentitymapping"; "--cluster"; c; "--arn"; arn; "--username"; u] =>
      if bool_decide (c ∈ aws_clusters x)
      then done_ (mkAws (aws_account x) (aws_users x) (aws_roles x) (aws_groups x)
                    (aws_members x) (aws_clusters x) (aws_mappings x ++ [(c, arn, u)]))
      else fail_ 1 x
  | _ => fail_ 1 x
  end.

Definition aws_exec (cmd : list string) (f : fs) (x : aws) : option proc * aws :=
  match cmd with
  | "aws" :: args => let '(p, x') := aws_cli args f x in (Some p, x')
  | "eksctl" :: args => let '(p, x') := eksctl_cli args x in (Some p, x')
  | _ => (None, x)
  end.

#[export] Instance aws_tools : ExternalTools aws := aws_exec.

(** An account with users [dave] and [erin] and a cluster [prod]. *)
Definition demo_aws : aws :=
  mkAws "123456789012" {[ "dave"; "erin" ]} ∅ ∅ ∅ {[ "prod" ]} [].

(** A host whose credentials have expired: every [aws] call exits with
    255 and [eksctl] with 1; the services keep no state. *)
Definition expired_exec (cmd : list string) (f : fs) (x : unit) : option proc * unit :=
  match cmd with
  | "aws" :: _ => (Some (mkProc 255 EmptyString), x)
  | "eksctl" :: _ => (Some (mkProc 1 EmptyString), x)
  | _ => (None, x)
  end.

#[export] Instance expired_tools : ExternalTools unit := expired_exec.
