(* ===== verification/Account.v ===== *)
(** * The account resolver: [get_aws_account_id] (lines 46-57)

    The account id is read from [aws sts get-caller-identity] the first
    time it is needed and kept in the global [AWS_ACCOUNT_ID].  The cache
    test is Python's truth value ([if not AWS_ACCOUNT_ID]), so a cached
    value that is false (an empty string, [0]) is fetched again on every
    call.  The theorems give the behaviour on every branch (cache hit,
    first fetch, each failure) and the number of identity checks a series
    of calls makes. *)

From Stdlib Require Import ZArith String Ascii.
From stdpp Require Import base strings list gmap.
From S2P Require Import Prelude Json JsonParse Pathlib Runtime Mock.

Open Scope string_scope.
Local Open Scope py_scope.

Definition identity_cmd : list string := ["aws"; "sts"; "get-caller-identity"].

(** [json.loads(run.stdout)["Account"]] (line 56). *)
Definition decode_account (out : string) : result json :=
  match loads out with
  | Ok doc => getitem doc (KStr "Account")
  | Raise e => Raise e
  end.

Section Resolver.
Context {X : Type} `{ExternalTools X}.

(** The value [if not AWS_ACCOUNT_ID] lets through: the cached id
    when it is true. *)
Definition cached_account (w : world X) : option json :=
  match AWS_ACCOUNT_ID w with
  | Some v => if py_truthy v then Some v else None
  | None => None
  end.

(** Lines 46-57. *)
Definition get_aws_account_id : PyM X json :=
  w <- get ;;
  match cached_account w with
  | Some v => ret v
  | None =>
      run <- run_command identity_cmd true true ;;
      acc <- lift (decode_account (default EmptyString (stdout run))) ;;
      modify (fun w => set_account w (Some acc)) ;;
      ret acc
  end.
End Resolver.

(** ** The identity service the cache relies on

    The identity check reads the services and changes nothing; its output
    depends on the state of the services only. *)
Class StableIdentity (X : Type) `{ExternalTools X} := {
  caller_identity : X -> string;
  exec_identity : forall f x,
    exec identity_cmd f x = (Some (mkProc 0 (caller_identity x)), x)
}.

#[export] Program Instance aws_stable_identity : StableIdentity aws :=
  {| caller_identity x := identity_doc (aws_account x) |}.
Next Obligation. reflexivity. Qed.

(** [n] successive calls of [get_aws_account_id()]. *)
Fixpoint resolve_n {X} `{ExternalTools X} (n : nat) : PyM X unit :=
  match n with
  | 0 => ret tt
  | S n' => bind get_aws_account_id (fun _ => resolve_n n')
  end.

Section ResolverProps.
Context {X : Type} `{ExternalTools X}.

Lemma cached_account_set (w : world X) v :
  cached_account (set_account w (Some v)) = if py_truthy v then Some v else None.
Proof. reflexivity. Qed.

(** A cache hit leaves everything as it was. *)
Lemma resolve_n_cached n (w : world X) v :
  cached_account w = Some v -> resolve_n n w = (Ok tt, w).
Proof.
  intros Hc. induction n as [|n IH]; [done|]. simpl. unfold bind, get_aws_account_id.
  simpl. unfold bind, get. rewrite Hc. apply IH.
Qed.

(** With the account id cached and true, [get_aws_account_id]
    returns it and starts no command. *)
Theorem get_aws_account_id_cached (w : world X) v :
  cached_account w = Some v -> get_aws_account_id w = (Ok v, w).
Proof. intros Hc. unfold get_aws_account_id, bind, get. by rewrite Hc. Qed.

(** Without a true cached id, [get_aws_account_id] runs
    [aws sts get-caller-identity] (printing the command), decodes its
    output, reads the field [Account], stores it in [AWS_ACCOUNT_ID] and
    returns it. *)
Theorem get_aws_account_id_fetch (w : world X) x' out d v :
  cached_account w = None ->
  exec identity_cmd (w_fs w) (w_ext w) = (Some (mkProc 0 out), x') ->
  loads out = Ok d -> getitem d (KStr "Account") = Ok v ->
  get_aws_account_id w = (Ok v, set_account (after_start w identity_cmd x') (Some v)).
Proof.
  intros Hc Hx Hd Hv. unfold get_aws_account_id, bind at 1, get. rewrite Hc.
  erewrite bind_ok by (apply (run_command_ok _ _ _ _ _ _ Hx); done). simpl.
  unfold bind, lift, decode_account. simpl. by rewrite Hd, Hv.
Qed.

(** When the identity check exits with a nonzero status,
    [get_aws_account_id] raises [CalledProcessError]; the cache stays
    empty and nothing else was started. *)
Theorem get_aws_account_id_check_fails (w : world X) x' p :
  cached_account w = None ->
  exec identity_cmd (w_fs w) (w_ext w) = (Some p, x') ->
  p_returncode p <> 0%Z ->
  get_aws_account_id w =
    (Raise (CalledProcessError (p_returncode p) identity_cmd), after_start w identity_cmd x').
Proof.
  intros Hc Hx Hrc. unfold get_aws_account_id, bind at 1, get. rewrite Hc.
  erewrite bind_err; [done|]. rewrite (run_command_exec _ _ _ _ _ _ Hx).
  by apply Z.eqb_neq in Hrc as ->.
Qed.

(** Decoding or field errors propagate with the command already run. *)
Lemma get_aws_account_id_decode_fails (w : world X) x' out e :
  cached_account w = None ->
  exec identity_cmd (w_fs w) (w_ext w) = (Some (mkProc 0 out), x') ->
  (loads out = Raise e \/ exists d, loads out = Ok d /\ getitem d (KStr "Account") = Raise e) ->
  get_aws_account_id w = (Raise e, after_start w identity_cmd x').
Proof.
  intros Hc Hx Hd. unfold get_aws_account_id, bind at 1, get. rewrite Hc.
  erewrite bind_ok by (apply (run_command_ok _ _ _ _ _ _ Hx); done). simpl.
  unfold bind, lift, decode_account. simpl.
  destruct Hd as [-> | (d & -> & ->)]; reflexivity.
Qed.
End ResolverProps.

Section Memo.
Context {X : Type} `{StableIdentity X}.

Lemma fetch_stable (w : world X) d v :
  cached_account w = None ->
  loads (caller_identity (w_ext w)) = Ok d -> getitem d (KStr "Account") = Ok v ->
  get_aws_account_id w =
    (Ok v, set_account (after_start w identity_cmd (w_ext w)) (Some v)).
Proof. intros. eapply get_aws_account_id_fetch; eauto. apply exec_identity. Qed.

Lemma runs_of_fetch (w : world X) x v :
  runs_of identity_cmd (set_account (after_start w identity_cmd x) (Some v)) =
    S (runs_of identity_cmd w).
Proof.
  change (runs_of identity_cmd (after_start w identity_cmd x) = S (runs_of identity_cmd w)).
  rewrite runs_of_after_start, bool_decide_eq_true_2 by done. lia.
Qed.

(** (C4) Memoisation: however many times the account id is asked for
    in a run, the identity check runs once, provided the id it returns
    is a true value. *)
Theorem account_memoized n (w : world X) d v :
  cached_account w = None ->
  loads (caller_identity (w_ext w)) = Ok d -> getitem d (KStr "Account") = Ok v ->
  py_truthy v = true ->
  exists w', resolve_n (S n) w = (Ok tt, w') /\
    runs_of identity_cmd w' = S (runs_of identity_cmd w) /\ AWS_ACCOUNT_ID w' = Some v.
Proof.
  intros Hc Hd Hv Ht. simpl. erewrite bind_ok by (eapply fetch_stable; eauto).
  eexists. split; [apply resolve_n_cached with v; by rewrite cached_account_set, Ht|].
  split; [apply runs_of_fetch | done].
Qed.

(** (C9) The cache test is the truth value of the cached id: when the
    service reports a false id (an empty string, [0]), every one of [n]
    calls runs the identity check again. *)
Theorem account_falsy_refetch n (w : world X) d v :
  cached_account w = None ->
  loads (caller_identity (w_ext w)) = Ok d -> getitem d (KStr "Account") = Ok v ->
  py_truthy v = false ->
  exists w', resolve_n n w = (Ok tt, w') /\
    runs_of identity_cmd w' = runs_of identity_cmd w + n.
Proof.
  intros Hc Hd Hv Ht. revert w Hc Hd. induction n as [|n IH]; intros w Hc Hd.
  - exists w. split; [done | lia].
  - simpl. erewrite bind_ok by (eapply fetch_stable; eauto).
    destruct (IH (set_account (after_start w identity_cmd (w_ext w)) (Some v)))
      as (w' & Hrun & Hcount); [by rewrite cached_account_set, Ht | done |].
    exists w'. split; [done|]. rewrite Hcount, runs_of_fetch. lia.
Qed.
End Memo.

(** ** Concrete runs *)

Definition demo_world : world aws := initial_world (mkFs ∅ ∅) demo_aws.

(** The decoded identity document of [demo_aws]. *)
Definition demo_identity : json :=
  JDict [("UserId", JStr "AIDAEXAMPLE"); ("Account", JStr "123456789012");
         ("Arn", JStr "arn:aws:iam::123456789012:user/admin")].

Lemma get_aws_account_id_cached_example :
  get_aws_account_id (set_account demo_world (Some (JStr "42"))) =
    (Ok (JStr "42"), set_account demo_world (Some (JStr "42"))).
Proof. apply get_aws_account_id_cached. reflexivity. Defined.

Lemma get_aws_account_id_fetch_example :
  get_aws_account_id demo_world =
    (Ok (JStr "123456789012"),
     set_account (after_start demo_world identity_cmd demo_aws) (Some (JStr "123456789012"))).
Proof.
  apply (get_aws_account_id_fetch _ _ (identity_doc "123456789012") demo_identity);
    vm_compute; reflexivity.
Defined.

Lemma get_aws_account_id_check_fails_example :
  get_aws_account_id (initial_world (mkFs ∅ ∅) tt) =
    (Raise (CalledProcessError 255 identity_cmd),
     after_start (initial_world (mkFs ∅ ∅) tt) identity_cmd tt).
Proof.
  apply (get_aws_account_id_check_fails _ _ (mkProc 255 EmptyString));
    [reflexivity | reflexivity | discriminate].
Defined.

Lemma account_memoized_witness :
  exists w', resolve_n 3 demo_world = (Ok tt, w') /\
    runs_of identity_cmd w' = 1 /\ AWS_ACCOUNT_ID w' = Some (JStr "123456789012").
Proof.
  apply (account_memoized 2 demo_world demo_identity); vm_compute; reflexivity.
Defined.

(** An account whose identity reports an empty id. *)
Definition blank_world : world aws :=
  initial_world (mkFs ∅ ∅) (mkAws EmptyString ∅ ∅ ∅ ∅ ∅ []).

Lemma account_falsy_refetch_witness :
  exists w', resolve_n 3 blank_world = (Ok tt, w') /\ runs_of identity_cmd w' = 0 + 3.
Proof.
  apply (account_falsy_refetch 3 blank_world
           (JDict [("UserId", JStr "AIDAEXAMPLE"); ("Account", JStr EmptyString);
                   ("Arn", JStr "arn:aws:iam:::user/admin")]) (JStr EmptyString));
    vm_compute; reflexivity.
Defined.
