(* ===== verification/Provision.v ===== *)
(** * The provisioning operations (lines 60-158, 211-214)

    The names [main] derives from the account name, and the four
    operations: [create_aws_role] (render the trust policy into the shared
    [ROLE_TEMPLATE], write it, run [aws iam create-role]),
    [XXXcreate_aws_policy] (render the assume-role policy and write it),
    [create_aws_group] (create the group, render and attach the policy,
    add each user) and [create_identity_mapping] (run [eksctl create
    iamidentitymapping]).  Each follows Python's evaluation order: list
    displays and f-strings left to right, the right-hand side of an
    assignment before its target, the iterable of a comprehension before
    its body.  The documents written are read back
    with the decoder of [JsonParse] ([dump_to_readback]). *)

From Stdlib Require Import ZArith String Ascii.
From stdpp Require Import base strings list gmap.
From S2P Require Import Prelude Json JsonParse JsonRoundtrip Pathlib Runtime Mock Account.

Open Scope string_scope.
Local Open Scope py_scope.

(** ** Derived names (lines 211-214) *)

Definition role_name (accountname : string) : string := "eks-" ++ accountname ++ "-role".
Definition policy_name (accountname : string) : string :=
  "eks-" ++ accountname ++ "-assume-role-policy".
Definition group_name (accountname : string) : string := "eks-" ++ accountname ++ "-group".
Definition eks_username (accountname : string) : string := "eks-" ++ accountname.

(** [f"arn:aws:iam::{account}:{kind}/{name}"] *)
Definition iam_arn (account kind name : string) : string :=
  "arn:aws:iam::" ++ account ++ ":" ++ kind ++ "/" ++ name.

Definition ROLE_FILE : string := "role_policy.json".
Definition POLICY_FILE : string := "assume_role_policy.json".

(** [file://{str(p)}] *)
Definition file_url (p : path) : string := "file://" ++ path_str p.

(** The command lines of lines 70-78, 108, 116-126, 132-140. *)
Definition create_role_cmd (rolename : string) (rolef : path) : list string :=
  ["aws"; "iam"; "create-role"; "--role-name"; rolename;
   "--assume-role-policy-document"; file_url rolef].
Definition create_group_cmd (groupname : string) : list string :=
  ["aws"; "iam"; "create-group"; "--group-name"; groupname].
Definition put_group_policy_cmd (groupname policyname : string) (policyf : path) : list string :=
  ["aws"; "iam"; "put-group-policy"; "--group-name"; groupname;
   "--policy-name"; policyname; "--policy-document"; file_url policyf].
Definition add_user_cmd (groupname username : string) : list string :=
  ["aws"; "iam"; "add-user-to-group"; "--group-name"; groupname; "--user-name"; username].

(** The command line of lines 147-157. *)
Definition mapping_cmd (cluster arn user : string) : list string :=
  ["eksctl"; "create"; "iamidentitymapping"; "--cluster"; cluster;
   "--arn"; arn; "--username"; user].

(** [ROLE_TEMPLATE["Statement"][0]["Principal"]["AWS"] = userarns]
    (line 66), on the object the global names. *)
Definition set_principals (arns : list string) (t : json) : result json :=
  update_at [KStr "Statement"; KInt 0; KStr "Principal"] (KStr "AWS") (JList (map JStr arns)) t.

(** [POLICY_TEMPLATE["Statement"][0]["Resource"] = resource] (lines 84-86
    and 110-112, once the f-string is evaluated). *)
Definition set_resource (resource : string) (t : json) : result json :=
  update_at [KStr "Statement"; KInt 0] (KStr "Resource") (JStr resource) t.

Section Operations.
Context {X : Type} `{ExternalTools X}.

(** Reading an attribute of [ARGS] before [main] has set it raises. *)
Definition get_args : PyM X args :=
  w <- get ;;
  match ARGS w with
  | Some a => ret a
  | None => raise (AttributeError "'NoneType' object has no attribute")
  end.

(** [{get_aws_account_id()}] inside an f-string. *)
Definition account_str : PyM X string :=
  acc <- get_aws_account_id ;; lift (py_str acc).

(** [json.dump(T, p.open("w"))]: open (truncating), then write. *)
Definition dump_to (p : path) (t : json) : PyM X unit :=
  on_fs (fs_open_w p) ;; on_fs (fs_write p (dumps t)).

(** [[f"arn:aws:iam::{get_aws_account_id()}:user/{u}" for u in us]] *)
Definition user_arns (us : list string) : PyM X (list string) :=
  map_ (fun u => acc <- account_str ;; ret (iam_arn acc "user" u)) us.

(** [create_aws_role(rolename)] (lines 60-79). *)
Definition create_aws_role (rolename : string) : PyM X unit :=
  a <- get_args ;;
  arns <- user_arns (usernames a) ;;
  t <- gets w_role_template ;;
  t' <- lift (set_principals arns t) ;;
  modify (fun w => set_role_template w t') ;;
  a2 <- get_args ;;
  let rolef := path_div (workingdir a2) ROLE_FILE in
  dump_to rolef t' ;;
  run_command ["aws"; "iam"; "create-role"; "--role-name"; rolename;
               "--assume-role-policy-document"; file_url rolef] false false ;;
  ret tt.

(** [POLICY_TEMPLATE["Statement"][0]["Resource"] = f"arn:...:role/{rolename}"]
    followed by writing the template to [workingdir / name]: the part
    shared by lines 84-88 and 110-114.  Returns the file written. *)
Definition render_policy (rolename : string) : PyM X path :=
  acc <- account_str ;;
  t <- gets w_policy_template ;;
  t' <- lift (set_resource (iam_arn acc "role" rolename) t) ;;
  modify (fun w => set_policy_template w t') ;;
  a <- get_args ;;
  let policyf := path_div (workingdir a) POLICY_FILE in
  dump_to policyf t' ;;
  ret policyf.

(** [XXXcreate_aws_policy(policyname, rolename)] (lines 82-100): the
    policy is rendered and written, its path printed; the creation
    command is commented out. *)
Definition XXXcreate_aws_policy (policyname rolename : string) : PyM X unit :=
  policyf <- render_policy rolename ;;
  print (path_str policyf).

(** [create_aws_group(groupname, rolename, policyname)] (lines 103-141). *)
Definition create_aws_group (groupname rolename policyname : string) : PyM X unit :=
  run_command ["aws"; "iam"; "create-group"; "--group-name"; groupname] false false ;;
  policyf <- render_policy rolename ;;
  run_command ["aws"; "iam"; "put-group-policy"; "--group-name"; groupname;
               "--policy-name"; policyname; "--policy-document"; file_url policyf]
              false false ;;
  a <- get_args ;;
  for_ (usernames a) (fun u =>
    run_command ["aws"; "iam"; "add-user-to-group"; "--group-name"; groupname;
                 "--user-name"; u] false false ;; ret tt).

(** [create_identity_mapping(rolename, eksusername)] (lines 144-158). *)
Definition create_identity_mapping (rolename eksusername : string) : PyM X unit :=
  a <- get_args ;;
  acc <- account_str ;;
  run_command (mapping_cmd (clustername a) (iam_arn acc "role" rolename) eksusername)
              false false ;;
  ret tt.
End Operations.

(** ** The documents, built afresh

    What the script means to write: the trust policy naming the given
    principals, and the assume-role policy on the given resource.  The
    code builds them by mutating the shared templates; the theorems below
    show that it writes exactly these. *)

Definition role_doc (arns : list string) : json :=
  JDict [("Version", JStr "2012-10-17");
         ("Statement",
          JList [JDict [("Effect", JStr "Allow");
                        ("Action", JStr "sts:AssumeRole");
                        ("Principal", JDict [("AWS", JList (map JStr arns))]);
                        ("Condition", JDict [])]])].

Definition policy_doc (resource : json) : json :=
  JDict [("Version", JStr "2012-10-17");
         ("Statement",
          JList [JDict [("Sid", JStr "AllowAssumeOrganizationAccountRole");
                        ("Effect", JStr "Allow");
                        ("Action", JStr "sts:AssumeRole");
                        ("Resource", resource)]])].

Lemma ROLE_TEMPLATE_doc : ROLE_TEMPLATE = role_doc [].
Proof. reflexivity. Qed.

Lemma POLICY_TEMPLATE_doc : POLICY_TEMPLATE = policy_doc JNull.
Proof. reflexivity. Qed.

Lemma update_role_doc l arns : set_principals arns (role_doc l) = Ok (role_doc arns).
Proof. reflexivity. Qed.

Lemma update_policy_doc r r' : set_resource r' (policy_doc r) = Ok (policy_doc (JStr r')).
Proof. reflexivity. Qed.

Lemma ROLE_FILE_child d : path_div d ROLE_FILE = child d ROLE_FILE.
Proof. by apply path_div_child. Qed.

Lemma POLICY_FILE_child d : path_div d POLICY_FILE = child d POLICY_FILE.
Proof. by apply path_div_child. Qed.

(** ** Steps of the operations *)

Section Steps.
Context {X : Type} `{ExternalTools X}.

Lemma get_args_ok (w : world X) a : ARGS w = Some a -> get_args w = (Ok a, w).
Proof. unfold get_args, bind, get. by intros ->. Qed.

Lemma get_args_none (w : world X) :
  ARGS w = None -> get_args w = (Raise (AttributeError "'NoneType' object has no attribute"), w).
Proof. unfold get_args, bind, get. by intros ->. Qed.

(** The account id as text, fetched on a cache miss. *)
Lemma account_str_fetch (w : world X) x1 out d acc :
  cached_account w = None ->
  exec identity_cmd (w_fs w) (w_ext w) = (Some (mkProc 0 out), x1) ->
  loads out = Ok d -> getitem d (KStr "Account") = Ok (JStr acc) ->
  account_str w = (Ok acc, set_account (after_start w identity_cmd x1) (Some (JStr acc))).
Proof.
  intros Hc Hx Hd Hv. unfold account_str.
  erewrite bind_ok by (eapply get_aws_account_id_fetch; eauto). reflexivity.
Qed.

Lemma account_str_cached (w : world X) acc :
  cached_account w = Some (JStr acc) -> account_str w = (Ok acc, w).
Proof.
  intros Hc. unfold account_str. erewrite bind_ok by (apply get_aws_account_id_cached; exact Hc).
  reflexivity.
Qed.

Lemma account_str_check_fails (w : world X) x1 p :
  cached_account w = None ->
  exec identity_cmd (w_fs w) (w_ext w) = (Some p, x1) -> p_returncode p <> 0%Z ->
  account_str w =
    (Raise (CalledProcessError (p_returncode p) identity_cmd), after_start w identity_cmd x1).
Proof.
  intros Hc Hx Hrc. unfold account_str.
  erewrite bind_err by (eapply get_aws_account_id_check_fails; eauto). reflexivity.
Qed.

(** [create_identity_mapping] on a cache miss: the identity check, then
    [eksctl] with the role ARN, whatever [eksctl] returns. *)
Lemma create_identity_mapping_fetch r u (w : world X) a x1 out d acc p x2 :
  ARGS w = Some a -> cached_account w = None ->
  exec identity_cmd (w_fs w) (w_ext w) = (Some (mkProc 0 out), x1) ->
  loads out = Ok d -> getitem d (KStr "Account") = Ok (JStr acc) ->
  exec (mapping_cmd (clustername a) (iam_arn acc "role" r) u) (w_fs w) x1 = (Some p, x2) ->
  create_identity_mapping r u w =
    (Ok tt, add_stdout (after_start (set_account (after_start w identity_cmd x1) (Some (JStr acc)))
                          (mapping_cmd (clustername a) (iam_arn acc "role" r) u) x2)
              (p_stdout p)).
Proof.
  intros Ha Hc Hx Hd Hv Hm. unfold create_identity_mapping.
  erewrite bind_ok by (apply get_args_ok; exact Ha).
  erewrite bind_ok by (eapply account_str_fetch; eauto).
  erewrite bind_ok by (apply run_command_ok; [exact Hm | discriminate]).
  reflexivity.
Qed.

Lemma create_identity_mapping_check_fails r u (w : world X) a x1 p :
  ARGS w = Some a -> cached_account w = None ->
  exec identity_cmd (w_fs w) (w_ext w) = (Some p, x1) -> p_returncode p <> 0%Z ->
  create_identity_mapping r u w =
    (Raise (CalledProcessError (p_returncode p) identity_cmd), after_start w identity_cmd x1).
Proof.
  intros Ha Hc Hx Hrc. unfold create_identity_mapping.
  erewrite bind_ok by (apply get_args_ok; exact Ha).
  erewrite bind_err by (eapply account_str_check_fails; eauto). reflexivity.
Qed.

(** Without a cached account id, [account_str] starts exactly the
    identity check, whatever it returns. *)
Lemma account_str_log (w : world X) :
  cached_account w = None -> w_log (snd (account_str w)) = (w_log w ++ [identity_cmd])%list.
Proof.
  intros Hc. unfold account_str, get_aws_account_id. unfold bind at 1 2, get. rewrite Hc.
  pose proof (run_command_log identity_cmd true true w) as Hl.
  unfold bind at 1. destruct (run_command identity_cmd true true w) as [[c|e] w1]; simpl in Hl; [|done].
  unfold bind, lift, modify, ret. simpl.
  destruct (decode_account _) as [v|e]; simpl; [|done]. by destruct (py_str v).
Qed.

(** [create_identity_mapping] starts the identity check and, when it
    yields an account id, the mapping command for it. *)
Lemma create_identity_mapping_log r u (w : world X) a :
  ARGS w = Some a -> cached_account w = None ->
  let w' := snd (create_identity_mapping r u w) in
  w_log w' = (w_log w ++ [identity_cmd])%list \/
  exists acc, w_log w' = (w_log w ++ [identity_cmd; mapping_cmd (clustername a) (iam_arn acc "role" r) u])%list.
Proof.
  intros Ha Hc w'. subst w'. unfold create_identity_mapping.
  rewrite (bind_ok _ _ _ _ _ (get_args_ok _ _ Ha)).
  pose proof (account_str_log w Hc) as Hl. unfold bind.
  destruct (account_str w) as [[acc|e] w1]; simpl in Hl; [|by left].
  right. exists acc.
  pose proof (run_command_log (mapping_cmd (clustername a) (iam_arn acc "role" r) u) false false w1) as Hm.
  destruct (run_command _ _ _ w1) as [[] w2]; simpl in *; rewrite Hm, Hl; by rewrite <- app_assoc.
Qed.
End Steps.

Section RoleProps.
Context {X : Type} `{ExternalTools X}.

(** With the account id cached, the comprehension starts no command. *)
Lemma user_arns_cached us (w : world X) acc :
  cached_account w = Some (JStr acc) ->
  user_arns us w = (Ok (map (fun u => iam_arn acc "user" u) us), w).
Proof.
  intros Hc. unfold user_arns. induction us as [|u us IH]; [reflexivity|]. simpl.
  erewrite bind_ok by (erewrite bind_ok by (apply account_str_cached; exact Hc); reflexivity).
  unfold bind at 1. rewrite IH. reflexivity.
Qed.

(** The file system after [json.dump(doc, (d / x).open("w"))]. *)
Definition with_file (f : fs) (p : path) (text : string) : fs :=
  mkFs (fs_dirs f) (<[p := text]> (fs_files f)).

Lemma dump_to_child d x t (w : world X) :
  wf_fs (w_fs w) -> is_dir (w_fs w) d = true -> is_dir (w_fs w) (child d x) = false ->
  dump_to (child d x) t w = (Ok tt, set_fs w (with_file (w_fs w) (child d x) (dumps t))).
Proof.
  intros Hwf Hd Hc. unfold dump_to, bind, on_fs, fs_open_w.
  rewrite (open_w_child _ _ _ Hwf Hd Hc). simpl. unfold fs_write, write_text, with_file. simpl.
  rewrite lookup_insert_eq, insert_insert_eq. reflexivity.
Qed.

Lemma with_file_wf (f : fs) d x text :
  wf_fs f -> is_dir f d = true -> is_dir f (child d x) = false -> wf_fs (with_file f (child d x) text).
Proof.
  intros Hwf Hd Hc. assert (Hf' := open_w_wf _ _ _ Hwf (open_w_child f d x Hwf Hd Hc)).
  assert (Hw := write_text_wf (child d x) text _ Hf').
  unfold write_text, with_file in Hw. simpl in Hw. rewrite lookup_insert_eq, insert_insert_eq in Hw.
  apply Hw. unfold is_file. simpl. rewrite lookup_insert_eq. by apply bool_decide_eq_true.
Qed.
End RoleProps.

(** ** What the script writes reads back

    [json.dump(doc, f)] writes [json.dumps(doc)]: the file [aws] later
    reads is the document itself. *)

Section Documents.
Context {X : Type} `{ExternalTools X}.

(** After [json.dump(t, p.open("w"))] returns, [p] holds [dumps t]. *)
Lemma dump_to_file p t (w w' : world X) :
  dump_to p t w = (Ok tt, w') -> fs_files (w_fs w') !! p = Some (dumps t).
Proof.
  unfold dump_to, bind, on_fs, fs_open_w, fs_write.
  destruct (open_w p (w_fs w)) as [f1|e] eqn:Ho; simpl; [|discriminate].
  intros [= <-]. simpl. unfold write_text. simpl.
  by rewrite lookup_insert_eq, (open_w_lookup _ _ _ Ho).
Qed.

(** (C15) Whenever [json.dump(doc, p.open("w"))] returns normally on a
    document without floats or repeated keys, the file [p] holds text
    that [json.loads] parses back to exactly that document, and the text
    is printable ASCII ([ensure_ascii]), whatever the file held before. *)
Theorem dump_to_readback p t (w w' : world X) :
  json_wfb t = true -> dump_to p t w = (Ok tt, w') ->
  exists s, fs_files (w_fs w') !! p = Some s /\ loads s = Ok t /\ all_printable s = true.
Proof.
  intros Hw Hd. exists (dumps t). split; [by eapply dump_to_file|].
  split; [by apply loads_dumps | by apply dumps_printable].
Qed.

End Documents.

Section RoleTheorems.
Context {X : Type} `{ExternalTools X}.

(** (C12) [create_aws_role] refines building the trust policy afresh: with
    the account id resolved, it renders the principals
    [arn:aws:iam::<account>:user/<u>] of the configured users, in order,
    into the shared template, whatever earlier calls left in it, writes
    exactly [role_doc] of them to [<workingdir>/role_policy.json], then
    starts [aws iam create-role] naming that file, and returns normally
    whatever that command returns. *)
Theorem create_aws_role_writes_trust_policy rolename (w : world X) a acc l0 p x' :
  ARGS w = Some a -> cached_account w = Some (JStr acc) ->
  w_role_template w = role_doc l0 ->
  wf_fs (w_fs w) -> is_dir (w_fs w) (workingdir a) = true ->
  is_dir (w_fs w) (child (workingdir a) ROLE_FILE) = false ->
  let arns := map (fun u => iam_arn acc "user" u) (usernames a) in
  let rolef := child (workingdir a) ROLE_FILE in
  exec (create_role_cmd rolename rolef) (with_file (w_fs w) rolef (dumps (role_doc arns)))
    (w_ext w) = (Some p, x') ->
  exists w', create_aws_role rolename w = (Ok tt, w') /\
    w_role_template w' = role_doc arns /\
    fs_files (w_fs w') !! rolef = Some (dumps (role_doc arns)) /\
    w_log w' = (w_log w ++ [create_role_cmd rolename rolef])%list /\
    w_ext w' = x' /\ wf_fs (w_fs w').
Proof.
  intros Ha Hc Ht Hwf Hd Hrf arns rolef Hx. unfold create_aws_role.
  erewrite bind_ok by (apply get_args_ok; exact Ha).
  erewrite bind_ok by (apply user_arns_cached; exact Hc).
  unfold bind at 1, gets. rewrite Ht.
  unfold bind at 1, lift. rewrite update_role_doc.
  unfold bind at 1, modify.
  erewrite bind_ok by (apply get_args_ok; exact Ha). cbv zeta. rewrite ROLE_FILE_child.
  erewrite bind_ok by (apply dump_to_child; simpl; eauto).
  erewrite bind_ok by (apply run_command_ok; [exact Hx | discriminate]).
  eexists. split; [reflexivity|]. simpl.
  split_and!; [done | by rewrite lookup_insert_eq | done | done |].
  by apply with_file_wf.
Qed.
End RoleTheorems.

(** ** The group operation *)

(** The [aws] program is installed: every [aws ...] command line runs to
    an exit status (which may be a failure). *)
Class AwsInstalled (X : Type) `{ExternalTools X} :=
  aws_installed : forall cmd f x, head cmd = Some "aws" -> is_Some (exec cmd f x).1.

#[export] Instance aws_mock_installed : AwsInstalled aws.
Proof.
  intros [|c cmd] f x Hc; [done|]. simpl in Hc. injection Hc as ->.
  change (is_Some (aws_exec ("aws" :: cmd) f x).1). unfold aws_exec.
  destruct (aws_cli cmd f x). by eexists.
Qed.

(** What running a command leaves unchanged: everything but the output,
    the log and the services. *)
Definition same_script_state {X} (w w' : world X) : Prop :=
  w_fs w' = w_fs w /\ AWS_ACCOUNT_ID w' = AWS_ACCOUNT_ID w /\ ARGS w' = ARGS w /\
  w_role_template w' = w_role_template w /\ w_policy_template w' = w_policy_template w.

Section GroupSteps.
Context {X : Type} `{AwsInstalled X}.

Lemma run_aws_unchecked cmd (w : world X) :
  head cmd = Some "aws" ->
  exists c w', run_command cmd false false w = (Ok c, w') /\
    w_log w' = (w_log w ++ [cmd])%list /\ same_script_state w w'.
Proof.
  intros Hc. destruct (exec cmd (w_fs w) (w_ext w)) as [r x'] eqn:Ex.
  destruct (aws_installed cmd (w_fs w) (w_ext w) Hc) as [p Hp]. rewrite Ex in Hp. simpl in Hp. subst r.
  rewrite (run_command_ok _ _ _ _ _ _ Ex) by discriminate. do 2 eexists. split; [reflexivity|].
  split; [reflexivity|]. repeat split.
Qed.

Lemma add_users_run g us (w : world X) :
  exists w', for_ us (fun u => bind (run_command (add_user_cmd g u) false false) (fun _ => ret tt)) w
               = (Ok tt, w') /\
    w_log w' = (w_log w ++ map (add_user_cmd g) us)%list /\ same_script_state w w'.
Proof.
  revert w. induction us as [|u us IH]; intros w.
  - exists w. rewrite app_nil_r. repeat split.
  - destruct (run_aws_unchecked (add_user_cmd g u) w eq_refl) as (c & w1 & Hr & Hl1 & Hs1).
    destruct (IH w1) as (w2 & Hr2 & Hl2 & Hs2). exists w2. simpl.
    rewrite bind_assoc. erewrite bind_ok by exact Hr. split; [exact Hr2|].
    split; [by rewrite Hl2, Hl1, <- app_assoc|].
    destruct Hs1 as (? & ? & ? & ? & ?), Hs2 as (? & ? & ? & ? & ?). repeat split; congruence.
Qed.
End GroupSteps.

Section PolicyTheorems.
Context {X : Type} `{ExternalTools X}.

Lemma render_policy_cached rolename (w : world X) a acc r0 :
  ARGS w = Some a -> cached_account w = Some (JStr acc) -> w_policy_template w = policy_doc r0 ->
  wf_fs (w_fs w) -> is_dir (w_fs w) (workingdir a) = true ->
  is_dir (w_fs w) (child (workingdir a) POLICY_FILE) = false ->
  let doc := policy_doc (JStr (iam_arn acc "role" rolename)) in
  render_policy rolename w =
    (Ok (child (workingdir a) POLICY_FILE),
     set_fs (set_policy_template w doc) (with_file (w_fs w) (child (workingdir a) POLICY_FILE) (dumps doc))).
Proof.
  intros Ha Hc Ht Hwf Hd Hpf doc. unfold render_policy.
  erewrite bind_ok by (apply account_str_cached; exact Hc).
  unfold bind at 1, gets. rewrite Ht. unfold bind at 1, lift. rewrite update_policy_doc.
  unfold bind at 1, modify.
  erewrite bind_ok by (apply get_args_ok; exact Ha). cbv zeta. rewrite POLICY_FILE_child.
  erewrite bind_ok by (apply dump_to_child; simpl; eauto). reflexivity.
Qed.

(** (C14) [XXXcreate_aws_policy] renders the resource
    [arn:aws:iam::<account>:role/<rolename>] into the shared policy
    template, writes exactly [policy_doc] of it to
    [<workingdir>/assume_role_policy.json] and prints that path; its
    [create-policy] call being commented out, it starts no command. *)
Theorem XXXcreate_aws_policy_writes_policy policyname rolename (w : world X) a acc r0 :
  ARGS w = Some a -> cached_account w = Some (JStr acc) -> w_policy_template w = policy_doc r0 ->
  wf_fs (w_fs w) -> is_dir (w_fs w) (workingdir a) = true ->
  is_dir (w_fs w) (child (workingdir a) POLICY_FILE) = false ->
  let doc := policy_doc (JStr (iam_arn acc "role" rolename)) in
  let policyf := child (workingdir a) POLICY_FILE in
  exists w', XXXcreate_aws_policy policyname rolename w = (Ok tt, w') /\
    w_policy_template w' = doc /\ fs_files (w_fs w') !! policyf = Some (dumps doc) /\
    w_log w' = w_log w /\ w_ext w' = w_ext w /\
    w_stdout w' = (w_stdout w ++ [path_str policyf])%list /\ wf_fs (w_fs w').
Proof.
  intros Ha Hc Ht Hwf Hd Hpf doc policyf. unfold XXXcreate_aws_policy.
  erewrite bind_ok by (eapply render_policy_cached; eauto).
  eexists. split; [reflexivity|]. simpl.
  split_and!; [done | by rewrite lookup_insert_eq | done..|]. by apply with_file_wf.
Qed.
End PolicyTheorems.

Lemma cached_account_same {X} (w w' : world X) :
  same_script_state w w' -> cached_account w' = cached_account w.
Proof. intros (_ & Hacc & _). unfold cached_account. by rewrite Hacc. Qed.

Section GroupTheorems.
Context {X : Type} `{AwsInstalled X}.

(** (C13) [create_aws_group] starts [create-group], renders and writes the
    policy, starts [put-group-policy] naming the file, then
    [add-user-to-group] for each configured user in order: all of them,
    whatever each returns, since no result is checked and nothing is
    undone. *)
Theorem create_aws_group_runs_all groupname rolename policyname (w : world X) a acc r0 :
  ARGS w = Some a -> cached_account w = Some (JStr acc) -> w_policy_template w = policy_doc r0 ->
  wf_fs (w_fs w) -> is_dir (w_fs w) (workingdir a) = true ->
  is_dir (w_fs w) (child (workingdir a) POLICY_FILE) = false ->
  let doc := policy_doc (JStr (iam_arn acc "role" rolename)) in
  let policyf := child (workingdir a) POLICY_FILE in
  exists w', create_aws_group groupname rolename policyname w = (Ok tt, w') /\
    w_log w' = (w_log w ++ create_group_cmd groupname ::
                put_group_policy_cmd groupname policyname policyf ::
                map (add_user_cmd groupname) (usernames a))%list /\
    w_policy_template w' = doc /\ fs_files (w_fs w') !! policyf = Some (dumps doc).
Proof.
  intros Ha Hc Ht Hwf Hd Hpf doc policyf. unfold create_aws_group.
  destruct (run_aws_unchecked (create_group_cmd groupname) w eq_refl)
    as (c1 & w1 & Hr1 & Hl1 & Hs1).
  pose proof (cached_account_same _ _ Hs1) as Hc1.
  destruct Hs1 as (Hf1 & _ & Ha1 & _ & Ht1).
  erewrite bind_ok by exact Hr1.
  erewrite bind_ok by (eapply render_policy_cached; rewrite ?Hf1, ?Ha1, ?Hc1, ?Ht1; eauto).
  set (w2 := set_fs _ _).
  destruct (run_aws_unchecked (put_group_policy_cmd groupname policyname policyf) w2 eq_refl)
    as (c3 & w3 & Hr3 & Hl3 & (Hf3 & _ & Ha3 & _ & Ht3)).
  erewrite bind_ok by exact Hr3.
  erewrite bind_ok by (apply get_args_ok; rewrite Ha3; simpl; by rewrite Ha1).
  destruct (add_users_run groupname (usernames a) w3) as (w4 & Hr4 & Hl4 & (Hf4 & _ & _ & _ & Ht4)).
  exists w4. split; [exact Hr4|]. split_and!.
  - rewrite Hl4, Hl3. simpl. rewrite Hl1. by rewrite <- !app_assoc.
  - by rewrite Ht4, Ht3.
  - rewrite Hf4, Hf3. simpl. by rewrite lookup_insert_eq.
Qed.
End GroupTheorems.

(** ** The derived names *)

(** The names share the prefix [eks-] and differ in their suffix. *)
Lemma eks_name_inj a b s : "eks-" ++ a ++ s = "eks-" ++ b ++ s -> a = b.
Proof. intros H. apply (inj (String.append "eks-")) in H. by apply str_app_inj_r in H. Qed.

(** (C20) The four names [main] derives from the account name (lines
    211-214) are pairwise distinct for every account name, and each of
    them determines the account name. *)
Theorem derived_names_distinct a b :
  NoDup [role_name a; policy_name a; group_name a; eks_username a] /\
  (role_name a = role_name b -> a = b) /\ (policy_name a = policy_name b -> a = b) /\
  (group_name a = group_name b -> a = b) /\ (eks_username a = eks_username b -> a = b).
Proof.
  split_and!.
  - assert (Hl : forall x y, x = y -> String.length x = String.length y) by (by intros ? ? ->).
    unfold role_name, policy_name, group_name, eks_username.
    repeat constructor; rewrite ?elem_of_cons, ?elem_of_nil;
      intros ?; repeat match goal with H : _ \/ _ |- _ => destruct H end;
      try done; match goal with H : _ = _ |- _ => apply Hl in H end;
      rewrite ?str_length_app in *; simpl in *; lia.
  - apply eks_name_inj.
  - apply eks_name_inj.
  - apply eks_name_inj.
  - unfold eks_username. apply (inj (String.append "eks-")).
Qed.

(** ** Concrete runs *)

Definition demo_args : args := mkArgs "team1" "prod" None ["alice"; "bob"] tmp_dir.

(** The state [main] reaches before its operation: arguments parsed, the
    account id resolved, the templates untouched. *)
Definition provision_world : world aws :=
  mkWorld tmp_fs [] [] [] demo_aws (Some (JStr "123456789012")) (Some demo_args)
    ROLE_TEMPLATE POLICY_TEMPLATE.

Definition demo_user_arns : list string :=
  ["arn:aws:iam::123456789012:user/alice"; "arn:aws:iam::123456789012:user/bob"].

Lemma create_aws_role_writes_trust_policy_witness :
  exists w', create_aws_role "eks-team1-role" provision_world = (Ok tt, w') /\
    w_role_template w' = role_doc demo_user_arns /\
    fs_files (w_fs w') !! child tmp_dir ROLE_FILE = Some (dumps (role_doc demo_user_arns)) /\
    w_log w' = ([] ++ [create_role_cmd "eks-team1-role" (child tmp_dir ROLE_FILE)])%list /\
    w_ext w' = (exec (create_role_cmd "eks-team1-role" (child tmp_dir ROLE_FILE))
                  (with_file tmp_fs (child tmp_dir ROLE_FILE) (dumps (role_doc demo_user_arns)))
                  demo_aws).2 /\
    wf_fs (w_fs w').
Proof.
  apply (create_aws_role_writes_trust_policy "eks-team1-role" provision_world demo_args
           "123456789012" [] (mkProc 0 EmptyString));
    first [apply wf_fsb_sound | idtac]; vm_compute; reflexivity.
Defined.

Lemma XXXcreate_aws_policy_writes_policy_witness :
  exists w', XXXcreate_aws_policy "eks-team1-assume-role-policy" "eks-team1-role" provision_world
               = (Ok tt, w') /\
    w_policy_template w' = policy_doc (JStr "arn:aws:iam::123456789012:role/eks-team1-role") /\
    fs_files (w_fs w') !! child tmp_dir POLICY_FILE =
      Some (dumps (policy_doc (JStr "arn:aws:iam::123456789012:role/eks-team1-role"))) /\
    w_log w' = [] /\ w_ext w' = demo_aws /\
    w_stdout w' = ([] ++ [path_str (child tmp_dir POLICY_FILE)])%list /\ wf_fs (w_fs w').
Proof.
  apply (XXXcreate_aws_policy_writes_policy "eks-team1-assume-role-policy" "eks-team1-role"
           provision_world demo_args "123456789012" JNull);
    first [apply wf_fsb_sound | idtac]; vm_compute; reflexivity.
Defined.

Lemma create_aws_group_runs_all_witness :
  exists w', create_aws_group "eks-team1-group" "eks-team1-role" "eks-team1-assume-role-policy"
               provision_world = (Ok tt, w') /\
    w_log w' = ([] ++ create_group_cmd "eks-team1-group" ::
                put_group_policy_cmd "eks-team1-group" "eks-team1-assume-role-policy"
                  (child tmp_dir POLICY_FILE) ::
                map (add_user_cmd "eks-team1-group") ["alice"; "bob"])%list /\
    w_policy_template w' = policy_doc (JStr "arn:aws:iam::123456789012:role/eks-team1-role") /\
    fs_files (w_fs w') !! child tmp_dir POLICY_FILE =
      Some (dumps (policy_doc (JStr "arn:aws:iam::123456789012:role/eks-team1-role"))).
Proof.
  apply (create_aws_group_runs_all "eks-team1-group" "eks-team1-role" "eks-team1-assume-role-policy"
           provision_world demo_args "123456789012" JNull);
    first [apply wf_fsb_sound | idtac]; vm_compute; reflexivity.
Defined.

Lemma derived_names_distinct_witness :
  NoDup [role_name "team1"; policy_name "team1"; group_name "team1"; eks_username "team1"] /\
  (role_name "team1" = role_name "team2" -> "team1" = "team2") /\
  (policy_name "team1" = policy_name "team2" -> "team1" = "team2") /\
  (group_name "team1" = group_name "team2" -> "team1" = "team2") /\
  (eks_username "team1" = eks_username "team2" -> "team1" = "team2").
Proof. exact (derived_names_distinct "team1" "team2"). Defined.

Lemma dump_to_readback_witness :
  json_wfb (role_doc demo_user_arns) = true /\
  exists w', dump_to (child tmp_dir ROLE_FILE) (role_doc demo_user_arns) provision_world = (Ok tt, w') /\
    exists s, fs_files (w_fs w') !! child tmp_dir ROLE_FILE = Some s /\
    loads s = Ok (role_doc demo_user_arns) /\ all_printable s = true.
Proof.
  split; [vm_compute; reflexivity|].
  eexists. split; [vm_compute; reflexivity|].
  apply (dump_to_readback (child tmp_dir ROLE_FILE) (role_doc demo_user_arns) provision_world);
    vm_compute; reflexivity.
Defined.

