(* ===== verification/Args.v ===== *)
(** * The configuration loader: [getargs] (lines 161-204)

    [getargs] builds an [argparse] parser with one positional argument and
    four options, parses [sys.argv], turns the working directory into a
    path and creates it, then refuses a username holding [:] or [/].  The
    parser built by lines 162-193 is the table [option_table]; the parsing
    is a model of [ArgumentParser.parse_args] (as in CPython 3.11) for
    that table: every argument is classified first (option, value,
    unknown option, ambiguous abbreviation), then the classified arguments
    are consumed left to right, then the required arguments are checked,
    then leftover arguments are refused.  The help and usage texts are not
    reproduced character by character: they are the constants [HELP_TEXT]
    and the prefix [usage_error].  An option value attached as exactly
    [--] is outside the model ([attached_dashdash]): 3.11 stores the
    empty list there.  Lines 196-197 are [make_workdir]; its theorems
    lift those of [Pathlib] to the call the script makes. *)

From Stdlib Require Import ZArith String Ascii.
From stdpp Require Import base strings list gmap.
From S2P Require Import Prelude Json Pathlib Runtime Mock.

Open Scope string_scope.
Local Open Scope py_scope.

(** ** The parser of lines 162-193 *)

(** The destinations of the options: [-h/--help] is added by
    [ArgumentParser] itself. *)
Inductive dest : Type := DHelp | DCluster | DRegion | DUsers | DWorkdir.

#[export] Instance dest_eq_dec : EqDecision dest.
Proof. solve_decision. Defined.

(** The option strings in the order [add_argument] registers them. *)
Definition option_table : list (string * dest) :=
  [("-h", DHelp); ("--help", DHelp);
   ("--clustername", DCluster); ("-c", DCluster);
   ("--region", DRegion); ("-r", DRegion);
   ("--usernames", DUsers); ("-u", DUsers);
   ("--workingdir", DWorkdir)].

(** [_get_action_name]: the option strings joined by a slash. *)
Definition action_name (d : dest) : string :=
  str_join "/" (map fst (List.filter (fun p => bool_decide (p.2 = d)) option_table)).

Definition DEFAULT_WORKING_DIR : string := "./tmp/".

Fixpoint lookup_option (s : string) (t : list (string * dest)) : option dest :=
  match t with
  | [] => None
  | (o, d) :: t' => if String.eqb s o then Some d else lookup_option s t'
  end.

(** [s.split("=", 1)] when [s] holds an [=]. *)
Fixpoint split_eq (s : string) : option (string * string) :=
  match s with
  | EmptyString => None
  | String c s' =>
      if Ascii.eqb c "=" then Some (EmptyString, s')
      else match split_eq s' with
           | Some (a, b) => Some (String c a, b)
           | None => None
           end
  end.

Fixpoint str_all (f : ascii -> bool) (s : string) : bool :=
  match s with
  | EmptyString => true
  | String c s' => f c && str_all f s'
  end.

(** [_negative_number_matcher]: [-] then digits, or [-], digits, a dot
    and at least one digit. *)
Definition negative_number (a : string) : bool :=
  match a with
  | String "-" r =>
      match r with
      | EmptyString => false
      | _ =>
          str_all ascii_digit r ||
          (let fix frac (s : string) : bool :=
             match s with
             | String "." t => negb (String.eqb t EmptyString) && str_all ascii_digit t
             | String c t => ascii_digit c && frac t
             | EmptyString => false
             end in frac r)
      end
  | _ => false
  end.

(** The classification of one command-line string. *)
Inductive cls : Type :=
| CPos (s : string)                                     (** a value *)
| COpt (d : dest) (o : string) (explicit : option string) (** a known option *)
| CUnknown (s : string)                                 (** an option of no action *)
| CDashDash.                                            (** the first [--] *)

(** [_get_option_tuples]: abbreviations of long options, and a short
    option with its argument attached. *)
Definition option_tuples (a : string) : list (dest * string * option string) :=
  match a with
  | String "-" (String "-" _) =>
      let '(prefix, explicit) :=
        match split_eq a with Some (p, e) => (p, Some e) | None => (a, None) end in
      map (fun p => (p.2, p.1, explicit))
        (List.filter (fun p => String.prefix prefix p.1) option_table)
  | String "-" (String c rest) =>
      let short := String "-" (String c EmptyString) in
      List.flat_map (fun p =>
        if String.eqb p.1 short then [(p.2, p.1, Some rest)]
        else if String.prefix a p.1 then [(p.2, p.1, None)] else []) option_table
  | _ => []
  end.

(** [option_string, explicit_arg = arg_string.split("=", 1)] when the
    part before the [=] is an option string. *)
Definition split_known (a : string) : option (dest * string * string) :=
  match split_eq a with
  | Some (o, e) =>
      match lookup_option o option_table with
      | Some d => Some (d, o, e)
      | None => None
      end
  | None => None
  end.

(** [_parse_optional]: [inl] is the parser error of an ambiguous
    abbreviation. *)
Definition classify (a : string) : string + cls :=
  match a with
  | String "-" rest =>
      match lookup_option a option_table with
      | Some d => inr (COpt d a None)
      | None =>
          if String.eqb rest EmptyString then inr (CPos a) else
          match split_known a with
          | Some (d, o, e) => inr (COpt d o (Some e))
          | None =>
              match option_tuples a with
              | [(d, o, e)] => inr (COpt d o e)
              | (_ :: _ :: _) as ts =>
                  inl ("ambiguous option: " ++ a ++ " could match " ++
                       str_join ", " (map (fun t => t.1.2) ts))
              | [] =>
                  if negative_number a || char_in " " a then inr (CPos a)
                  else inr (CUnknown a)
              end
          end
      end
  | _ => inr (CPos a)
  end.

(** The classification pass of [_parse_known_args]: after the first
    [--] every string is a value. *)
Fixpoint classify_all (dd : bool) (l : list string) : string + list cls :=
  match l with
  | [] => inr []
  | a :: l' =>
      if dd then
        match classify_all true l' with inl e => inl e | inr cs => inr (CPos a :: cs) end
      else if String.eqb a "--" then
        match classify_all true l' with inl e => inl e | inr cs => inr (CDashDash :: cs) end
      else
        match classify a with
        | inl e => inl e
        | inr c =>
            match classify_all false l' with inl e => inl e | inr cs => inr (c :: cs) end
        end
  end.

(** ** Consuming the arguments *)

Record pstate := mkPS {
  ps_account : option string;
  ps_cluster : option string;
  ps_region : option string;
  ps_users : option (list string);
  ps_workdir : string;
  ps_extras : list string
}.

Definition ps_init : pstate := mkPS None None None None DEFAULT_WORKING_DIR [].

(** The action of an option taking one value: [store], or [append] for
    [--usernames]. *)
Definition store (d : dest) (v : string) (ps : pstate) : pstate :=
  match d with
  | DCluster => mkPS (ps_account ps) (Some v) (ps_region ps) (ps_users ps) (ps_workdir ps) (ps_extras ps)
  | DRegion => mkPS (ps_account ps) (ps_cluster ps) (Some v) (ps_users ps) (ps_workdir ps) (ps_extras ps)
  | DUsers => mkPS (ps_account ps) (ps_cluster ps) (ps_region ps)
                (Some (default [] (ps_users ps) ++ [v])%list) (ps_workdir ps) (ps_extras ps)
  | DWorkdir => mkPS (ps_account ps) (ps_cluster ps) (ps_region ps) (ps_users ps) v (ps_extras ps)
  | DHelp => ps
  end.

Definition add_extra (a : string) (ps : pstate) : pstate :=
  mkPS (ps_account ps) (ps_cluster ps) (ps_region ps) (ps_users ps) (ps_workdir ps) (ps_extras ps ++ [a]).

(** The positional [accountname] takes the first value; later values are
    left over. *)
Definition positional (a : string) (ps : pstate) : pstate :=
  match ps_account ps with
  | None => mkPS (Some a) (ps_cluster ps) (ps_region ps) (ps_users ps) (ps_workdir ps) (ps_extras ps)
  | Some _ => add_extra a ps
  end.

Inductive pres : Type :=
| PHelp
| PError (msg : string)
| PNotModelled (what : string)
| PDone (ps : pstate).

(** An option value attached as exactly [--] ([--opt=--], [-c--]):
    [_get_values] removes the [--] and stores the empty list [[]], a
    value this model of the namespace, whose values are strings, does
    not hold. *)
Definition attached_dashdash : pres :=
  PNotModelled "option value '--' (argparse stores [])".

Definition expected_one (d : dest) : pres :=
  PError ("argument " ++ action_name d ++ ": expected one argument").

Definition ignored_explicit (x : string) : pres :=
  PError ("argument " ++ action_name DHelp ++ ": ignored explicit argument " ++ repr_str x).

(** Whether a value follows (the pattern [-*A] of an option of one
    argument). *)
Definition value_follows (l : list cls) : bool :=
  match l with
  | CPos _ :: _ => true
  | _ => false
  end.

(** [-hXYZ]: the help flag with characters attached.  [consume_optional]
    reads them as further single-letter options; the help action runs
    only if the whole group is accepted. *)
Fixpoint help_group (x : string) (rest : list cls) : pres :=
  match x with
  | EmptyString => PHelp
  | String c r =>
      match lookup_option (String "-" (String c EmptyString)) option_table with
      | None => ignored_explicit x
      | Some DHelp => help_group r rest
      | Some d =>
          if negb (String.eqb r EmptyString) || value_follows rest then PHelp
          else expected_one d
      end
  end.

Fixpoint consume (l : list cls) (ps : pstate) : pres :=
  match l with
  | [] => PDone ps
  | CDashDash :: l' =>
      match ps_account ps with
      | None => consume l' ps
      | Some _ => consume l' (add_extra "--" ps)
      end
  | CPos a :: l' =>
      match ps_account ps, l' with
      | None, CDashDash :: l'' => consume l'' (positional a ps)
      | _, _ => consume l' (positional a ps)
      end
  | CUnknown a :: l' => consume l' (add_extra a ps)
  | COpt DHelp o e :: l' =>
      match e with
      | None => PHelp
      | Some x =>
          match o with
          | String "-" (String "-" _) => ignored_explicit x
          | _ => if String.eqb x EmptyString then ignored_explicit x else help_group x l'
          end
      end
  | COpt d _ (Some x) :: l' =>
      if String.eqb x "--" then attached_dashdash else consume l' (store d x ps)
  | COpt d _ None :: CPos v :: l' => consume l' (store d v ps)
  | COpt d _ None :: _ => expected_one d
  end.

(** The namespace of a successful parse. *)
Record raw_ns := mkNs {
  ns_account : string; ns_cluster : string; ns_region : option string;
  ns_users : list string; ns_workdir : string
}.

(** [parse_args()] on [sys.argv[1:]], without its effects. *)
Definition parse_argv (argv : list string) : pres + raw_ns :=
  match classify_all false argv with
  | inl msg => inl (PError msg)
  | inr cs =>
      match consume cs ps_init with
      | PDone ps =>
          let missing :=
            ((if ps_account ps is Some _ then [] else ["accountname"]) ++
             (if ps_cluster ps is Some _ then [] else [action_name DCluster]) ++
             (if ps_users ps is Some _ then [] else [action_name DUsers]))%list in
          match missing, ps_account ps, ps_cluster ps, ps_users ps with
          | [], Some a, Some c, Some us =>
              match ps_extras ps with
              | [] => inr (mkNs a c (ps_region ps) us (ps_workdir ps))
              | ex => inl (PError ("unrecognized arguments: " ++ str_join " " ex))
              end
          | _, _, _, _ =>
              inl (PError ("the following arguments are required: " ++ str_join ", " missing))
          end
      | r => inl r
      end
  end.

(** ** [getargs()] (lines 161-204) *)

(** [parser.error(msg)]: the usage and the message on standard error,
    then exit status 2. *)
Definition usage_error : string := "createrole.py: error: ".

Definition HELP_TEXT : string :=
  "usage: createrole.py [-h] --clustername CLUSTERNAME [--region REGION] --usernames USERNAMES [--workingdir WORKINGDIR] accountname".

Section Getargs.
Context {X : Type} `{ExternalTools X}.

Definition parser_error {A} (msg : string) : PyM X A :=
  bind (modify (fun w => add_stderr w (usage_error ++ msg))) (fun _ => raise (SystemExit 2)).

(** [parser.parse_args()]: [-h] prints the help and exits with 0. *)
Definition parse_args (argv : list string) : PyM X raw_ns :=
  match parse_argv argv with
  | inr ns => ret ns
  | inl PHelp => print HELP_TEXT ;; raise (SystemExit 0)
  | inl (PError msg) => parser_error msg
  | inl (PNotModelled what) => raise (NotModelled what)
  | inl (PDone _) => parser_error EmptyString
  end.

(** The test of line 200. *)
Definition full_arn_like (u : string) : bool := str_in ":" u || str_in "/" u.

(** Lines 199-203; the message keeps the stray [f] of the f-string. *)
Definition check_usernames (us : list string) : PyM X unit :=
  for_ us (fun u =>
    if full_arn_like u
    then parser_error ("Username only should be passed, not a full ARN (f" ++ u ++ ")")
    else ret tt).

(** Lines 196-197: [args.workingdir = pathlib.Path(args.workingdir)],
    then [args.workingdir.mkdir(exist_ok=True, parents=True)]. *)
Definition make_workdir (s : string) : PyM X path :=
  let wd := parse_path s in
  on_fs (mkdir_parents_exist_ok wd) ;;
  ret wd.

Definition getargs (argv : list string) : PyM X args :=
  ns <- parse_args argv ;;
  wd <- make_workdir (ns_workdir ns) ;;
  check_usernames (ns_users ns) ;;
  ret (mkArgs (ns_account ns) (ns_cluster ns) (ns_region ns) (ns_users ns) wd).
End Getargs.

(** ** Behaviour of [getargs] *)

(** The message [parser.error] gets for a rejected username. *)
Definition arn_message (u : string) : string :=
  "Username only should be passed, not a full ARN (f" ++ u ++ ")".

Section GetargsProps.
Context {X : Type} `{ExternalTools X}.

Lemma parse_args_ok argv ns (w : world X) :
  parse_argv argv = inr ns -> parse_args argv w = (Ok ns, w).
Proof. unfold parse_args. by intros ->. Qed.

(** The loop of lines 199-203 stops at the first username holding [:]
    or [/]; it changes nothing but standard error. *)
Lemma check_usernames_spec us (w : world X) :
  check_usernames us w =
    match List.find full_arn_like us with
    | None => (Ok tt, w)
    | Some u => (Raise (SystemExit 2), add_stderr w (usage_error ++ arn_message u))
    end.
Proof.
  unfold check_usernames. revert w.
  induction us as [|u us IH]; intros w; [reflexivity|]. simpl.
  unfold bind. destruct (full_arn_like u); [reflexivity|]. apply IH.
Qed.

(** [make_workdir] is [Path.mkdir] on the file system; the path is
    returned when it succeeds. *)
Lemma make_workdir_spec s (w : world X) :
  make_workdir s w =
    match mkdir_parents_exist_ok (parse_path s) (w_fs w) with
    | (Ok _, f1) => (Ok (parse_path s), set_fs w f1)
    | (Raise e, f1) => (Raise e, set_fs w f1)
    end.
Proof.
  unfold make_workdir, bind, on_fs. by destruct (mkdir_parents_exist_ok _ (w_fs w)) as [[]].
Qed.

Lemma getargs_spec argv ns (w : world X) :
  parse_argv argv = inr ns ->
  getargs argv w =
    let wd := parse_path (ns_workdir ns) in
    match mkdir_parents_exist_ok wd (w_fs w) with
    | (Raise e, f1) => (Raise e, set_fs w f1)
    | (Ok _, f1) =>
        match List.find full_arn_like (ns_users ns) with
        | None => (Ok (mkArgs (ns_account ns) (ns_cluster ns) (ns_region ns) (ns_users ns) wd),
                   set_fs w f1)
        | Some u => (Raise (SystemExit 2),
                     add_stderr (set_fs w f1) (usage_error ++ arn_message u))
        end
    end.
Proof.
  intros Hp. unfold getargs.
  erewrite bind_ok by (apply parse_args_ok; exact Hp). cbv zeta.
  unfold bind at 1. rewrite make_workdir_spec.
  destruct (mkdir_parents_exist_ok _ (w_fs w)) as [[[]|e] f1]; [|done].
  unfold bind. rewrite check_usernames_spec.
  by destruct (List.find full_arn_like (ns_users ns)).
Qed.
End GetargsProps.

(** ** Making the working directory (lines 196-197) *)

Section Workdir.
Context {X : Type} `{ExternalTools X}.

(** (C16) On a well-formed file system where neither the working directory
    nor any of its ancestors is a regular file, lines 196-197 succeed,
    return the path, and add exactly the directory and its missing
    ancestors; the file system stays well formed. *)
Theorem make_workdir_creates s (w : world X) :
  wf_fs (w_fs w) -> is_file (w_fs w) (parse_path s) = false ->
  (forall q, q ∈ ancestors (parse_path s) -> is_file (w_fs w) q = false) ->
  exists f', make_workdir s w = (Ok (parse_path s), set_fs w f') /\
    mkdir_result (w_fs w) (parse_path s) f' /\ is_dir f' (parse_path s) = true /\ wf_fs f'.
Proof.
  intros Hwf Hp Hanc. destruct (mkdir_creates _ _ Hwf Hp Hanc) as (f' & Hrun & Hres).
  exists f'. rewrite make_workdir_spec, Hrun. by split.
Qed.

(** (C17) The spec's contract for the working directory: when it already
    exists, line 197 succeeds silently.  Running lines 196-197 again
    after a successful run returns the same path and changes nothing. *)
Theorem make_workdir_idempotent s (w w' : world X) p :
  wf_fs (w_fs w) -> make_workdir s w = (Ok p, w') -> make_workdir s w' = (Ok p, w').
Proof.
  intros Hwf. rewrite make_workdir_spec.
  destruct (mkdir_parents_exist_ok (parse_path s) (w_fs w)) as [[[]|e] f1] eqn:Hm; [|done].
  intros [= <- <-]. rewrite make_workdir_spec. unfold mkdir_parents_exist_ok in *. simpl.
  rewrite mkdir_reuse; [reflexivity | by eapply path_mkdir_keeps_wf | by eapply path_mkdir_ok_dir].
Qed.
End Workdir.

(** (C18) The username test of line 200, two substring searches
    [":" in username or "/" in username], is equivalent to one pass over
    the characters of the name that looks for a [:] or a [/]: the
    usernames [getargs] accepts are exactly those with neither
    character. *)
Theorem full_arn_like_chars u :
  full_arn_like u = existsb (fun c => Ascii.eqb c ":" || Ascii.eqb c "/") (list_ascii_of_string u).
Proof.
  unfold full_arn_like. rewrite !str_in_char.
  induction u as [|c u IH]; [done|]. cbn [char_in existsb list_ascii_of_string].
  rewrite <- IH, !(Ascii.eqb_sym c).
  by destruct (Ascii.eqb ":" c), (Ascii.eqb "/" c), (char_in ":" u), (char_in "/" u).
Qed.



(** ** Every namespace has a command line

    [render_argv ns] writes each option as [--option=value] and the
    account name after [--], so that values starting with [-] or holding
    [=] or spaces are read back as values. *)

Definition opt_eq (o v : string) : string := o ++ "=" ++ v.

Definition render_argv (ns : raw_ns) : list string :=
  (opt_eq "--clustername" (ns_cluster ns) ::
   match ns_region ns with Some r => [opt_eq "--region" r] | None => [] end ++
   map (opt_eq "--usernames") (ns_users ns) ++
   [opt_eq "--workingdir" (ns_workdir ns); "--"; ns_account ns])%list.

Definition users_set (us : list string) (ps : pstate) : pstate :=
  mkPS (ps_account ps) (ps_cluster ps) (ps_region ps)
    (match us with [] => ps_users ps | _ => Some (default [] (ps_users ps) ++ us)%list end)
    (ps_workdir ps) (ps_extras ps).

Lemma classify_cluster v : classify (opt_eq "--clustername" v) = inr (COpt DCluster "--clustername" (Some v)).
Proof. reflexivity. Qed.
Lemma classify_region v : classify (opt_eq "--region" v) = inr (COpt DRegion "--region" (Some v)).
Proof. reflexivity. Qed.
Lemma classify_users v : classify (opt_eq "--usernames" v) = inr (COpt DUsers "--usernames" (Some v)).
Proof. reflexivity. Qed.
Lemma classify_workdir v : classify (opt_eq "--workingdir" v) = inr (COpt DWorkdir "--workingdir" (Some v)).
Proof. reflexivity. Qed.

Lemma classify_all_opt a c l :
  String.eqb a "--" = false -> classify a = inr c ->
  classify_all false (a :: l) =
    match classify_all false l with inl e => inl e | inr cs => inr (c :: cs) end.
Proof. intros Hd Hc. simpl. by rewrite Hd, Hc. Qed.

Lemma classify_all_users us l :
  classify_all false (map (opt_eq "--usernames") us ++ l) =
    match classify_all false l with
    | inl e => inl e
    | inr cs => inr (map (fun u => COpt DUsers "--usernames" (Some u)) us ++ cs)%list
    end.
Proof.
  induction us as [|u us IH]; [simpl; by destruct (classify_all false l)|]. cbn [map app].
  rewrite (classify_all_opt (opt_eq "--usernames" u) _ _ eq_refl (classify_users u)), IH.
  by destruct (classify_all false l).
Qed.

Lemma consume_users us l ps :
  Forall (fun u => u <> "--") us ->
  consume (map (fun u => COpt DUsers "--usernames" (Some u)) us ++ l) ps = consume l (users_set us ps).
Proof.
  intros Hus. revert ps. induction Hus as [|u us Hu Hus IH]; intros ps; [by destruct ps|].
  simpl. rewrite (proj2 (String.eqb_neq _ _) Hu), IH. unfold users_set. simpl.
  destruct us; [done|]. by rewrite <- app_assoc.
Qed.

(** The option values of a namespace, which [render_argv] attaches with
    [=]. *)
Definition option_values (ns : raw_ns) : list string :=
  ns_cluster ns :: ns_workdir ns ::
  (ns_users ns ++ match ns_region ns with Some r => [r] | None => [] end)%list.

(** (C19) Every namespace with at least one username and no option
    value equal to [--] is what [parse_args] returns on some command
    line: [render_argv ns] parses to [ns], whatever other characters the
    values hold (a leading [-], [=], spaces, or an account name [--]).
    An attached value [--] is the one [argparse] turns into [[]]. *)
Theorem parse_argv_render ns :
  ns_users ns <> [] -> "--" ∉ option_values ns -> parse_argv (render_argv ns) = inr ns.
Proof.
  intros Hu Hv. destruct ns as [a c r us wd]. simpl in Hu.
  unfold option_values in Hv. cbn [ns_cluster ns_region ns_users ns_workdir] in Hv.
  rewrite !not_elem_of_cons, not_elem_of_app in Hv. destruct Hv as (Hc & Hw & Hus & Hr).
  unfold parse_argv, render_argv. cbn [ns_cluster ns_region ns_users ns_workdir ns_account].
  rewrite (classify_all_opt (opt_eq "--clustername" c) _ _ eq_refl (classify_cluster c)).
  assert (Hr' : forall l, classify_all false ((match r with Some r => [opt_eq "--region" r] | None => [] end) ++ l) =
     match classify_all false l with inl e => inl e
     | inr cs => inr ((match r with Some r => [COpt DRegion "--region" (Some r)] | None => [] end) ++ cs)%list end).
  { intros l. destruct r as [r|]; cbn [app]; [|by destruct (classify_all false l)].
    rewrite (classify_all_opt (opt_eq "--region" r) _ _ eq_refl (classify_region r)). by destruct (classify_all false l). }
  rewrite Hr', classify_all_users.
  rewrite (classify_all_opt (opt_eq "--workingdir" wd) _ _ eq_refl (classify_workdir wd)). simpl.
  assert (E : forall v, "--" <> v -> String.eqb v "--" = false)
    by (intros v Hv; apply String.eqb_neq; congruence).
  assert (Hus' : Forall (fun u => u <> "--") us).
  { apply Forall_forall. intros u Hin ->. by apply Hus. }
  rewrite (E c Hc).
  destruct r as [r|]; simpl;
    [rewrite (E r) by set_solver|];
    rewrite consume_users by done; simpl; rewrite (E wd Hw); simpl; destruct us as [|u us]; done.
Qed.

(** ** Concrete command lines *)

(** Values that look like options, an [=] and a space, and the account
    name [--]. *)
Definition odd_ns : raw_ns := mkNs "--" "a=b" (Some "-1") ["-u"; "x y"] "/tmp/w".

Lemma parse_argv_render_witness :
  ns_users odd_ns <> [] /\ ("--" ∉ option_values odd_ns) /\ parse_argv (render_argv odd_ns) = inr odd_ns.
Proof.
  assert (Hv : "--" ∉ option_values odd_ns) by (apply (bool_decide_unpack (_ ∉ _)); vm_compute; exact I).
  split; [discriminate|]. split; [exact Hv|]. apply parse_argv_render; [discriminate | exact Hv].
Defined.

(** The working directories of a run against [sample_fs]. *)
Definition sample_world : world aws := initial_world sample_fs demo_aws.

Lemma make_workdir_creates_witness :
  exists f', make_workdir "tmp/b/c" sample_world = (Ok (parse_path "tmp/b/c"), set_fs sample_world f') /\
    mkdir_result sample_fs (parse_path "tmp/b/c") f' /\
    is_dir f' (parse_path "tmp/b/c") = true /\ wf_fs f'.
Proof.
  apply (make_workdir_creates "tmp/b/c" sample_world);
    [apply wf_fsb_sound; vm_compute; reflexivity | vm_compute; reflexivity |].
  intros q (i & Hi & ->)%elem_of_ancestors. simpl in Hi.
  destruct i as [|[|[|i]]]; try lia; vm_compute; reflexivity.
Defined.


Lemma make_workdir_idempotent_witness :
  wf_fs (w_fs sample_world) /\
  exists w', make_workdir "tmp/b/c" sample_world = (Ok (parse_path "tmp/b/c"), w') /\
    make_workdir "tmp/b/c" w' = (Ok (parse_path "tmp/b/c"), w').
Proof.
  split; [apply wf_fsb_sound; vm_compute; reflexivity|].
  eexists. split; [vm_compute; reflexivity|].
  apply (make_workdir_idempotent _ sample_world); [apply wf_fsb_sound; vm_compute|]; reflexivity.
Defined.
