(* ===== verification/Main.v ===== *)
(** * The script: [main] (lines 207-222)

    [main] parses the command line into the global [ARGS], derives the
    names, and runs the one active operation, [create_identity_mapping];
    the calls of [create_aws_role], [create_aws_policy] and
    [create_aws_group] are commented out.  The [__main__] guard turns the
    outcome into the exit status: 0 when [main] returns, the code of a
    [SystemExit], 1 with a traceback for any other exception.  The
    theorems give the whole run: the commands it starts, in order, and
    its exit status, on success and on each failure. *)

From Stdlib Require Import ZArith String Ascii.
From stdpp Require Import base strings list gmap.
From S2P Require Import Prelude Json JsonParse Pathlib Runtime Mock Account Provision Args.

Open Scope string_scope.
Local Open Scope py_scope.

Section Main.
Context {X : Type} `{ExternalTools X}.

(** Lines 207-218. *)
Definition main (argv : list string) : PyM X unit :=
  a <- getargs argv ;;
  modify (fun w => set_args w (Some a)) ;;
  a1 <- get_args ;;
  let acct := accountname a1 in
  create_identity_mapping (role_name acct) (eks_username acct).

(** The exit status of the interpreter. *)
Definition exit_status (r : outcome pyexn unit) : Z :=
  match r with
  | Ok _ => 0
  | Raise (SystemExit n) => n
  | Raise _ => 1
  end.

(** Lines 221-222: running [createrole.py argv...] from the state at
    import time.  An exception other than [SystemExit] leaves a
    traceback on standard error. *)
Definition run_script (argv : list string) (f : fs) (x : X) : Z * world X :=
  let '(r, w) := main argv (initial_world f x) in
  match r with
  | Raise (SystemExit _) | Ok _ => (exit_status r, w)
  | Raise _ => (exit_status r, add_stderr w "Traceback (most recent call last)")
  end.
End Main.

Lemma find_some_of_in {A} (f : A -> bool) (l : list A) u :
  In u l -> f u = true -> exists u', List.find f l = Some u'.
Proof.
  intros Hin Hu. destruct (List.find f l) as [u'|] eqn:E; [by eexists|].
  exfalso. rewrite (find_none f l E u Hin) in Hu. discriminate.
Qed.

Section MainProps.
Context {X : Type} `{ExternalTools X}.

Lemma main_after_getargs argv (w : world X) a w1 :
  getargs argv w = (Ok a, w1) ->
  main argv w = create_identity_mapping (role_name (accountname a))
                  (eks_username (accountname a)) (set_args w1 (Some a)).
Proof.
  intros Hg. unfold main. erewrite bind_ok by exact Hg.
  unfold bind at 1, modify. simpl. erewrite bind_ok by (apply get_args_ok; reflexivity).
  reflexivity.
Qed.

(** [getargs] on a valid command line, from the state at import time. *)
Lemma getargs_initial argv ns f f1 (x : X) :
  parse_argv argv = inr ns ->
  mkdir_parents_exist_ok (parse_path (ns_workdir ns)) f = (Ok tt, f1) ->
  List.find full_arn_like (ns_users ns) = None ->
  getargs argv (initial_world f x) =
    (Ok (mkArgs (ns_account ns) (ns_cluster ns) (ns_region ns) (ns_users ns)
           (parse_path (ns_workdir ns))), set_fs (initial_world f x) f1).
Proof. intros Hp Hm Hf. rewrite (getargs_spec _ _ _ Hp). simpl. by rewrite Hm, Hf. Qed.

(** (C1) The run of the script with its current defaults, when the
    command line is valid and the identity check succeeds: the working
    directory is made, [aws sts get-caller-identity] and then
    [eksctl create iamidentitymapping] with the cluster, the ARN of the
    role [eks-<account>-role] and the user [eks-<account>] are the only
    commands started, nothing is written to standard error, and the
    exit status is 0 whatever [eksctl] returned. *)
Theorem run_script_maps_identity argv ns f f1 (x x1 x2 : X) out d acc p :
  parse_argv argv = inr ns ->
  mkdir_parents_exist_ok (parse_path (ns_workdir ns)) f = (Ok tt, f1) ->
  List.find full_arn_like (ns_users ns) = None ->
  exec identity_cmd f1 x = (Some (mkProc 0 out), x1) ->
  loads out = Ok d -> getitem d (KStr "Account") = Ok (JStr acc) ->
  exec (mapping_cmd (ns_cluster ns) (iam_arn acc "role" (role_name (ns_account ns)))
          (eks_username (ns_account ns))) f1 x1 = (Some p, x2) ->
  exists w, run_script argv f x = (0%Z, w) /\
    w_log w = [identity_cmd;
               mapping_cmd (ns_cluster ns) (iam_arn acc "role" (role_name (ns_account ns)))
                 (eks_username (ns_account ns))] /\
    w_ext w = x2 /\ w_fs w = f1 /\ w_stderr w = [] /\
    is_dir (w_fs w) (parse_path (ns_workdir ns)) = true.
Proof.
  intros Hp Hm Hf Hx Hd Hv Hmap. unfold run_script.
  rewrite (main_after_getargs _ _ _ _ (getargs_initial _ _ _ _ _ Hp Hm Hf)).
  erewrite create_identity_mapping_fetch by (simpl; eauto).
  eexists. split; [reflexivity|]. simpl.
  split_and!; try reflexivity. by eapply path_mkdir_ok_dir.
Qed.

(** (C2) When the identity check fails, the script stops with exit
    status 1 and a traceback: the identity check is the only command
    started, and [eksctl] is never run. *)
Theorem run_script_identity_check_fails argv ns f f1 (x x1 : X) p :
  parse_argv argv = inr ns ->
  mkdir_parents_exist_ok (parse_path (ns_workdir ns)) f = (Ok tt, f1) ->
  List.find full_arn_like (ns_users ns) = None ->
  exec identity_cmd f1 x = (Some p, x1) -> p_returncode p <> 0%Z ->
  exists w, run_script argv f x = (1%Z, w) /\ w_log w = [identity_cmd] /\ w_ext w = x1.
Proof.
  intros Hp Hm Hf Hx Hrc. unfold run_script.
  rewrite (main_after_getargs _ _ _ _ (getargs_initial _ _ _ _ _ Hp Hm Hf)).
  erewrite create_identity_mapping_check_fails by (simpl; eauto).
  eexists. split_and!; reflexivity.
Qed.

(** (C3) A username holding [:] or [/] stops the script with exit
    status 2 and the parser's message before any command is started;
    the working directory has been created all the same. *)
Theorem run_script_rejects_full_arn argv ns f f1 (x : X) u :
  parse_argv argv = inr ns ->
  mkdir_parents_exist_ok (parse_path (ns_workdir ns)) f = (Ok tt, f1) ->
  In u (ns_users ns) -> full_arn_like u = true ->
  exists w u', run_script argv f x = (2%Z, w) /\ w_log w = [] /\ w_ext w = x /\
    w_stderr w = [usage_error ++ arn_message u'] /\
    is_dir (w_fs w) (parse_path (ns_workdir ns)) = true.
Proof.
  intros Hp Hm Hin Hu. destruct (find_some_of_in _ _ _ Hin Hu) as [u' Hf].
  unfold run_script, main. unfold bind at 1. rewrite (getargs_spec _ _ _ Hp). simpl. rewrite Hm, Hf.
  do 2 eexists. split; [reflexivity|]. simpl.
  split_and!; try reflexivity. by eapply path_mkdir_ok_dir.
Qed.
(** (C11) A working directory that exists as a regular file makes
    [mkdir(exist_ok=True)] raise [FileExistsError]: the script stops
    with exit status 1 and a traceback, before any command and without
    changing the file system. *)
Theorem run_script_workdir_is_file argv ns f (x : X) :
  parse_argv argv = inr ns -> wf_fs f -> is_file f (parse_path (ns_workdir ns)) = true ->
  exists w, run_script argv f x = (1%Z, w) /\ w_log w = [] /\ w_fs w = f /\ w_ext w = x /\
    w_stderr w = ["Traceback (most recent call last)"].
Proof.
  intros Hp Hwf Hf. unfold run_script, main. unfold bind at 1.
  rewrite (getargs_spec _ _ _ Hp). simpl. unfold mkdir_parents_exist_ok.
  rewrite mkdir_on_file by done. simpl. eexists. split_and!; reflexivity.
Qed.

(** (C10) A command line the parser refuses stops the script before
    anything else: with [-h] the help text is printed and the exit status
    is 0; on an error the usage prefix and the message go to standard
    error and the exit status is 2; on an input outside the parser model
    (an attached option value [--]) the run stops with status 1.  No
    command is started and the file system is unchanged (the working
    directory is not created). *)
Theorem run_script_parse_failure argv r f (x : X) :
  parse_argv argv = inl r ->
  exists w, run_script argv f x =
      (match r with PHelp => 0%Z | PNotModelled _ => 1%Z | _ => 2%Z end, w) /\
    w_log w = [] /\ w_fs w = f /\ w_ext w = x /\
    match r with
    | PHelp => w_stdout w = [HELP_TEXT] /\ w_stderr w = []
    | PError msg => w_stdout w = [] /\ w_stderr w = [usage_error ++ msg]
    | PNotModelled _ => w_stdout w = [] /\ w_stderr w = ["Traceback (most recent call last)"]
    | PDone _ => w_stdout w = [] /\ w_stderr w = [usage_error ++ EmptyString]
    end.
Proof.
  intros Hp. unfold run_script, main, getargs, parse_args. unfold bind at 1 2.
  rewrite Hp. destruct r; simpl; eexists; split_and!; reflexivity.
Qed.
End MainProps.

(** ** The commands a run starts *)

Section RunLog.
Context {X : Type} `{ExternalTools X}.

Lemma run_script_log argv f (x : X) :
  w_log (snd (run_script argv f x)) = w_log (snd (main argv (initial_world f x))).
Proof. unfold run_script. by destruct (main argv (initial_world f x)) as [[|[]] w]. Qed.

(** (C5) A run of the script starts no command, or only the identity
    check, or the identity check and then one [eksctl create
    iamidentitymapping] for the cluster given on the command line, the
    role [eks-<account>-role] and the user [eks-<account>]: the identity
    check runs at most once, and no [aws iam] command is ever started
    (their calls are commented out in [main]). *)
Theorem run_script_commands argv f (x : X) :
  let w := snd (run_script argv f x) in
  w_log w = [] \/
  exists ns, parse_argv argv = inr ns /\
    (w_log w = [identity_cmd] \/
     exists acc, w_log w = [identity_cmd; mapping_cmd (ns_cluster ns)
                              (iam_arn acc "role" (role_name (ns_account ns)))
                              (eks_username (ns_account ns))]).
Proof.
  cbv zeta. rewrite run_script_log.
  destruct (parse_argv argv) as [r|ns] eqn:Hp.
  - left. unfold main, getargs, parse_args, bind. rewrite Hp. by destruct r.
  - destruct (getargs argv (initial_world f x)) as [[a|e] w1] eqn:Hg.
    + rewrite (main_after_getargs _ _ _ _ Hg).
      rewrite (getargs_spec _ _ _ Hp) in Hg. simpl in Hg.
      destruct (mkdir_parents_exist_ok _ f) as [[[]|e] f1]; [|done].
      destruct (List.find full_arn_like (ns_users ns)); [done|].
      injection Hg as <- <-. right. exists ns. split; [done|].
      destruct (create_identity_mapping_log (role_name (ns_account ns)) (eks_username (ns_account ns))
                  (set_args (set_fs (initial_world f x) f1) (Some (mkArgs (ns_account ns) (ns_cluster ns)
                     (ns_region ns) (ns_users ns) (parse_path (ns_workdir ns)))))
                  _ eq_refl eq_refl) as [Hl | [acc Hl]]; [by left | right; by exists acc].
    + left. unfold main, bind. rewrite Hg. simpl.
      rewrite (getargs_spec _ _ _ Hp) in Hg. simpl in Hg.
      destruct (mkdir_parents_exist_ok _ f) as [[[]|e'] f1];
        [destruct (List.find full_arn_like (ns_users ns))|]; by injection Hg as _ <-.
Qed.
End RunLog.

(** ** Concrete runs on the services of [Mock.v] *)

Definition demo_argv : list string := ["team1"; "--clustername"; "prod"; "--usernames"; "dave"].
Definition demo_ns : raw_ns := mkNs "team1" "prod" None ["dave"] "./tmp/".
Definition demo_arn : string := "arn:aws:iam::123456789012:role/eks-team1-role".

Lemma run_script_maps_identity_witness :
  exists w, run_script demo_argv (mkFs ∅ ∅) demo_aws = (0%Z, w) /\
    w_log w = [identity_cmd; mapping_cmd "prod" demo_arn "eks-team1"] /\
    w_ext w = mkAws "123456789012" {[ "dave"; "erin" ]} ∅ ∅ ∅ {[ "prod" ]}
                [("prod", demo_arn, "eks-team1")] /\
    w_fs w = tmp_fs /\ w_stderr w = [] /\
    is_dir (w_fs w) (parse_path "./tmp/") = true.
Proof.
  apply (run_script_maps_identity demo_argv demo_ns (mkFs ∅ ∅) tmp_fs demo_aws demo_aws _
           (identity_doc "123456789012") demo_identity "123456789012" (mkProc 0 EmptyString));
    vm_compute; reflexivity.
Defined.

Lemma run_script_identity_check_fails_witness :
  exists w, run_script demo_argv (mkFs ∅ ∅) tt = (1%Z, w) /\ w_log w = [identity_cmd] /\ w_ext w = tt.
Proof.
  apply (run_script_identity_check_fails demo_argv demo_ns (mkFs ∅ ∅) tmp_fs tt tt
           (mkProc 255 EmptyString)); vm_compute; first [reflexivity | discriminate].
Defined.

Lemma run_script_rejects_full_arn_witness :
  exists w u', run_script ["team1"; "-c"; "prod"; "-u"; "dave"; "-u"; "arn:aws:iam::1:user/erin"]
                 (mkFs ∅ ∅) demo_aws = (2%Z, w) /\
    w_log w = [] /\ w_ext w = demo_aws /\ w_stderr w = [usage_error ++ arn_message u'] /\
    is_dir (w_fs w) (parse_path "./tmp/") = true.
Proof.
  apply (run_script_rejects_full_arn _
           (mkNs "team1" "prod" None ["dave"; "arn:aws:iam::1:user/erin"] "./tmp/")
           (mkFs ∅ ∅) tmp_fs demo_aws "arn:aws:iam::1:user/erin");
    [vm_compute; reflexivity | vm_compute; reflexivity | right; left; reflexivity | reflexivity].
Defined.

(** [eksctl] fails (the cluster does not exist), and the script still
    exits with 0: the mapping command is run without [check=True]. *)
Example run_script_unknown_cluster :
  (run_script ["team1"; "-c"; "staging"; "-u"; "dave"] (mkFs ∅ ∅) demo_aws).1 = 0%Z /\
  aws_mappings (w_ext (run_script ["team1"; "-c"; "staging"; "-u"; "dave"] (mkFs ∅ ∅) demo_aws).2) = [].
Proof. vm_compute. split; reflexivity. Qed.

(** A file system where [./tmp/] is a regular file. *)
Definition tmp_file_fs : fs := mkFs ∅ {[ tmp_dir := "x" ]}.

Lemma run_script_workdir_is_file_witness :
  exists w, run_script demo_argv tmp_file_fs demo_aws = (1%Z, w) /\ w_log w = [] /\
    w_fs w = tmp_file_fs /\ w_ext w = demo_aws /\
    w_stderr w = ["Traceback (most recent call last)"].
Proof.
  apply (run_script_workdir_is_file _ demo_ns); [vm_compute; reflexivity | |vm_compute; reflexivity].
  apply wf_fsb_sound. vm_compute. reflexivity.
Defined.

Lemma run_script_parse_failure_witness :
  exists w, run_script ["team1"] (mkFs ∅ ∅) demo_aws = (2%Z, w) /\
    w_log w = [] /\ w_fs w = mkFs ∅ ∅ /\ w_ext w = demo_aws /\
    w_stdout w = [] /\
    w_stderr w = [usage_error ++ "the following arguments are required: --clustername/-c, --usernames/-u"].
Proof.
  apply (run_script_parse_failure ["team1"]
           (PError "the following arguments are required: --clustername/-c, --usernames/-u")).
  vm_compute. reflexivity.
Defined.
