(* ===== verification/Trail.v ===== *)
(** * The audit trail

    Every external command goes through [run_command] (lines 40-43),
    which prints [Running: <command>] before it starts the child.  The
    spec promises an operator an audit trail: every external invocation
    is echoed to standard output.  This file proves it for every run of
    the script, whatever the command line, the file system and the
    services ([run_script_echoes]): the echo lines of the commands
    started, in the order they were started, occur in order among the
    lines printed (the children's uncaptured output may come between
    them).  The proof is an invariant of the world kept by every
    operation of the script, composed with [solve_preserves]. Which commands a run
    can start at all is [Main.run_script_commands]. *)

From Stdlib Require Import ZArith String Ascii.
From stdpp Require Import base strings list gmap.
From S2P Require Import Prelude Json JsonParse Pathlib Runtime Account Provision Args Main.

Open Scope string_scope.

Definition echo_line (cmd : list string) : string := "Running: " ++ str_join " " cmd.

(** The echo lines of the commands started form a subsequence of what
    was printed. *)
Definition echoed {X} (w : world X) : Prop := map echo_line (w_log w) `sublist_of` w_stdout w.

Section Echo.
Context {X : Type} `{ExternalTools X}.
Implicit Types w : world X.

Lemma echoed_add_stdout w l : echoed w -> echoed (add_stdout w l).
Proof. apply sublist_inserts_r. Qed.

(** Starting a command after printing its echo line keeps the trail. *)
Lemma echoed_after_start w cmd x' : echoed w -> echoed (after_start w cmd x').
Proof.
  intros Hw. unfold echoed, after_start. simpl. rewrite map_app.
  apply sublist_app; [done|]. apply sublist_skip, sublist_nil.
Qed.

Lemma preserves_print l : preserves echoed (print (X:=X) l).
Proof. apply preserves_modify. intros w. apply echoed_add_stdout. Qed.

Lemma preserves_on_fs {A} (m : st fs pyexn A) : preserves echoed (on_fs (X:=X) m).
Proof. intros w Hw. unfold on_fs. by destruct (m (w_fs w)). Qed.

Lemma preserves_lift {A} (r : result A) : preserves echoed (lift (X:=X) r).
Proof. by intros w Hw. Qed.

Lemma preserves_set_args a : preserves echoed (modify (E:=pyexn) (fun w => set_args (X:=X) w a)).
Proof. by apply preserves_modify. Qed.

Lemma preserves_set_account a : preserves echoed (modify (E:=pyexn) (fun w => set_account (X:=X) w a)).
Proof. by apply preserves_modify. Qed.

Lemma preserves_add_stderr l : preserves echoed (modify (E:=pyexn) (fun w => add_stderr (X:=X) w l)).
Proof. by apply preserves_modify. Qed.

Lemma preserves_run_command cmd check capture :
  preserves echoed (run_command (X:=X) cmd check capture).
Proof.
  intros w Hw. destruct (exec cmd (w_fs w) (w_ext w)) as [[p|] x'] eqn:Ex.
  - rewrite (run_command_exec _ _ _ _ _ _ Ex).
    destruct capture; simpl; auto using echoed_after_start, echoed_add_stdout.
  - rewrite (run_command_missing _ _ _ _ _ Ex). by apply echoed_after_start.
Qed.
End Echo.

#[export] Hint Resolve preserves_print preserves_on_fs preserves_lift preserves_set_args
  preserves_set_account preserves_add_stderr preserves_run_command : preserve.

Section Script.
Context {X : Type} `{ExternalTools X}.

Lemma preserves_get_aws_account_id : preserves echoed (get_aws_account_id (X:=X)).
Proof. unfold get_aws_account_id. solve_preserves. Qed.
#[local] Hint Resolve preserves_get_aws_account_id : preserve.

Lemma preserves_create_identity_mapping r u :
  preserves echoed (create_identity_mapping (X:=X) r u).
Proof. unfold create_identity_mapping, get_args, account_str. solve_preserves. Qed.
#[local] Hint Resolve preserves_create_identity_mapping : preserve.

Lemma preserves_getargs argv : preserves echoed (getargs (X:=X) argv).
Proof.
  unfold getargs, parse_args, check_usernames, parser_error. solve_preserves.
Qed.
#[local] Hint Resolve preserves_getargs : preserve.

Lemma preserves_main argv : preserves echoed (main (X:=X) argv).
Proof. unfold main, get_args. solve_preserves. Qed.

(** (C6) Every command the script starts has been echoed: in every run,
    whatever the command line, the file system and the services, the
    lines [Running: <command>] of the commands started occur, in the
    order the commands were started, among the lines printed. *)
Theorem run_script_echoes argv f (x : X) : echoed (snd (run_script argv f x)).
Proof.
  unfold run_script. pose proof (preserves_main argv (initial_world f x) (sublist_nil_l _)) as Hm.
  destruct (main argv (initial_world f x)) as [[|[]] w]; exact Hm.
Qed.
End Script.
