(* ===== verification/ExitStatus.v ===== *)
(** * The exit status of a run

    The spec promises exit status 0 on success and a non-zero status with
    a message on standard error on a refused command line or a failed
    external command.  In the script the status comes from the
    [__main__] guard (lines 221-222): [SystemExit n] exits with [n], any
    other exception with 1 after a traceback.  This file proves that
    every run exits with 0, 1 or 2, and that a non-zero status always
    comes with a message on standard error ([run_script_exit_status]).
    The proof follows the exceptions of [main] with [raise_ok] of
    [Prelude]: only [argparse] raises [SystemExit], with 0 after the help
    or 2 after writing its usage error; [json], subscripts, [str()],
    [pathlib] and [subprocess] raise ordinary exceptions only. *)

From Stdlib Require Import ZArith String Ascii.
From stdpp Require Import base strings list gmap.
From S2P Require Import Prelude Json JsonParse Pathlib Runtime Mock Account Provision Args Main.

Open Scope string_scope.

(** What an exception leaves behind when it reaches the guard: a
    [SystemExit] carries 0, or 2 with a message already on standard
    error. *)
Definition exit_report {X} (e : pyexn) (w : world X) : Prop :=
  match e with
  | SystemExit n => n = 0%Z \/ (n = 2%Z /\ w_stderr w <> [])
  | _ => True
  end.

Section Raises.
Context {X : Type} `{ExternalTools X}.

Lemma exit_report_ordinary e (w : world X) : is_exit e = false -> exit_report e w.
Proof. by destruct e. Qed.

Lemma raise_ok_lift {A} (r : result A) :
  (forall e, r = Raise e -> is_exit e = false) -> raise_ok exit_report (lift (X:=X) r).
Proof. intros Hr w. unfold lift. destruct r as [|e]; [done|]. by apply exit_report_ordinary, Hr. Qed.

Lemma raise_ok_ordinary {A} (e : pyexn) :
  is_exit e = false -> raise_ok exit_report (raise (S:=world X) (A:=A) e).
Proof. intros He. apply raise_ok_raise. intros w. by apply exit_report_ordinary. Qed.

Lemma raise_ok_run_command cmd check capture :
  raise_ok exit_report (run_command (X:=X) cmd check capture).
Proof.
  intros w. unfold run_command, subprocess_run, bind, print, modify. simpl.
  repeat case_match; simplify_eq; done.
Qed.

Lemma raise_ok_mkdir p : raise_ok exit_report (on_fs (X:=X) (mkdir_parents_exist_ok p)).
Proof.
  intros w. unfold on_fs. destruct (mkdir_parents_exist_ok p (w_fs w)) as [[|e] f] eqn:E; [done|].
  apply path_mkdir_oserror in E. by destruct e.
Qed.

Lemma raise_ok_parser_error {A} msg : raise_ok exit_report (parser_error (X:=X) (A:=A) msg).
Proof. intros w. right. split; [done|]. simpl. by intros [_ ?]%app_eq_nil. Qed.

Lemma raise_ok_decode_account out :
  raise_ok exit_report (lift (X:=X) (decode_account out)).
Proof.
  apply raise_ok_lift. unfold decode_account. intros e.
  destruct (loads out) eqn:E; [apply getitem_no_exit | intros [= <-]; by eapply loads_no_exit].
Qed.

Lemma raise_ok_py_str j : raise_ok exit_report (lift (X:=X) (py_str j)).
Proof. apply raise_ok_lift, py_str_no_exit. Qed.
End Raises.

#[export] Hint Resolve raise_ok_run_command raise_ok_mkdir raise_ok_parser_error
  raise_ok_decode_account raise_ok_py_str : raises.
#[export] Hint Extern 1 (raise_ok exit_report (raise _)) => apply raise_ok_ordinary; reflexivity : raises.

Section Script.
Context {X : Type} `{ExternalTools X}.

Lemma raise_ok_print l : raise_ok exit_report (print (X:=X) l).
Proof. by intros w. Qed.

Lemma raise_ok_help {A} : raise_ok exit_report (raise (S:=world X) (A:=A) (SystemExit 0)).
Proof. apply raise_ok_raise. intros w. by left. Qed.
#[local] Hint Resolve raise_ok_print raise_ok_help : raises.

Lemma raise_ok_getargs argv : raise_ok exit_report (getargs (X:=X) argv).
Proof. unfold getargs, parse_args, make_workdir, check_usernames. solve_raise_ok. Qed.

Lemma raise_ok_create_identity_mapping r u :
  raise_ok exit_report (create_identity_mapping (X:=X) r u).
Proof.
  unfold create_identity_mapping, get_args, account_str, get_aws_account_id. solve_raise_ok.
Qed.
#[local] Hint Resolve raise_ok_getargs raise_ok_create_identity_mapping : raises.

Lemma raise_ok_main argv : raise_ok exit_report (main (X:=X) argv).
Proof. unfold main, get_args. solve_raise_ok. Qed.

(** (C7) Every run of the script exits with status 0, 1 or 2, whatever
    the command line, the file system and the services, and a non-zero
    status always comes with a message on standard error: the usage
    error of [argparse] for 2, the traceback for 1. *)
Theorem run_script_exit_status argv f (x : X) :
  (0 <= fst (run_script argv f x) <= 2)%Z /\
  (fst (run_script argv f x) <> 0%Z -> w_stderr (snd (run_script argv f x)) <> []).
Proof.
  unfold run_script. pose proof (raise_ok_main argv (initial_world f x)) as Hm.
  destruct (main argv (initial_world f x)) as [[|e] w]; simpl; [lia|].
  destruct e; simpl in *;
    try (split; [lia | intros _; by intros [_ ?]%app_eq_nil]).
  destruct Hm as [-> | [-> Hs]]; simpl; split; (lia || done).
Qed.
End Script.

Lemma run_script_exit_status_witness :
  let r := run_script ["team1"; "-u"; "arn:aws:iam::1:user/a"; "-c"; "prod"] sample_fs demo_aws in
  fst r = 2%Z /\ (0 <= fst r <= 2)%Z /\ (fst r <> 0%Z -> w_stderr (snd r) <> []).
Proof.
  cbv zeta. split; [vm_compute; reflexivity|].
  apply run_script_exit_status.
Defined.
