(* ===== verification/Toplevel.v ===== *)
(** * The module's top level (lines 2-7 and 221-222)

    Running [createrole.py] executes its module body in order: six
    imports (lines 2-7), the assignments and [def]s of lines 9-204, then
    the guard [if __name__ == "__main__": main()].  An import of a module
    that is not installed raises [ModuleNotFoundError], a [from m import
    n] whose module lacks [n] raises [ImportError], and an exception that
    reaches the top level ends the process: [SystemExit n] with [n], any
    other with a traceback and status 1.  The assignments and [def]s only
    bind names and cannot fail; the state they build is
    [Runtime.initial_world].

    This file gives that execution as the function [exec_module] over an
    [interpreter] that says which modules and names are installed, and
    proves what the unused [import yaml] of line 5 does on an interpreter
    without PyYAML ([module_missing_yaml]). *)

From Stdlib Require Import ZArith String Ascii.
From stdpp Require Import base strings list gmap.
From S2P Require Import Prelude Pathlib Runtime Mock Account Provision Args Main.

Open Scope string_scope.

(** The statements of the module body that can fail or act. *)
Inductive stmt : Type :=
| SImport (m : string)
| SImportFrom (m name : string)
| SMainGuard.

(** Lines 2-7, then the guard of lines 221-222. *)
Definition createrole_py : list stmt :=
  [SImport "json"; SImport "pathlib"; SImportFrom "sre_parse" "State";
   SImport "yaml"; SImport "subprocess"; SImport "argparse"; SMainGuard].

(** What the interpreter can import: the modules installed, and the
    names each one defines. *)
Record interpreter := mkInterp {
  importable : string -> bool;
  exports : string -> string -> bool
}.

(** The exception an import statement raises, if any. *)
Definition import_error (py : interpreter) (s : stmt) : option pyexn :=
  match s with
  | SImport m => if importable py m then None else Some (ModuleNotFoundError m)
  | SImportFrom m n =>
      if importable py m then if exports py m n then None else Some (ImportError n m)
      else Some (ModuleNotFoundError m)
  | SMainGuard => None
  end.

(** A process: still running the statements [code], or exited. *)
Inductive proc (X : Type) : Type :=
| Running (code : list stmt) (w : world X)
| Exited (status : Z) (w : world X).
Arguments Running {X}.
Arguments Exited {X}.

Definition traceback {X} (w : world X) : world X := add_stderr w "Traceback (most recent call last)".

(** An exception that reaches the top level, as in [run_script]. *)
Definition uncaught {X} (e : pyexn) (w : world X) : proc X :=
  Exited (exit_status (Raise e)) (if is_exit e then w else traceback w).

Section Semantics.
Context {X : Type} `{ExternalTools X} (py : interpreter) (argv : list string).

(** The module body run to its end. *)
Fixpoint exec_module (code : list stmt) (w : world X) : proc X :=
  match code with
  | [] => Exited 0 w
  | SMainGuard :: c =>
      match main argv w with
      | (Ok _, w') => exec_module c w'
      | (Raise e, w') => uncaught e w'
      end
  | s :: c =>
      match import_error py s with
      | None => exec_module c w
      | Some e => uncaught e w
      end
  end.

End Semantics.

Section Script.
Context {X : Type} `{ExternalTools X} (py : interpreter) (argv : list string).

(** (C8) Line 5 imports [yaml], which the script never uses: on an
    interpreter without PyYAML whose first three imports succeed, the
    process exits with status 1 and a traceback before [main] runs, so
    it parses nothing, creates no directory, prints nothing and starts
    no command. *)
Theorem module_missing_yaml (w : world X) :
  importable py "json" = true -> importable py "pathlib" = true ->
  importable py "sre_parse" = true -> exports py "sre_parse" "State" = true ->
  importable py "yaml" = false ->
  exec_module py argv createrole_py w = Exited 1 (traceback w).
Proof. intros Hj Hp Hs Hst Hy. simpl. by rewrite Hj, Hp, Hs, Hst, Hy. Qed.
End Script.

(** ** Concrete interpreters *)

Definition python_without_yaml : interpreter :=
  mkInterp (fun m => negb (String.eqb m "yaml")) (fun _ _ => true).

Lemma module_missing_yaml_witness :
  exec_module python_without_yaml demo_argv createrole_py (initial_world sample_fs demo_aws) =
    Exited 1 (traceback (initial_world sample_fs demo_aws)).
Proof. apply module_missing_yaml; reflexivity. Defined.
